(** * A shallow embedding of the [wikipedia] client library

    The development follows [wikipedia/wikipedia.py] and
    [wikipedia/exceptions.py]: Python values are a small tagged union,
    dictionaries are ordered association lists (insertion order is observable
    through [list(d.keys())[0]] and [d.values()]), the module's global
    configuration, the memo tables of the [@cache] decorator, the remote
    MediaWiki endpoint and the wall clock are one state record that is threaded
    through a state-and-exception monad.  *)

From Stdlib Require Import String Ascii List ZArith Lia Bool Arith.
Import ListNotations.
Open Scope string_scope.
Open Scope Z_scope.
Set Warnings "-register-all".

(* ===================================================================== *)
(** ** Python strings *)
(* ===================================================================== *)

(** A [str] is a sequence of code points; the model keeps the code points
    U+0000..U+00FF, one per [ascii]. *)
Module Str.

Definition code (c : ascii) : nat := nat_of_ascii c.

(** [str.isspace] on one code point below U+0100. *)
Definition isspace (c : ascii) : bool :=
  let n := code c in
  ((9 <=? n)%nat && (n <=? 13)%nat) || ((28 <=? n)%nat && (n <=? 32)%nat)
  || (n =? 133)%nat || (n =? 160)%nat.

Fixpoint rev_acc (s acc : string) : string :=
  match s with
  | EmptyString => acc
  | String c s' => rev_acc s' (String c acc)
  end.

Definition rev (s : string) : string := rev_acc s EmptyString.

(** [s.lstrip(chars)] with the set of characters given as a predicate. *)
Fixpoint lstrip_by (p : ascii -> bool) (s : string) : string :=
  match s with
  | EmptyString => EmptyString
  | String c s' => if p c then lstrip_by p s' else s
  end.

Definition rstrip_by (p : ascii -> bool) (s : string) : string :=
  rev (lstrip_by p (rev s)).

Definition mem_char (chars : string) (c : ascii) : bool :=
  match String.index 0 (String c EmptyString) chars with
  | Some _ => true
  | None => false
  end.

(** [s.lstrip(chars)] *)
Definition lstrip (chars s : string) : string := lstrip_by (mem_char chars) s.

(** [s.strip()] *)
Definition strip (s : string) : string := rstrip_by isspace (lstrip_by isspace s).

(** [s.startswith(p)] *)
Definition startswith (p s : string) : bool := String.prefix p s.

Fixpoint drop (n : nat) (s : string) : string :=
  match n, s with
  | O, _ => s
  | S n', String _ s' => drop n' s'
  | S _, EmptyString => EmptyString
  end.

(** Lowest offset at which [sub] occurs in [s]. *)
Fixpoint find (sub s : string) : option nat :=
  if String.prefix sub s then Some O
  else match s with
       | EmptyString => None
       | String _ s' => option_map S (find sub s')
       end.

(** [s.index(sub, start)] for [0 <= start]; [None] is [ValueError]. *)
Definition index_from (sub s : string) (start : nat) : option nat :=
  if (String.length s <? start)%nat then None
  else option_map (fun i => (start + i)%nat) (find sub (drop start s)).

(** [sub in s] *)
Definition contains (sub s : string) : bool :=
  match find sub s with Some _ => true | None => false end.

(** [s[i:j]] for [0 <= i], [0 <= j]. *)
Definition slice (s : string) (i j : nat) : string :=
  String.substring i (j - i) s.

(** [s.replace(old, new)] for a non-empty [old]: occurrences are replaced
    left to right without overlap.  The fuel is the length of [s]. *)
Fixpoint replace_fuel (fuel : nat) (old new s : string) : string :=
  match fuel with
  | O => s
  | S fuel' =>
      match s with
      | EmptyString => EmptyString
      | String c s' =>
          if String.prefix old s
          then new ++ replace_fuel fuel' old new (drop (String.length old) s)
          else String c (replace_fuel fuel' old new s')
      end
  end.

Definition replace (old new s : string) : string :=
  match old with
  | EmptyString => s
  | _ => replace_fuel (String.length s) old new s
  end.

(** [s.lower()] on the code points the model keeps. *)
Definition lower_char (c : ascii) : ascii :=
  let n := code c in
  if ((65 <=? n)%nat && (n <=? 90)%nat)
     || ((192 <=? n)%nat && (n <=? 222)%nat && negb (n =? 215)%nat)
  then ascii_of_nat (n + 32) else c.

Fixpoint lower (s : string) : string :=
  match s with
  | EmptyString => EmptyString
  | String c s' => String (lower_char c) (lower s')
  end.

(** [sep.join(parts)] *)
Fixpoint join (sep : string) (parts : list string) : string :=
  match parts with
  | [] => EmptyString
  | [p] => p
  | p :: rest => p ++ sep ++ join sep rest
  end.

(** [s.split(sep)] for a one-character separator. *)
Fixpoint split_acc (sep : ascii) (s cur : string) : list string :=
  match s with
  | EmptyString => [rev cur]
  | String c s' =>
      if Ascii.eqb c sep then rev cur :: split_acc sep s' EmptyString
      else split_acc sep s' (String c cur)
  end.

Definition split (sep : ascii) (s : string) : list string :=
  split_acc sep s EmptyString.

Definition isdigit (c : ascii) : bool :=
  let n := code c in (48 <=? n)%nat && (n <=? 57)%nat.

(** Digits with single underscores between them, as [int] accepts. *)
Fixpoint digits_acc (s : string) (acc : Z) (after_digit : bool) : option Z :=
  match s with
  | EmptyString => if after_digit then Some acc else None
  | String c s' =>
      if isdigit c
      then digits_acc s' (10 * acc + Z.of_nat (code c - 48)) true
      else if Ascii.eqb c "_" && after_digit then digits_acc s' acc false
      else None
  end.

(** [int(s)] in base ten: blanks around, an optional sign, decimal digits.
    [None] is [ValueError]. *)
Definition to_int (s : string) : option Z :=
  match strip s with
  | String "+" r => digits_acc r 0 false
  | String "-" r => option_map Z.opp (digits_acc r 0 false)
  | t => digits_acc t 0 false
  end.

End Str.

(* ===================================================================== *)
(** ** Python values *)
(* ===================================================================== *)

(** The values that flow through the library: parsed JSON, request
    parameters, instance attributes and results.  A [dict] is an association
    list in insertion order; its keys are strings, as in JSON objects and in
    every dictionary the library builds.  A float is the finite binary
    fraction [m * 2^e], a [Decimal] the finite decimal [c * 10^e]. *)
Inductive value : Type :=
| VNone
| VBool (b : bool)
| VInt (z : Z)
| VFloat (m e : Z)
| VDecimal (c e : Z)
| VStr (s : string)
| VList (l : list value)
| VTuple (l : list value)
| VDict (d : list (string * value)).

Definition dict := list (string * value).

(** Truth value of an object, as [if x:] and [not x] see it. *)
Definition truthy (v : value) : bool :=
  match v with
  | VNone => false
  | VBool b => b
  | VInt z => negb (z =? 0)
  | VFloat m _ => negb (m =? 0)
  | VDecimal c _ => negb (c =? 0)
  | VStr s => negb (String.eqb s EmptyString)
  | VList l | VTuple l => match l with [] => false | _ => true end
  | VDict d => match d with [] => false | _ => true end
  end.

(** Structural identity of two values. *)
Fixpoint same_value (a b : value) : bool :=
  match a, b with
  | VNone, VNone => true
  | VBool x, VBool y => Bool.eqb x y
  | VInt x, VInt y => x =? y
  | VFloat m e, VFloat m' e' => (m =? m') && (e =? e')
  | VDecimal m e, VDecimal m' e' => (m =? m') && (e =? e')
  | VStr x, VStr y => String.eqb x y
  | VList l, VList l' | VTuple l, VTuple l' =>
      (fix go (l l' : list value) : bool :=
         match l, l' with
         | [], [] => true
         | x :: xs, y :: ys => same_value x y && go xs ys
         | _, _ => false
         end) l l'
  | VDict d, VDict d' =>
      (fix go (d d' : dict) : bool :=
         match d, d' with
         | [], [] => true
         | (k, x) :: xs, (k', y) :: ys =>
             String.eqb k k' && same_value x y && go xs ys
         | _, _ => false
         end) d d'
  | _, _ => false
  end.

(** A number as [n * 2^a * 10^b], for comparison across [int], [bool],
    [float] and [Decimal]. *)
Definition as_number (v : value) : option (Z * Z * Z) :=
  match v with
  | VBool b => Some (if b then 1 else 0, 0, 0)
  | VInt z => Some (z, 0, 0)
  | VFloat m e => Some (m, e, 0)
  | VDecimal c e => Some (c, 0, e)
  | _ => None
  end.

Definition number_eqb (x y : Z * Z * Z) : bool :=
  let '(n, a, b) := x in
  let '(n', a', b') := y in
  let a0 := Z.min a a' in
  let b0 := Z.min b b' in
  n * 2 ^ (a - a0) * 10 ^ (b - b0) =? n' * 2 ^ (a' - a0) * 10 ^ (b' - b0).

(** [a == b]: numbers by value, strings and sequences by content,
    dictionaries regardless of order. *)
Fixpoint py_eq (a b : value) : bool :=
  match as_number a, as_number b with
  | Some x, Some y => number_eqb x y
  | _, _ =>
      match a, b with
      | VNone, VNone => true
      | VStr x, VStr y => String.eqb x y
      | VList l, VList l' | VTuple l, VTuple l' =>
          (fix go (l l' : list value) : bool :=
             match l, l' with
             | [], [] => true
             | x :: xs, y :: ys => py_eq x y && go xs ys
             | _, _ => false
             end) l l'
      | VDict d, VDict d' =>
          (List.length d =? List.length d')%nat
          && (fix go (d : list (string * value)) : bool :=
                match d with
                | [] => true
                | (k, x) :: xs =>
                    match
                      (fix get (d' : list (string * value)) : option value :=
                         match d' with
                         | [] => None
                         | (k', y) :: ys => if String.eqb k k' then Some y else get ys
                         end) d'
                    with
                    | Some y => py_eq x y && go xs
                    | None => false
                    end
                end) d
      | _, _ => false
      end
  end.

Module Dict.

(** [d[k]], [None] when the key is absent. *)
Fixpoint get (k : string) (d : dict) : option value :=
  match d with
  | [] => None
  | (k', v) :: d' => if String.eqb k k' then Some v else get k d'
  end.

(** [k in d] *)
Definition has (k : string) (d : dict) : bool :=
  match get k d with Some _ => true | None => false end.

(** [d[k] = v]: an existing key keeps its place, a new key goes last. *)
Fixpoint set (k : string) (v : value) (d : dict) : dict :=
  match d with
  | [] => [(k, v)]
  | (k', v') :: d' =>
      if String.eqb k k' then (k', v) :: d' else (k', v') :: set k v d'
  end.

(** [del d[k]] *)
Fixpoint del (k : string) (d : dict) : dict :=
  match d with
  | [] => []
  | (k', v') :: d' => if String.eqb k k' then d' else (k', v') :: del k d'
  end.

(** [d.update(other)] for a mapping [other]. *)
Definition update (d other : dict) : dict :=
  fold_left (fun acc kv => set (fst kv) (snd kv) acc) other d.

Definition keys (d : dict) : list string := map fst d.
Definition values (d : dict) : list value := map snd d.

End Dict.

(* ===================================================================== *)
(** ** Exceptions *)
(* ===================================================================== *)

Inductive exn : Type :=
(* wikipedia/exceptions.py; the arguments are the instance attributes *)
| WikipediaException (error : value)
| PageError (pageid title : option value)
| DisambiguationError (title : value) (options : list value) (details : list value)
| RedirectError (title : value)
| HTTPTimeoutError (query : value)
| WikipediaAPIURLError (api_url : string)
| WikipediaAPILanguageError (api_url old_prefix new_prefix : string)
| WikipediaAPIVersionError (api_url : string) (current_version : option string)
                           (required_version function : string)
| WikipediaExtensionError (api_url extension function : string)
(* built-in exceptions *)
| KeyError (key : value)
| IndexError
| NameError (name : string)
| ValueError (msg : string)
| TypeError
| AttributeError (name : string)
| AssertionError (msg : string)
(* raised by the HTTP session: timeouts, connection errors *)
| RequestException (what : string).

Definition ODD_ERROR_MESSAGE : string :=
  "This shouldn't happen. Please report on GitHub: github.com/goldsmith/Wikipedia".

(** [PageError.__init__(self, pageid=None, *args)]: a true [pageid] is stored
    as [self.pageid], otherwise [self.title = args[0]].  Building the
    exception can itself raise [IndexError]. *)
Definition PageError_init (pageid : value) (args : list value) : exn :=
  if truthy pageid then PageError (Some pageid) None
  else match args with
       | a :: _ => PageError None (Some a)
       | [] => IndexError
       end.

Definition is_PageError (e : exn) : bool :=
  match e with PageError _ _ => true | _ => false end.
Definition is_IndexError (e : exn) : bool :=
  match e with IndexError => true | _ => false end.
Definition is_ValueError (e : exn) : bool :=
  match e with ValueError _ => true | _ => false end.
Definition is_WikipediaAPIVersionError (e : exn) : bool :=
  match e with WikipediaAPIVersionError _ _ _ _ => true | _ => false end.
Definition is_WikipediaExtensionError (e : exn) : bool :=
  match e with WikipediaExtensionError _ _ _ => true | _ => false end.

(* ===================================================================== *)
(** ** The state: configuration, memo tables, remote, clock *)
(* ===================================================================== *)

(** [WIKIPEDIA_GLOBALS].  Times are microseconds: a [datetime] is a point,
    a [timedelta] a length. *)
Record Globals : Type := mkGlobals {
  API_URL : string;
  API_VERSION : option string;
  API_VERSION_MAJOR_MINOR : option (list Z);
  INSTALLED_EXTENSIONS : option (list value);
  LANGUAGE_PREFIX : string;
  RATE_LIMIT : bool;
  RATE_LIMIT_MIN_WAIT : option Z;
  RATE_LIMIT_LAST_CALL : option Z;
  USER_AGENT : string;
  SESSION : option string;      (* the session's User-Agent header *)
  TIMEOUT : option Z
}.

Definition get_version : string := "1.4.5".

Definition initial_globals : Globals := {|
  API_URL := "http://en.wikipedia.org/w/api.php";
  API_VERSION := None;
  API_VERSION_MAJOR_MINOR := None;
  INSTALLED_EXTENSIONS := None;
  LANGUAGE_PREFIX := "en";
  RATE_LIMIT := false;
  RATE_LIMIT_MIN_WAIT := None;
  RATE_LIMIT_LAST_CALL := None;
  USER_AGENT := "python-mediawiki/" ++ get_version
                ++ " (https://github.com/barrust/Wikipedia/) BOT";
  SESSION := None;
  TIMEOUT := None
|}.

(** One HTTP GET as the remote sees it. *)
Record request : Type := mkRequest {
  rq_url : string;
  rq_params : dict;
  rq_timeout : option Z;
  rq_user_agent : string
}.

(** What one GET comes back with: a body that parses as JSON ([Some]) or does
    not ([None]), or an exception of the HTTP layer. *)
Inductive reply : Type :=
| Reply (json : option value)
| NoReply (e : exn).

(** The functions under [@cache]. *)
Inductive cached_fn : Type :=
| Fsearch | Fcategorymembers | Fgeosearch | Fopensearch | Fprefexsearch
| Fsuggest | Fsummary | Flanguages.

Definition cached_fn_eqb (f g : cached_fn) : bool :=
  match f, g with
  | Fsearch, Fsearch | Fcategorymembers, Fcategorymembers
  | Fgeosearch, Fgeosearch | Fopensearch, Fopensearch
  | Fprefexsearch, Fprefexsearch | Fsuggest, Fsuggest
  | Fsummary, Fsummary | Flanguages, Flanguages => true
  | _, _ => false
  end.

(** The arguments of one call, positional then keyword. *)
Definition call_key : Type := list value * dict.

Definition call_key_eqb (a b : call_key) : bool :=
  same_value (VList (fst a)) (VList (fst b))
  && same_value (VDict (snd a)) (VDict (snd b)).

(** The whole state.  [pending] is what the remote will answer to the next
    requests, in order; when it runs out the host is unreachable and the
    session raises.  [sent] is the log of requests issued, latest first.
    [clock n] is what the [n]-th reading of [datetime.now()] returns and
    [slept] logs the arguments of [time.sleep], latest first.  [heap] holds
    the instance attributes of every object by address; [next_addr] is the
    address the next object gets. *)
Record World : Type := mkWorld {
  globals : Globals;
  memo : list (cached_fn * call_key * value);
  pending : list reply;
  sent : list request;
  clock : nat -> Z;
  reads : nat;
  slept : list Z;
  heap : nat -> dict;
  next_addr : nat
}.

Definition with_globals (g : Globals) (w : World) : World :=
  mkWorld g (memo w) (pending w) (sent w) (clock w) (reads w) (slept w)
          (heap w) (next_addr w).
Definition with_memo (m : list (cached_fn * call_key * value)) (w : World) : World :=
  mkWorld (globals w) m (pending w) (sent w) (clock w) (reads w) (slept w)
          (heap w) (next_addr w).
Definition with_remote (p : list reply) (s : list request) (w : World) : World :=
  mkWorld (globals w) (memo w) p s (clock w) (reads w) (slept w)
          (heap w) (next_addr w).
Definition with_reads (n : nat) (w : World) : World :=
  mkWorld (globals w) (memo w) (pending w) (sent w) (clock w) n (slept w)
          (heap w) (next_addr w).
Definition with_slept (l : list Z) (w : World) : World :=
  mkWorld (globals w) (memo w) (pending w) (sent w) (clock w) (reads w) l
          (heap w) (next_addr w).
Definition with_heap (h : nat -> dict) (n : nat) (w : World) : World :=
  mkWorld (globals w) (memo w) (pending w) (sent w) (clock w) (reads w)
          (slept w) h n.

(* ===================================================================== *)
(** ** The monad *)
(* ===================================================================== *)

(** A run returns, raises, or exceeds the bound on loop rounds and nested
    calls that the looping functions take as [fuel] (in Python: it does not
    return).  The state survives an exception, as assignments do. *)
Inductive outcome (A : Type) : Type :=
| Ok (a : A)
| Raise (e : exn)
| Diverge.
Arguments Ok {A} a.
Arguments Raise {A} e.
Arguments Diverge {A}.

Definition M (A : Type) : Type := World -> outcome A * World.

Definition ret {A} (a : A) : M A := fun w => (Ok a, w).
Definition raise {A} (e : exn) : M A := fun w => (Raise e, w).
Definition diverge {A} : M A := fun w => (Diverge, w).

Definition bind {A B} (m : M A) (k : A -> M B) : M B :=
  fun w => match m w with
           | (Ok a, w') => k a w'
           | (Raise e, w') => (Raise e, w')
           | (Diverge, w') => (Diverge, w')
           end.

(** [try: m except ...: h e] where [h] re-raises what no clause matches. *)
Definition try_except {A} (m : M A) (h : exn -> M A) : M A :=
  fun w => match m w with
           | (Raise e, w') => h e w'
           | r => r
           end.

Declare Scope py_scope.
Delimit Scope py_scope with py.
Notation "x <- m ;; k" := (bind m (fun x => k))
  (at level 61, m at next level, right associativity) : py_scope.
Notation "m ;; k" := (bind m (fun _ => k))
  (at level 61, right associativity) : py_scope.
Open Scope py_scope.

(** Lift a pure partial operation. *)
Definition lift {A} (r : exn + A) : M A :=
  match r with inl e => raise e | inr a => ret a end.

Definition get_globals : M Globals := fun w => (Ok (globals w), w).
Definition set_globals (g : Globals) : M unit := fun w => (Ok tt, with_globals g w).

(** [datetime.now()] *)
Definition now : M Z :=
  fun w => (Ok (clock w (reads w)), with_reads (S (reads w)) w).

(** [time.sleep(secs)] *)
Definition sleep (secs : Z) : M unit :=
  if secs <? 0 then raise (ValueError "sleep length must be non-negative")
  else fun w => (Ok tt, with_slept (secs :: slept w) w).

(* ===================================================================== *)
(** ** Operations on values *)
(* ===================================================================== *)

(** Each is [inl] of the exception Python raises or [inr] of the result. *)
Module Py.

(** [v[k]] for a string [k] *)
Definition item (v : value) (k : string) : exn + value :=
  match v with
  | VDict d => match Dict.get k d with
               | Some x => inr x
               | None => inl (KeyError (VStr k))
               end
  | _ => inl TypeError
  end.

(** [v[n]] for a non-negative integer [n] *)
Definition item_at (v : value) (n : nat) : exn + value :=
  match v with
  | VList l | VTuple l =>
      match nth_error l n with Some x => inr x | None => inl IndexError end
  | VStr s =>
      match String.get n s with
      | Some c => inr (VStr (String c EmptyString))
      | None => inl IndexError
      end
  | VDict _ => inl (KeyError (VInt (Z.of_nat n)))
  | _ => inl TypeError
  end.

(** [k in v] for a string [k] *)
Definition contains (k : string) (v : value) : exn + bool :=
  match v with
  | VDict d => inr (Dict.has k d)
  | VList l | VTuple l => inr (existsb (py_eq (VStr k)) l)
  | VStr s => inr (Str.contains k s)
  | _ => inl TypeError
  end.

(** [v.get(k, default)] *)
Definition get (v : value) (k : string) (default : value) : exn + value :=
  match v with
  | VDict d => inr (match Dict.get k d with Some x => x | None => default end)
  | _ => inl (AttributeError "get")
  end.

(** [v[k]] for any key: keys of a [dict] are strings, lists and
    dictionaries are unhashable *)
Definition item_v (v k : value) : exn + value :=
  match v, k with
  | VDict _, VStr s => item v s
  | VDict _, (VList _ | VDict _) => inl TypeError
  | VDict _, _ => inl (KeyError k)
  | (VList l | VTuple l), VInt z =>
      let n := Z.of_nat (List.length l) in
      let i := if z <? 0 then z + n else z in
      if (i <? 0) || (n <=? i) then inl IndexError
      else item_at v (Z.to_nat i)
  | VStr s, VInt z =>
      let n := Z.of_nat (String.length s) in
      let i := if z <? 0 then z + n else z in
      if (i <? 0) || (n <=? i) then inl IndexError
      else item_at v (Z.to_nat i)
  | _, _ => inl TypeError
  end.

(** [v.get(k, default)] for any key *)
Definition get_v (v k default : value) : exn + value :=
  match v, k with
  | VDict _, VStr s => get v s default
  | VDict _, (VList _ | VDict _) => inl TypeError
  | VDict _, _ => inr default
  | _, _ => inl (AttributeError "get")
  end.

(** [v.keys()] and [v.values()] *)
Definition keys (v : value) : exn + list string :=
  match v with
  | VDict d => inr (Dict.keys d)
  | _ => inl (AttributeError "keys")
  end.
Definition values (v : value) : exn + list value :=
  match v with
  | VDict d => inr (Dict.values d)
  | _ => inl (AttributeError "values")
  end.

Fixpoint chars (s : string) : list value :=
  match s with
  | EmptyString => []
  | String c s' => VStr (String c EmptyString) :: chars s'
  end.

(** The elements [for x in v] runs over. *)
Definition iter (v : value) : exn + list value :=
  match v with
  | VList l | VTuple l => inr l
  | VDict d => inr (map VStr (Dict.keys d))
  | VStr s => inr (chars s)
  | _ => inl TypeError
  end.

(** A value used as a string by a [str] method named [meth]. *)
Definition str_method (meth : string) (v : value) : exn + string :=
  match v with
  | VStr s => inr s
  | _ => inl (AttributeError meth)
  end.

Fixpoint position (x : value) (l : list value) : option nat :=
  match l with
  | [] => None
  | y :: l' => if py_eq y x then Some O else option_map S (position x l')
  end.

(** [v.index(x, start)] for a string [x] and [0 <= start] *)
Definition index_from (v : value) (x : string) (start : nat) : exn + nat :=
  match v with
  | VStr s =>
      match Str.index_from x s start with
      | Some i => inr i
      | None => inl (ValueError "substring not found")
      end
  | VList l | VTuple l =>
      match position (VStr x) (skipn start l) with
      | Some i => inr (start + i)%nat
      | None => inl (ValueError "is not in list")
      end
  | _ => inl (AttributeError "index")
  end.

(** [len(v)] *)
Definition len (v : value) : exn + nat :=
  match v with
  | VStr s => inr (String.length s)
  | VList l | VTuple l => inr (List.length l)
  | VDict d => inr (List.length d)
  | _ => inl TypeError
  end.

(** [v[i:j].lstrip("=").strip()] for [0 <= i], [0 <= j] *)
Definition slice_lstrip_strip (v : value) (i j : nat) : exn + value :=
  match v with
  | VStr s => inr (VStr (Str.strip (Str.lstrip "=" (Str.slice s i j))))
  | VList _ | VTuple _ => inl (AttributeError "lstrip")
  | _ => inl TypeError
  end.

(** One [key, value] element of a sequence given to [dict.update]. *)
Definition pair_of (v : value) : exn + (string * value) :=
  match v with
  | VList [VStr k; x] | VTuple [VStr k; x] => inr (k, x)
  | VList [_; _] | VTuple [_; _] => inl TypeError
  | VStr (String a (String b EmptyString)) =>
      inr (String a EmptyString, VStr (String b EmptyString))
  | VList _ | VTuple _ | VStr _ => inl (ValueError "dictionary update sequence element")
  | _ => inl TypeError
  end.

Fixpoint update_pairs (d : dict) (l : list value) : exn + dict :=
  match l with
  | [] => inr d
  | x :: l' => match pair_of x with
               | inl e => inl e
               | inr (k, v) => update_pairs (Dict.set k v d) l'
               end
  end.

(** [d.update(other)]: a mapping is merged key by key, a sequence must hold
    [key, value] pairs.  A pair whose key is not a string has no place in
    [dict] and is answered [TypeError]. *)
Definition update (d : dict) (other : value) : exn + dict :=
  match other with
  | VDict o => inr (Dict.update d o)
  | VList l | VTuple l => update_pairs d l
  | VStr s => update_pairs d (chars s)
  | _ => inl TypeError
  end.

End Py.

(** *** Objects

    An object is the address of its [__dict__] in the heap. *)
Definition addr := nat.

Definition store (h : nat -> dict) (a : addr) (o : dict) : nat -> dict :=
  fun b => if Nat.eqb b a then o else h b.

(** A fresh object without attributes. *)
Definition new_object : M addr :=
  fun w => (Ok (next_addr w),
            with_heap (store (heap w) (next_addr w) []) (S (next_addr w)) w).

Definition attrs (self : addr) : M dict := fun w => (Ok (heap w self), w).

(** [self.name] *)
Definition attr (self : addr) (name : string) : M value :=
  o <- attrs self ;;
  match Dict.get name o with
  | Some v => ret v
  | None => raise (AttributeError name)
  end.

(** [getattr(self, name, default)] *)
Definition getattr (self : addr) (name : string) (default : value) : M value :=
  o <- attrs self ;;
  ret (match Dict.get name o with Some v => v | None => default end).

(** [hasattr(self, name)] *)
Definition hasattr (self : addr) (name : string) : M bool :=
  o <- attrs self ;; ret (Dict.has name o).

(** The state after [self.name = v]. *)
Definition assign (self : addr) (name : string) (v : value) (w : World) : World :=
  with_heap (store (heap w) self (Dict.set name v (heap w self))) (next_addr w) w.

(** [self.name = v] *)
Definition setattr (self : addr) (name : string) (v : value) : M unit :=
  fun w => (Ok tt, assign self name v w).

(** The state after [del self.name]. *)
Definition unassign (self : addr) (name : string) (w : World) : World :=
  with_heap (store (heap w) self (Dict.del name (heap w self))) (next_addr w) w.

(** [delattr(self, name)] *)
Definition delattr (self : addr) (name : string) : M unit :=
  o <- attrs self ;;
  if Dict.has name o
  then fun w => (Ok tt, unassign self name w)
  else raise (AttributeError name).

(** [self.name.append(x)] *)
Definition append_attr (self : addr) (name : string) (x : value) : M unit :=
  l <- attr self name ;;
  match l with
  | VList l => setattr self name (VList (l ++ [x]))
  | _ => raise (AttributeError "append")
  end.

(* ===================================================================== *)
(** ** Configuration *)
(* ===================================================================== *)

Definition set_SESSION (x : option string) (g : Globals) : Globals :=
  mkGlobals (API_URL g) (API_VERSION g) (API_VERSION_MAJOR_MINOR g)
            (INSTALLED_EXTENSIONS g) (LANGUAGE_PREFIX g) (RATE_LIMIT g)
            (RATE_LIMIT_MIN_WAIT g) (RATE_LIMIT_LAST_CALL g) (USER_AGENT g)
            x (TIMEOUT g).
Definition set_RATE_LIMIT_LAST_CALL (x : option Z) (g : Globals) : Globals :=
  mkGlobals (API_URL g) (API_VERSION g) (API_VERSION_MAJOR_MINOR g)
            (INSTALLED_EXTENSIONS g) (LANGUAGE_PREFIX g) (RATE_LIMIT g)
            (RATE_LIMIT_MIN_WAIT g) x (USER_AGENT g) (SESSION g) (TIMEOUT g).
Definition set_rate (limit : bool) (wait : option Z) (g : Globals) : Globals :=
  mkGlobals (API_URL g) (API_VERSION g) (API_VERSION_MAJOR_MINOR g)
            (INSTALLED_EXTENSIONS g) (LANGUAGE_PREFIX g) limit
            wait None (USER_AGENT g) (SESSION g) (TIMEOUT g).
Definition set_site (url prefix : string) (g : Globals) : Globals :=
  mkGlobals url (API_VERSION g) (API_VERSION_MAJOR_MINOR g)
            (INSTALLED_EXTENSIONS g) prefix (RATE_LIMIT g)
            (RATE_LIMIT_MIN_WAIT g) (RATE_LIMIT_LAST_CALL g) (USER_AGENT g)
            (SESSION g) (TIMEOUT g).
Definition set_API_VERSION (x : option string) (g : Globals) : Globals :=
  mkGlobals (API_URL g) x (API_VERSION_MAJOR_MINOR g)
            (INSTALLED_EXTENSIONS g) (LANGUAGE_PREFIX g) (RATE_LIMIT g)
            (RATE_LIMIT_MIN_WAIT g) (RATE_LIMIT_LAST_CALL g) (USER_AGENT g)
            (SESSION g) (TIMEOUT g).
Definition set_API_VERSION_MAJOR_MINOR (x : option (list Z)) (g : Globals) : Globals :=
  mkGlobals (API_URL g) (API_VERSION g) x
            (INSTALLED_EXTENSIONS g) (LANGUAGE_PREFIX g) (RATE_LIMIT g)
            (RATE_LIMIT_MIN_WAIT g) (RATE_LIMIT_LAST_CALL g) (USER_AGENT g)
            (SESSION g) (TIMEOUT g).
Definition set_INSTALLED_EXTENSIONS (x : option (list value)) (g : Globals) : Globals :=
  mkGlobals (API_URL g) (API_VERSION g) (API_VERSION_MAJOR_MINOR g)
            x (LANGUAGE_PREFIX g) (RATE_LIMIT g)
            (RATE_LIMIT_MIN_WAIT g) (RATE_LIMIT_LAST_CALL g) (USER_AGENT g)
            (SESSION g) (TIMEOUT g).
Definition set_USER_AGENT (x : string) (g : Globals) : Globals :=
  mkGlobals (API_URL g) (API_VERSION g) (API_VERSION_MAJOR_MINOR g)
            (INSTALLED_EXTENSIONS g) (LANGUAGE_PREFIX g) (RATE_LIMIT g)
            (RATE_LIMIT_MIN_WAIT g) (RATE_LIMIT_LAST_CALL g) x
            (SESSION g) (TIMEOUT g).
Definition set_TIMEOUT (x : option Z) (g : Globals) : Globals :=
  mkGlobals (API_URL g) (API_VERSION g) (API_VERSION_MAJOR_MINOR g)
            (INSTALLED_EXTENSIONS g) (LANGUAGE_PREFIX g) (RATE_LIMIT g)
            (RATE_LIMIT_MIN_WAIT g) (RATE_LIMIT_LAST_CALL g) (USER_AGENT g)
            (SESSION g) x.

(** [reset_session()] *)
Definition reset_session : M unit :=
  g <- get_globals ;;
  set_globals (set_SESSION (Some (USER_AGENT g)) g).

(** [set_user_agent(user_agent_string)] *)
Definition set_user_agent (user_agent_string : string) : M unit :=
  g <- get_globals ;;
  set_globals (set_USER_AGENT user_agent_string g) ;;
  reset_session.

(** [set_timeout(timeout)] *)
Definition set_timeout (timeout : option Z) : M unit :=
  g <- get_globals ;;
  set_globals (set_TIMEOUT timeout g).

(** [set_rate_limiting(rate_limit, min_wait=timedelta(milliseconds=50))] *)
Definition set_rate_limiting (rate_limit : bool) (min_wait : option Z) : M unit :=
  g <- get_globals ;;
  set_globals (set_rate rate_limit (if rate_limit then min_wait else None) g).

(* ===================================================================== *)
(** ** [_wiki_request] *)
(* ===================================================================== *)

(** What [_wiki_request] does to the dictionary it is given, which is the
    caller's own object. *)
Definition request_params (params : dict) : dict :=
  let params := Dict.set "format" (VStr "json") params in
  if Dict.has "action" params then params
  else Dict.set "action" (VStr "query") params.

(** [SESSION.get(url, params=params, timeout=timeout)] *)
Definition session_get (url : string) (params : dict) (timeout : option Z)
  : M reply :=
  fun w =>
    match SESSION (globals w) with
    | None => (Raise (AttributeError "get"), w)
    | Some agent =>
        let rq := mkRequest url params timeout agent in
        match pending w with
        | r :: rest => (Ok r, with_remote rest (rq :: sent w) w)
        | [] => (Ok (NoReply (RequestException "ConnectionError")),
                 with_remote [] (rq :: sent w) w)
        end
    end.

(** The body of the [if rate_limit and last_call and ...] statement: the
    sleep, then the loop over [filtered_lis], a name that is bound nowhere
    in the function or the module. *)
Definition rate_limit_wait (last_call wait : Z) : M unit :=
  t <- now ;;
  let wait_time := (last_call + wait) - t in
  sleep (Z.quot wait_time 1000000) ;;
  raise (NameError "filtered_lis").

Definition _wiki_request (params : dict) : M value :=
  g <- get_globals ;;
  let rate_limit := RATE_LIMIT g in
  let last_call := RATE_LIMIT_LAST_CALL g in
  let wait := RATE_LIMIT_MIN_WAIT g in
  let url := API_URL g in
  let params := request_params params in
  (if rate_limit then
     match last_call with
     | None => ret tt
     | Some last_call =>
         match wait with
         | None => raise TypeError
         | Some wait =>
             t <- now ;;
             if last_call + wait >? t then rate_limit_wait last_call wait
             else ret tt
         end
     end
   else ret tt) ;;
  (g <- get_globals ;;
   match SESSION g with None => reset_session | Some _ => ret tt end) ;;
  g' <- get_globals ;;
  r <- session_get url params (TIMEOUT g') ;;
  match r with
  | NoReply e => raise e
  | Reply body =>
      (if rate_limit then
         t <- now ;;
         g <- get_globals ;;
         set_globals (set_RATE_LIMIT_LAST_CALL (Some t) g)
       else ret tt) ;;
      match body with
      | Some json => ret json
      | None => raise (ValueError "No JSON object could be decoded")
      end
  end.

(** *** The state after an answered request

    With rate limiting off, a request that the remote answers with JSON leaves
    the state [answered params w]: the session exists, the request is logged
    and the answer is consumed. *)
Definition open_session (g : Globals) : Globals :=
  match SESSION g with
  | Some _ => g
  | None => set_SESSION (Some (USER_AGENT g)) g
  end.

Definition request_of (g : Globals) (params : dict) : request :=
  mkRequest (API_URL g) (request_params params) (TIMEOUT g)
            (match SESSION g with Some a => a | None => USER_AGENT g end).

Definition answered (params : dict) (w : World) : World :=
  with_remote (tl (pending w)) (request_of (globals w) params :: sent w)
              (with_globals (open_session (globals w)) w).

(* ===================================================================== *)
(** ** [wikipedia/util.py] *)
(* ===================================================================== *)

Definition memo_lookup (f : cached_fn) (k : call_key)
           (m : list (cached_fn * call_key * value)) : option value :=
  match find (fun e => cached_fn_eqb (fst (fst e)) f
                       && call_key_eqb (snd (fst e)) k) m with
  | Some e => Some (snd e)
  | None => None
  end.

(** Modelled from the spec: the [cache] decorator of [wikipedia/util.py],
    which is not among the sources.  The spec speaks of memoized operations
    and method-level response caches: a call with arguments seen before
    returns the stored result without running the function, a call that
    returns stores its result, a call that raises stores nothing.  The tables
    of all decorated functions are kept in one list, tagged by function. *)
Definition cached (f : cached_fn) (k : call_key) (body : M value) : M value :=
  fun w =>
    match memo_lookup f k (memo w) with
    | Some v => (Ok v, w)
    | None =>
        match body w with
        | (Ok v, w') => (Ok v, with_memo ((f, k, v) :: memo w') w')
        | r => r
        end
    end.

(** Modelled from the spec: [cached_func.clear_cache()] of the same
    decorator empties the table of that one function. *)
Definition clear_cache_of (f : cached_fn) : M unit :=
  fun w =>
    (Ok tt,
     with_memo (filter (fun e => negb (cached_fn_eqb (fst (fst e)) f)) (memo w)) w).

(** Modelled from the spec: [_cmp_major_minor] of [wikipedia/util.py], which
    is not among the sources.  Every caller raises
    [WikipediaAPIVersionError] when it answers true, and the spec's registry
    answers whether the site is at least at (major, minor): the function is
    true when the site's version is older than the required one.  A missing
    component counts as 0. *)
Definition _cmp_major_minor (version required : list Z) : bool :=
  let major := hd 0 version in
  let minor := hd 0 (tl version) in
  let rmajor := hd 0 required in
  let rminor := hd 0 (tl required) in
  (major <? rmajor) || ((major =? rmajor) && (minor <? rminor)).

(** Binding of a call's arguments to the parameters of a [def]: each
    parameter has a name and, when optional, a default. *)
Fixpoint bind_positional (params : list (string * option value))
         (args : list value) (kwargs : dict) : exn + list value :=
  match params, args with
  | [], [] => inr []
  | [], _ :: _ => inl TypeError
  | (name, _) :: params', a :: args' =>
      if Dict.has name kwargs then inl TypeError
      else match bind_positional params' args' kwargs with
           | inl e => inl e
           | inr l => inr (a :: l)
           end
  | (name, default) :: params', [] =>
      match Dict.get name kwargs, default with
      | Some v, _ | None, Some v =>
          match bind_positional params' [] kwargs with
          | inl e => inl e
          | inr l => inr (v :: l)
          end
      | None, None => inl TypeError
      end
  end.

Definition bind_params (params : list (string * option value)) (k : call_key)
  : exn + list value :=
  if forallb (fun kv => existsb (fun p => String.eqb (fst kv) (fst p)) params)
             (snd k)
  then bind_positional params (fst k) (snd k)
  else inl TypeError.

(** [f e for e in l], stopping at the first exception. *)
Fixpoint map_e {A B} (f : A -> exn + B) (l : list A) : exn + list B :=
  match l with
  | [] => inr []
  | x :: l' =>
      match f x with
      | inl e => inl e
      | inr y => match map_e f l' with
                 | inl e => inl e
                 | inr ys => inr (y :: ys)
                 end
      end
  end.

Definition and_then {A B} (r : exn + A) (k : A -> exn + B) : exn + B :=
  match r with inl e => inl e | inr a => k a end.

(** [v[k1][k2]...] *)
Fixpoint path (v : value) (ks : list string) : exn + value :=
  match ks with
  | [] => inr v
  | k :: ks' => and_then (Py.item v k) (fun x => path x ks')
  end.

(* ===================================================================== *)
(** ** Site information and the module-level queries *)
(* ===================================================================== *)

(** [_get_site_info()] *)
Definition _get_site_info : M unit :=
  response <- _wiki_request [("meta", VStr "siteinfo");
                             ("siprop", VStr "extensions|general")] ;;
  generator <- lift (path response ["query"; "general"; "generator"]) ;;
  generator <- lift (Py.str_method "split" generator) ;;
  word <- lift (Py.item_at (VList (map VStr (Str.split " " generator))) 1) ;;
  word <- lift (Py.str_method "split" word) ;;
  let version := hd EmptyString (Str.split "-" word) in
  g <- get_globals ;;
  set_globals (set_API_VERSION (Some version) g) ;;
  major_minor <- lift (map_e (fun item => match Str.to_int item with
                                          | Some z => inr z
                                          | None => inl (ValueError "invalid literal for int()")
                                          end)
                             (Str.split "." version)) ;;
  g <- get_globals ;;
  set_globals (set_API_VERSION_MAJOR_MINOR (Some major_minor) g) ;;
  g <- get_globals ;;
  set_globals (set_INSTALLED_EXTENSIONS (Some []) g) ;;
  extensions <- lift (path response ["query"; "extensions"]) ;;
  extensions <- lift (Py.iter extensions) ;;
  (fix add_all (l : list value) : M unit :=
     match l with
     | [] => ret tt
     | ext :: l' =>
         name <- lift (Py.item ext "name") ;;
         match name with
         | VList _ | VDict _ => raise TypeError       (* unhashable *)
         | _ =>
             g <- get_globals ;;
             let installed := match INSTALLED_EXTENSIONS g with
                              | Some l => l | None => [] end in
             set_globals
               (set_INSTALLED_EXTENSIONS
                  (Some (if existsb (py_eq name) installed then installed
                         else (installed ++ [name])%list)) g) ;;
             add_all l'
         end
     end) extensions.

(** [if WIKIPEDIA_GLOBALS['API_VERSION_MAJOR_MINOR'] is None: _get_site_info()] *)
Definition ensure_site_info : M unit :=
  g <- get_globals ;;
  match API_VERSION_MAJOR_MINOR g with
  | None => _get_site_info
  | Some _ => ret tt
  end.

(** [if _cmp_major_minor(..., [major, minor]): raise WikipediaAPIVersionError(...)] *)
Definition require_version (major minor : Z) (required function : string) : M unit :=
  g <- get_globals ;;
  match API_VERSION_MAJOR_MINOR g with
  | None => raise TypeError
  | Some v =>
      if _cmp_major_minor v [major; minor]
      then raise (WikipediaAPIVersionError (API_URL g) (API_VERSION g) required function)
      else ret tt
  end.

(** [if ext not in WIKIPEDIA_GLOBALS['INSTALLED_EXTENSIONS']: raise WikipediaExtensionError(...)] *)
Definition require_extension (ext function : string) : M unit :=
  g <- get_globals ;;
  match INSTALLED_EXTENSIONS g with
  | None => raise TypeError
  | Some installed =>
      if existsb (py_eq (VStr ext)) installed then ret tt
      else raise (WikipediaExtensionError (API_URL g) ext function)
  end.

(** [x is None or x.strip() == ''] *)
Definition blank (x : value) : exn + bool :=
  match x with
  | VNone => inr true
  | VStr s => inr (String.eqb (Str.strip s) EmptyString)
  | _ => inl (AttributeError "strip")
  end.

(** The [if 'error' in raw_results:] block of [search] and its siblings: the
    two timeout messages raise what [timeout] builds, the others
    [WikipediaException]. *)
Definition check_error (raw_results : value) (timeout : M unit) : M unit :=
  has_error <- lift (Py.contains "error" raw_results) ;;
  if has_error then
    info <- lift (path raw_results ["error"; "info"]) ;;
    if py_eq info (VStr "HTTP request timed out.")
       || py_eq info (VStr "Pool queue is full")
    then timeout
    else raise (WikipediaException info)
  else ret tt.

Definition titles_of (l : list value) : exn + list value :=
  map_e (fun d => Py.item d "title") l.

(** [a > n] for an integer [n]; strings, lists and [None] do not compare
    with numbers. *)
Definition greater_than (a : value) (n : Z) : exn + bool :=
  match a with
  | VInt z => inr (n <? z)
  | VBool b => inr (n <? (if b then 1 else 0))
  | VFloat m e => inr (if 0 <=? e then n <? m * 2 ^ e else n * 2 ^ (- e) <? m)
  | VDecimal c e => inr (if 0 <=? e then n <? c * 10 ^ e else n * 10 ^ (- e) <? c)
  | _ => inl TypeError
  end.

(** [a < n] for an integer [n]; strings, lists and [None] do not compare
    with numbers. *)
Definition less_than (a : value) (n : Z) : exn + bool :=
  match a with
  | VInt z => inr (z <? n)
  | VBool b => inr ((if b then 1 else 0) <? n)
  | VFloat m e => inr (if 0 <=? e then m * 2 ^ e <? n else m <? n * 2 ^ (- e))
  | VDecimal c e => inr (if 0 <=? e then c * 10 ^ e <? n else c <? n * 10 ^ (- e))
  | _ => inl TypeError
  end.

(** [languages()], under [@cache] *)
Definition languages (call : call_key) : M value :=
  cached Flanguages call
    (lift (bind_params [] call) ;;
     response <- _wiki_request [("meta", VStr "siteinfo");
                                ("siprop", VStr "languages")] ;;
     languages <- lift (path response ["query"; "languages"]) ;;
     languages <- lift (Py.iter languages) ;;
     d <- lift (fold_left
                  (fun acc lang =>
                     and_then acc (fun d =>
                     and_then (Py.item lang "code") (fun code =>
                     and_then (Py.item lang "*") (fun name =>
                     match code with
                     | VStr c => inr (Dict.set c name d)
                     | _ => inl TypeError
                     end))))
                  languages (inr [])) ;;
     ret (VDict d)).

(** [search(query, results=10, suggestion=False)], under [@cache] *)
Definition search (call : call_key) : M value :=
  cached Fsearch call
    (args <- lift (bind_params [("query", None); ("results", Some (VInt 10));
                                ("suggestion", Some (VBool false))] call) ;;
     let query := nth 0 args VNone in
     let results := nth 1 args VNone in
     let suggestion := nth 2 args VNone in
     ensure_site_info ;;
     require_version 1 16 "1.16" "search" ;;
     is_blank <- lift (blank query) ;;
     if is_blank then raise (ValueError "Query must be specified") else
     let search_params := [("list", VStr "search"); ("srprop", VStr EmptyString);
                           ("srlimit", results); ("srsearch", query)] in
     let search_params := if truthy suggestion
                          then Dict.set "srinfo" (VStr "suggestion") search_params
                          else search_params in
     raw_results <- _wiki_request search_params ;;
     check_error raw_results (raise (HTTPTimeoutError query)) ;;
     found <- lift (path raw_results ["query"; "search"]) ;;
     found <- lift (Py.iter found) ;;
     if truthy suggestion then
       q <- lift (Py.item raw_results "query") ;;
       searchinfo <- lift (Py.get q "searchinfo" VNone) ;;
       if truthy searchinfo then
         titles <- lift (titles_of found) ;;
         s <- lift (path raw_results ["query"; "searchinfo"; "suggestion"]) ;;
         ret (VTuple [VList titles; s])
       else
         titles <- lift (titles_of found) ;;
         ret (VTuple [VList titles; VNone])
     else
       titles <- lift (titles_of found) ;;
       ret (VList titles)).

(** The loop of [categorymembers] over the members returned. *)
Fixpoint split_members (members : list value) (pages subcats : list value)
  : exn + (list value * list value) :=
  match members with
  | [] => inr (pages, subcats)
  | d :: rest =>
      and_then (Py.item d "type") (fun type =>
      if py_eq type (VStr "page") then
        and_then (Py.item d "title") (fun title =>
        split_members rest (pages ++ [title]) subcats)
      else
        and_then (Py.item d "type") (fun type =>
        if py_eq type (VStr "subcat") then
          and_then (Py.item d "title") (fun tmp =>
          and_then (Py.str_method "startswith" tmp) (fun tmp =>
          let tmp := if Str.startswith "Category:" tmp
                     then Str.drop 9 tmp else tmp in
          split_members rest pages (subcats ++ [VStr tmp])))
        else split_members rest pages subcats))
  end.

(** [categorymembers(category, results=10, subcategories=True)], under
    [@cache].  The timeout branch names [query], which this function does not
    bind. *)
Definition categorymembers (call : call_key) : M value :=
  cached Fcategorymembers call
    (args <- lift (bind_params [("category", None); ("results", Some (VInt 10));
                                ("subcategories", Some (VBool true))] call) ;;
     let category := nth 0 args VNone in
     let results := nth 1 args VNone in
     let subcategories := nth 2 args VNone in
     ensure_site_info ;;
     require_version 1 17 "1.17" "categorymembers" ;;
     is_blank <- lift (blank category) ;;
     if is_blank then raise (ValueError "Category must be specified") else
     category <- lift (Py.str_method "strip" category) ;;
     let search_params :=
       [("list", VStr "categorymembers"); ("cmprop", VStr "ids|title|type");
        ("cmtype", VStr (if truthy subcategories then "page|subcat" else "page"));
        ("cmlimit", results); ("cmtitle", VStr ("Category:" ++ category))] in
     raw_results <- _wiki_request search_params ;;
     check_error raw_results (raise (NameError "query")) ;;
     members <- lift (path raw_results ["query"; "categorymembers"]) ;;
     members <- lift (Py.iter members) ;;
     r <- lift (split_members members [] []) ;;
     if truthy subcategories
     then ret (VTuple [VList (fst r); VList (snd r)])
     else ret (VList (fst r))).

(** [prefexsearch(query, results=10)], under [@cache] *)
Definition prefexsearch (call : call_key) : M value :=
  cached Fprefexsearch call
    (args <- lift (bind_params [("query", None); ("results", Some (VInt 10))] call) ;;
     let query := nth 0 args VNone in
     let results := nth 1 args VNone in
     ensure_site_info ;;
     require_version 1 23 "1.23" "prefixsearch" ;;
     is_blank <- lift (blank query) ;;
     if is_blank then raise (ValueError "Query must be specified") else
     over <- lift (greater_than results 100) ;;
     let query_params :=
       [("action", VStr "query"); ("list", VStr "prefixsearch");
        ("pssearch", query); ("pslimit", if over then VInt 100 else results);
        ("psnamespace", VInt 0); ("psoffset", VInt 0)] in
     raw_results <- _wiki_request query_params ;;
     has_error <- lift (Py.contains "error" raw_results) ;;
     if has_error then
       info <- lift (path raw_results ["error"; "info"]) ;;
       raise (WikipediaException info)
     else
       found <- lift (path raw_results ["query"; "prefixsearch"]) ;;
       found <- lift (Py.iter found) ;;
       res <- lift (titles_of found) ;;
       ret (VList res)).

(** [suggest(query)], under [@cache] *)
Definition suggest (call : call_key) : M value :=
  cached Fsuggest call
    (args <- lift (bind_params [("query", None)] call) ;;
     let query := nth 0 args VNone in
     ensure_site_info ;;
     require_version 1 16 "1.16" "suggest" ;;
     is_blank <- lift (blank query) ;;
     if is_blank then raise (ValueError "Query must be specified") else
     let search_params := [("list", VStr "search"); ("srinfo", VStr "suggestion");
                           ("srprop", VStr EmptyString); ("srsearch", query)] in
     raw_result <- _wiki_request search_params ;;
     q <- lift (Py.item raw_result "query") ;;
     searchinfo <- lift (Py.get q "searchinfo" VNone) ;;
     if truthy searchinfo
     then lift (path raw_result ["query"; "searchinfo"; "suggestion"])
     else ret VNone).

(** [opensearch(query, results=10, redirect=False)], under [@cache].  The
    loop runs over [range(0, len(raw_results[1]))] and indexes the three
    lists of the response at each [i]. *)
Definition opensearch (call : call_key) : M value :=
  cached Fopensearch call
    (args <- lift (bind_params [("query", None); ("results", Some (VInt 10));
                                ("redirect", Some (VBool false))] call) ;;
     let query := nth 0 args VNone in
     let results := nth 1 args VNone in
     let redirect := nth 2 args VNone in
     ensure_site_info ;;
     require_version 1 25 "1.25" "opensearch" ;;
     require_extension "OpenSearch" "opensearch" ;;
     is_blank <- lift (blank query) ;;
     if is_blank then raise (ValueError "Query must be specified") else
     over <- lift (greater_than results 100) ;;
     let query_params :=
       [("action", VStr "opensearch"); ("search", query);
        ("limit", if over then VInt 100 else results);
        ("redirects", VStr (match redirect with
                            | VBool true => "resolve"
                            | _ => "return"
                            end));
        ("warningsaserror", VBool true); ("namespace", VStr EmptyString)] in
     raw_results <- _wiki_request query_params ;;
     has_error <- lift (Py.contains "error" raw_results) ;;
     if has_error then
       info <- lift (path raw_results ["error"; "info"]) ;;
       raise (WikipediaException info)
     else
       titles <- lift (Py.item_at raw_results 1) ;;
       n <- lift (Py.len titles) ;;
       res <- lift (map_e
                      (fun i =>
                         and_then (Py.item_at raw_results 1) (fun l1 =>
                         and_then (Py.item_at l1 i) (fun x =>
                         and_then (Py.item_at raw_results 2) (fun l2 =>
                         and_then (Py.item_at l2 i) (fun y =>
                         and_then (Py.item_at raw_results 3) (fun l3 =>
                         and_then (Py.item_at l3 i) (fun z =>
                         inr (VTuple [x; y; z])))))))) (seq 0 n)) ;;
       ret (VList res)).

(** [random(pages=1)] *)
Definition random (call : call_key) : M value :=
  args <- lift (bind_params [("pages", Some (VInt 1))] call) ;;
  let pages := nth 0 args VNone in
  ensure_site_info ;;
  require_version 1 12 "1.12" "random" ;;
  too_few <- (match pages with
              | VNone => ret true
              | _ => lift (less_than pages 1)
              end) ;;
  if too_few then raise (ValueError "Number of pages must be greater than 0") else
  let query_params := [("list", VStr "random"); ("rnnamespace", VInt 0);
                       ("rnlimit", pages)] in
  request <- _wiki_request query_params ;;
  found <- lift (path request ["query"; "random"]) ;;
  found <- lift (Py.iter found) ;;
  titles <- lift (titles_of found) ;;
  match titles with
  | [title] => ret title
  | _ => ret (VList titles)
  end.

(** The tuple [clear_cache] loops over. *)
Definition cleared_functions : list cached_fn :=
  [Fsearch; Fsuggest; Fsummary; Fcategorymembers; Fgeosearch; Fopensearch].

(** [clear_cache()] *)
Definition clear_cache : M unit :=
  fold_right (fun f rest => clear_cache_of f ;; rest) (ret tt) cleared_functions.

(** [set_lang(prefix)] *)
Definition set_lang (prefix : string) : M unit :=
  g <- get_globals ;;
  let old_prefix := LANGUAGE_PREFIX g in
  let tmp_url := Str.replace ("/" ++ old_prefix ++ ".")
                             ("/" ++ Str.lower prefix ++ ".") (API_URL g) in
  if String.eqb (API_URL g) tmp_url
  then raise (WikipediaAPILanguageError (API_URL g) old_prefix (Str.lower prefix))
  else
    try_except (languages ([], []) ;; ret tt)
               (fun _ => raise (WikipediaAPIURLError tmp_url)) ;;
    g <- get_globals ;;
    set_globals (set_site tmp_url (Str.lower prefix) g) ;;
    clear_cache.

(** [set_api_url(api_url, prefix)] *)
Definition set_api_url (api_url prefix : string) : M unit :=
  g <- get_globals ;;
  set_globals (set_site api_url prefix g) ;;
  clear_cache ;;
  try_except (languages ([], []) ;; ret tt)
             (fun _ => raise (WikipediaAPIURLError api_url)) ;;
  _get_site_info.

(* ===================================================================== *)
(** ** Libraries the page class calls into *)
(* ===================================================================== *)

(** An [<a>] element: its text and its [title] attribute. *)
Record anchor : Type := mkAnchor {
  a_text : string;
  a_title : option string
}.

(** An [<li>] element as the code looks at it: [li.get('class', list())],
    [li.find_all("a")] (whose head is [li.a]) and [li.text]. *)
Record li_tag : Type := mkLi {
  li_class : list string;
  li_anchors : list anchor;
  li_text : string
}.

(** What the page class takes from [bs4] and [decimal]:
    [BeautifulSoup(html, 'html.parser').find_all('li')] and [Decimal(x)]. *)
Class Externals : Type := {
  find_all_li : value -> exn + list li_tag;
  Decimal : value -> exn + value
}.

(* ===================================================================== *)
(** ** [WikipediaPage] *)
(* ===================================================================== *)

Module WikipediaPage.

(** [self.__title_query_param], from the attributes of [self] *)
Definition title_param_of (o : dict) : exn + dict :=
match Dict.get "title" o with
| None | Some VNone =>
    match Dict.get "pageid" o with
    | Some pageid => inr [("pageids", pageid)]
    | None => inl (AttributeError "pageid")
    end
| Some title => inr [("titles", title)]
end.

Definition title_query_param (self : addr) : M dict :=
o <- attrs self ;; lift (title_param_of o).

(** [self.__eq__(other)] for an object [other]: the comparisons are chained
    by [and], so that an attribute is read only when the comparisons before
    it hold. *)
Definition __eq__ (self other : addr) : M value :=
try_except
  (a <- attr self "pageid" ;;
   b <- attr other "pageid" ;;
   if negb (py_eq a b) then ret (VBool false) else
   a <- attr self "title" ;;
   b <- attr other "title" ;;
   if negb (py_eq a b) then ret (VBool false) else
   a <- attr self "url" ;;
   b <- attr other "url" ;;
   ret (VBool (py_eq a b)))
  (fun e => match e with
            | AttributeError _ => ret (VBool false)
            | _ => raise e
            end).

(** *** [__continued_query]

  The method is a generator.  Its state between two [next()] calls is the
  place it is suspended at: not started, inside the [for] loop of a round
  with the data still to yield and that round's response, or finished. *)
Inductive gen_pc : Type :=
| GStart
| GRound (rest : list value) (request : value)
| GDone.

Record generator : Type := mkGen {
gen_pc_of : gen_pc;
gen_query_params : dict;       (* query_params *)
gen_last_continue : value;     (* last_continue *)
gen_prop : value               (* prop *)
}.

(** [self.__continued_query(query_params)]: calling the method runs nothing
  yet. *)
Definition continued_query (query_params : dict) : generator :=
mkGen GStart query_params (VDict []) VNone.

(** The data one round yields, from its response: every value of the page
  collection under a generator, else [pages[self.pageid].get(prop, list())]. *)
Definition round_data (query_params : dict) (prop : value)
         (pageid : option value) (request : value) : exn + list value :=
and_then (path request ["query"; "pages"]) (fun pages =>
if Dict.has "generator" query_params then Py.values pages
else
  match pageid with
  | None => inl (AttributeError "pageid")
  | Some pageid =>
      and_then (Py.item_v pages pageid) (fun page =>
      and_then (Py.get_v page prop (VList [])) Py.iter)
  end).

(** One pass through the [while True:] body up to the first [yield]:
  [resume] is the generator itself, entered again in the [for] loop. *)
Definition gen_round (self : addr) (g : generator)
         (resume : generator -> M (option value * generator))
: M (option value * generator) :=
params <- lift (Py.update (gen_query_params g) (gen_last_continue g)) ;;
request <- _wiki_request params ;;
has_query <- lift (Py.contains "query" request) ;;
if negb has_query
then ret (None, mkGen GDone (gen_query_params g) (gen_last_continue g) (gen_prop g))
else
  o <- attrs self ;;
  data <- lift (round_data (gen_query_params g) (gen_prop g)
                           (Dict.get "pageid" o) request) ;;
  resume (mkGen (GRound data request) (gen_query_params g)
                (gen_last_continue g) (gen_prop g)).

(** [next(gen)]: [Some datum] for a [yield], [None] for [StopIteration].
  Each round of the [while] loop takes one unit of [fuel]. *)
Fixpoint gen_next (fuel : nat) (self : addr) (g : generator)
: M (option value * generator) :=
match fuel with
| O => diverge
| S fuel' =>
    match gen_pc_of g with
    | GDone => ret (None, g)
    | GStart =>
        title_param <- title_query_param self ;;
        let query_params := Dict.update (gen_query_params g) title_param in
        let prop := match Dict.get "prop" query_params with
                    | Some p => p | None => VNone end in
        gen_round self (mkGen GStart query_params (VDict []) prop)
                  (gen_next fuel' self)
    | GRound (datum :: rest) request =>
        ret (Some datum,
             mkGen (GRound rest request) (gen_query_params g)
                   (gen_last_continue g) (gen_prop g))
    | GRound [] request =>
        has_continue <- lift (Py.contains "continue" request) ;;
        if negb has_continue
        then ret (None, mkGen GDone (gen_query_params g)
                              (gen_last_continue g) (gen_prop g))
        else
          last_continue <- lift (Py.item request "continue") ;;
          gen_round self (mkGen GStart (gen_query_params g) last_continue
                                (gen_prop g))
                    (gen_next fuel' self)
    end
end.

(** [for datum in gen: body(datum)] *)
Fixpoint for_gen (fuel : nat) (self : addr) (g : generator)
       (body : value -> M unit) : M unit :=
match fuel with
| O => diverge
| S fuel' =>
    r <- gen_next fuel self g ;;
    match r with
    | (None, _) => ret tt
    | (Some datum, g') => body datum ;; for_gen fuel' self g' body
    end
end.

(** [list(gen)] *)
Fixpoint list_gen (fuel : nat) (self : addr) (g : generator) : M (list value) :=
match fuel with
| O => diverge
| S fuel' =>
    r <- gen_next fuel self g ;;
    match r with
    | (None, _) => ret []
    | (Some datum, g') => rest <- list_gen fuel' self g' ;; ret (datum :: rest)
    end
end.

(** *** Lazy properties *)

(** The frame every property shares:
  [if not getattr(self, name, False): <load>] and then [return self.name]. *)
Definition lazy_attr (self : addr) (name : string) (load : M unit) : M value :=
seen <- getattr self name (VBool false) ;;
(if negb (truthy seen) then load else ret tt) ;;
attr self name.

(** [request['query']['pages'][self.pageid]] *)
Definition page_of (self : addr) (request : value) : M value :=
pages <- lift (path request ["query"; "pages"]) ;;
pageid <- attr self "pageid" ;;
lift (Py.item_v pages pageid).

Section Page.

Context {X : Externals}.

(** The body of the [if] in [self.html()] *)
Definition fetch_html (self : addr) : M unit :=
  setattr self "_html" VNone ;;
  require_version 1 17 "1.17" "html" ;;
  title <- attr self "title" ;;
  request <- _wiki_request [("prop", VStr "revisions"); ("rvprop", VStr "content");
                            ("rvlimit", VInt 1); ("rvparse", VStr EmptyString);
                            ("titles", title)] ;;
  page <- page_of self request ;;
  revisions <- lift (Py.item page "revisions") ;;
  revision <- lift (Py.item_at revisions 0) ;;
  text <- lift (Py.item revision "*") ;;
  setattr self "_html" text.

(** [self.html()] *)
Definition html (self : addr) : M value :=
  lazy_attr self "_html" (fetch_html self).

(** The body of the [if] in [self.content] *)
Definition fetch_content (self : addr) : M unit :=
  setattr self "_content" VNone ;;
  setattr self "_revision_id" VNone ;;
  setattr self "_parent_id" VNone ;;
  require_version 1 11 "1.11" "content" ;;
  require_extension "TextExtracts" "content" ;;
  title_param <- title_query_param self ;;
  let query_params :=
    Dict.update [("prop", VStr "extracts|revisions"); ("explaintext", VStr EmptyString);
                 ("rvprop", VStr "ids")] title_param in
  request <- _wiki_request query_params ;;
  page <- page_of self request ;;
  extract <- lift (Py.item page "extract") ;;
  setattr self "_content" extract ;;
  page <- page_of self request ;;
  revisions <- lift (Py.item page "revisions") ;;
  revision <- lift (Py.item_at revisions 0) ;;
  revid <- lift (Py.item revision "revid") ;;
  setattr self "_revision_id" revid ;;
  page <- page_of self request ;;
  revisions <- lift (Py.item page "revisions") ;;
  revision <- lift (Py.item_at revisions 0) ;;
  parentid <- lift (Py.item revision "parentid") ;;
  setattr self "_parent_id" parentid.

(** [self.content] *)
Definition content (self : addr) : M value :=
  lazy_attr self "_content" (fetch_content self).

(** [self.revision_id]: the attribute tested, [_revid], is assigned
    nowhere. *)
Definition revision_id (self : addr) : M value :=
  seen <- getattr self "_revid" (VBool false) ;;
  (if negb (truthy seen) then content self ;; ret tt else ret tt) ;;
  attr self "_revision_id".

(** [self.parent_id] *)
Definition parent_id (self : addr) : M value :=
  seen <- getattr self "_parentid" (VBool false) ;;
  (if negb (truthy seen) then content self ;; ret tt else ret tt) ;;
  attr self "_parent_id".

(** [self.get_summary(sentences=0, chars=0)] *)
Definition get_summary (self : addr) (sentences chars : Z) : M value :=
  require_extension "TextExtracts" "get_summary()" ;;
  title <- attr self "title" ;;
  let query_params := [("prop", VStr "extracts"); ("explaintext", VStr EmptyString);
                       ("titles", title)] in
  let query_params :=
    if negb (sentences =? 0)
    then Dict.set "exsentences"
                  (VInt (if 10 <? sentences then 10 else sentences)) query_params
    else if negb (chars =? 0)
    then Dict.set "exchars" (VInt (if chars <? 1 then 1 else chars)) query_params
    else Dict.set "exintro" (VStr EmptyString) query_params in
  request <- _wiki_request query_params ;;
  page <- page_of self request ;;
  lift (Py.item page "extract").

(** The body of the [if] in [self.summary] *)
Definition fetch_summary (self : addr) : M unit :=
  setattr self "_summary" VNone ;;
  s <- get_summary self 0 0 ;;
  setattr self "_summary" s.

(** [self.summary] *)
Definition summary (self : addr) : M value :=
  lazy_attr self "_summary" (fetch_summary self).

(** The body of the [if] in [self.images] *)
Definition fetch_images (fuel : nat) (self : addr) : M unit :=
  setattr self "_images" (VList []) ;;
  for_gen fuel self
    (continued_query [("generator", VStr "images"); ("gimlimit", VStr "max");
                      ("prop", VStr "imageinfo"); ("iiprop", VStr "url")])
    (fun page =>
       has_info <- lift (Py.contains "imageinfo" page) ;;
       if has_info then
         info <- lift (Py.item page "imageinfo") ;;
         first <- lift (Py.item_at info 0) ;;
         url <- lift (Py.item first "url") ;;
         append_attr self "_images" url
       else ret tt).

(** [self.images] *)
Definition images (fuel : nat) (self : addr) : M value :=
  lazy_attr self "_images" (fetch_images fuel self).

(** The body of the [if] in [self.coordinates] *)
Definition fetch_coordinates (self : addr) : M unit :=
  setattr self "_coordinates" VNone ;;
  require_extension "GeoData" "coordinates" ;;
  title <- attr self "title" ;;
  request <- _wiki_request [("prop", VStr "coordinates"); ("colimit", VStr "max");
                            ("titles", title)] ;;
  has_query <- lift (Py.contains "query" request) ;;
  has_coordinates <-
    (if has_query then
       page <- page_of self request ;;
       lift (Py.contains "coordinates" page)
     else ret false) ;;
  if has_coordinates then
    page <- page_of self request ;;
    coordinates <- lift (Py.item page "coordinates") ;;
    first <- lift (Py.item_at coordinates 0) ;;
    lat <- lift (Py.item first "lat") ;;
    lat <- lift (Decimal lat) ;;
    first <- lift (Py.item_at coordinates 0) ;;
    lon <- lift (Py.item first "lon") ;;
    lon <- lift (Decimal lon) ;;
    setattr self "_coordinates" (VTuple [lat; lon])
  else ret tt.

(** [self.coordinates] *)
Definition coordinates (self : addr) : M value :=
  lazy_attr self "_coordinates" (fetch_coordinates self).

(** The body of the [if] in [self.references] *)
Definition fetch_references (fuel : nat) (self : addr) : M unit :=
  setattr self "_references" VNone ;;
  require_version 1 13 "1.13" "references" ;;
  setattr self "_references" (VList []) ;;
  for_gen fuel self
    (continued_query [("prop", VStr "extlinks"); ("ellimit", VStr "max")])
    (fun link =>
       star <- lift (Py.item link "*") ;;
       star <- lift (Py.str_method "startswith" star) ;;
       let url := if Str.startswith "http" star then star
                  else "http:" ++ star in
       append_attr self "_references" (VStr url)).

(** [self.references] *)
Definition references (fuel : nat) (self : addr) : M value :=
  lazy_attr self "_references" (fetch_references fuel self).

(** The body of the [if] in [self.links] *)
Definition fetch_links (fuel : nat) (self : addr) : M unit :=
  setattr self "_links" VNone ;;
  require_version 1 13 "1.13" "links" ;;
  setattr self "_links" (VList []) ;;
  for_gen fuel self
    (continued_query [("prop", VStr "links"); ("plnamespace", VInt 0);
                      ("pllimit", VStr "max")])
    (fun link =>
       title <- lift (Py.item link "title") ;;
       append_attr self "_links" title).

(** [self.links] *)
Definition links (fuel : nat) (self : addr) : M value :=
  lazy_attr self "_links" (fetch_links fuel self).

(** The body of the [if] in [self.categories] *)
Definition fetch_categories (fuel : nat) (self : addr) : M unit :=
  setattr self "_categories" VNone ;;
  require_version 1 14 "1.14" "categories" ;;
  setattr self "_categories" (VList []) ;;
  for_gen fuel self
    (continued_query [("prop", VStr "categories"); ("cllimit", VStr "max");
                      ("clshow", VStr "!hidden")])
    (fun link =>
       title <- lift (Py.item link "title") ;;
       title <- lift (Py.str_method "startswith" title) ;;
       if Str.startswith "Category:" title
       then append_attr self "_categories" (VStr (Str.drop 9 title))
       else append_attr self "_categories" (VStr title)).

(** [self.categories] *)
Definition categories (fuel : nat) (self : addr) : M value :=
  lazy_attr self "_categories" (fetch_categories fuel self).

(** The body of the [if] in [self.redirects] *)
Definition fetch_redirects (fuel : nat) (self : addr) : M unit :=
  setattr self "_redirects" VNone ;;
  require_version 1 24 "1.24" "redirects" ;;
  setattr self "_redirects" (VList []) ;;
  for_gen fuel self
    (continued_query [("prop", VStr "redirects"); ("rdprop", VStr "title");
                      ("rdlimit", VStr "100")])
    (fun link =>
       title <- lift (Py.item link "title") ;;
       append_attr self "_redirects" title).

(** [self.redirects] *)
Definition redirects (fuel : nat) (self : addr) : M value :=
  lazy_attr self "_redirects" (fetch_redirects fuel self).

(** The [while True:] loop of [backlinks]; [query_params] is the one
    dictionary every round hands to [_wiki_request]. *)
Fixpoint backlinks_loop (fuel : nat) (self : addr) (query_params : dict)
  : M unit :=
  match fuel with
  | O => diverge
  | S fuel' =>
      results <- _wiki_request query_params ;;
      let query_params := request_params query_params in
      found <- lift (path results ["query"; "backlinks"]) ;;
      found <- lift (Py.iter found) ;;
      (fix each (l : list value) : M unit :=
         match l with
         | [] => ret tt
         | link :: l' =>
             title <- lift (Py.item link "title") ;;
             append_attr self "_backlinks" title ;;
             each l'
         end) found ;;
      more <- lift (Py.get results "continue" (VBool false)) ;;
      match more with
      | VBool false => ret tt
      | _ =>
          c <- lift (path results ["continue"; "blcontinue"]) ;;
          backlinks_loop fuel' self (Dict.set "blcontinue" c query_params)
      end
  end.

(** The body of the [if] in [self.backlinks] *)
Definition fetch_backlinks (fuel : nat) (self : addr) : M unit :=
  setattr self "_backlinks" VNone ;;
  require_version 1 9 "1.9" "backlinks" ;;
  title <- attr self "title" ;;
  let query_params :=
    [("action", VStr "query"); ("list", VStr "backlinks"); ("bltitle", title);
     ("bllimit", VInt 500); ("blfilterredir", VStr "nonredirects");
     ("blcontinue", VDict []); ("blnamespace", VInt 0)] in
  setattr self "_backlinks" (VList []) ;;
  backlinks_loop fuel self query_params.

(** [self.backlinks] *)
Definition backlinks (fuel : nat) (self : addr) : M value :=
  lazy_attr self "_backlinks" (fetch_backlinks fuel self).

(** The body of the [if] in [self.sections] *)
Definition fetch_sections (self : addr) : M unit :=
  let query_params := [("action", VStr "parse"); ("prop", VStr "sections")] in
  title <- getattr self "title" VNone ;;
  query_params <-
    (if negb (truthy title)
     then pageid <- attr self "pageid" ;;
          ret (Dict.set "pageid" pageid query_params)
     else title <- attr self "title" ;;
          ret (Dict.set "page" title query_params)) ;;
  request <- _wiki_request query_params ;;
  found <- lift (path request ["parse"; "sections"]) ;;
  found <- lift (Py.iter found) ;;
  lines <- lift (map_e (fun section => Py.item section "line") found) ;;
  setattr self "_sections" (VList lines).

(** [self.sections] *)
Definition sections (self : addr) : M value :=
  lazy_attr self "_sections" (fetch_sections self).

(** *** [section] *)

(** [u"== {0} ==".format(section_title)] *)
Definition section_marker (section_title : string) : string :=
  "== " ++ section_title ++ " ==".

(** [self.section(section_title)]: every [self.content] is a read of the
    property, and each [try] covers that read too. *)
Definition section (self : addr) (section_title : string) : M value :=
  let section := section_marker section_title in
  index <- try_except
             (c <- content self ;;
              i <- lift (Py.index_from c section 0) ;;
              ret (Some (i + String.length section)%nat))
             (fun e => if is_ValueError e then ret None else raise e) ;;
  match index with
  | None => ret VNone
  | Some index =>
      next_index <- try_except
                      (c <- content self ;; lift (Py.index_from c "==" index))
                      (fun e => if is_ValueError e
                                then c <- content self ;; lift (Py.len c)
                                else raise e) ;;
      c <- content self ;;
      lift (Py.slice_lstrip_strip c index next_index)
  end.

(** *** [__load] and [__init__] *)

(** [PageError(...)] as a call: the first positional argument is the
    parameter [pageid], the others are [*args]. *)
Definition PageError_new (positional : list value) (kwargs : dict) : exn :=
  match positional with
  | p :: args => if Dict.has "pageid" kwargs then TypeError
                 else PageError_init p args
  | [] => PageError_init (match Dict.get "pageid" kwargs with
                          | Some p => p | None => VNone end) []
  end.

(** The branch of [__load] under [if 'missing' in page:]. *)
Definition load_missing (self : addr) : M unit :=
  has_title <- hasattr self "title" ;;
  if has_title then
    title <- attr self "title" ;;
    raise (PageError_new [title] [])
  else
    pageid <- attr self "pageid" ;;
    raise (PageError_new [] [("pageid", pageid)]).

(** [assert a == b, ODD_ERROR_MESSAGE] *)
Definition assert_eq (a b : value) : M unit :=
  if py_eq a b then ret tt else raise (AssertionError ODD_ERROR_MESSAGE).

(** The branch under [elif 'redirects' in query:]; [reinit title] is
    [self.__init__(title, redirect=redirect, preload=preload)]. *)
Definition load_redirect (reinit : value -> M unit) (self : addr)
           (redirect : bool) (query page : value) : M unit :=
  if redirect then
    redirects <- lift (Py.item query "redirects") ;;
    redirects <- lift (Py.item_at redirects 0) ;;
    has_normalized <- lift (Py.contains "normalized" query) ;;
    from_title <-
      (if has_normalized then
         normalized <- lift (Py.item query "normalized") ;;
         normalized <- lift (Py.item_at normalized 0) ;;
         from <- lift (Py.item normalized "from") ;;
         title <- attr self "title" ;;
         assert_eq from title ;;
         lift (Py.item normalized "to")
       else
         title <- getattr self "title" VNone ;;
         (if negb (truthy title) then
            from <- lift (Py.item redirects "from") ;;
            setattr self "title" from ;;
            delattr self "pageid"
          else ret tt) ;;
         attr self "title") ;;
    from <- lift (Py.item redirects "from") ;;
    assert_eq from from_title ;;
    to <- lift (Py.item redirects "to") ;;
    reinit to
  else
    page_title <- lift (Py.item page "title") ;;
    title <- getattr self "title" page_title ;;
    raise (RedirectError title).

(** The two lists built from the [<li>] elements of a disambiguation
    page. *)
Definition disambiguation_lists (lis : list li_tag)
  : exn + (list value * list value) :=
  let filtered_lis :=
    filter (fun li => negb (Str.contains "tocsection" (Str.join EmptyString (li_class li))))
           lis in
  let may_refer_to :=
    flat_map (fun li => match li_anchors li with
                        | a :: _ => [VStr (a_text a)]
                        | [] => []
                        end) filtered_lis in
  and_then
    (map_e (fun lis_item =>
              match li_anchors lis_item with
              | [] => inl IndexError
              | item :: _ =>
                  match a_title item with
                  | None => inl (KeyError (VStr "title"))
                  | Some t => inr (VDict [("title", VStr t);
                                          ("description", VStr (li_text lis_item))])
                  end
              end) filtered_lis)
    (fun disambiguation => inr (may_refer_to, disambiguation)).

(** [query_params] of the second query, for the parsed page *)
Definition parse_query_params (title_param : dict) : dict :=
  Dict.update [("prop", VStr "revisions"); ("rvprop", VStr "content");
               ("rvparse", VStr EmptyString); ("rvlimit", VInt 1)] title_param.

(** [request['query']['pages'][pageid]['revisions'][0]['*']] *)
Definition parsed_html (request : value) (pageid : string) : exn + value :=
  and_then (path request ["query"; "pages"]) (fun pages =>
  and_then (Py.item pages pageid) (fun p =>
  and_then (Py.item p "revisions") (fun revisions =>
  and_then (Py.item_at revisions 0) (fun revision =>
  Py.item revision "*")))).

(** The branch under [elif 'pageprops' in page:]. *)
Definition load_disambiguation (self : addr) (pageid : string) (page : value)
  : M unit :=
  title_param <- title_query_param self ;;
  let query_params := parse_query_params title_param in
  request <- _wiki_request query_params ;;
  html <- lift (parsed_html request pageid) ;;
  lis <- lift (find_all_li html) ;;
  lists <- lift (disambiguation_lists lis) ;;
  page_title <- lift (Py.item page "title") ;;
  title <- getattr self "title" page_title ;;
  raise (DisambiguationError title (fst lists) (snd lists)).

(** The final [else:] branch. *)
Definition load_page (self : addr) (pageid : string) (page : value) : M unit :=
  setattr self "pageid" (VStr pageid) ;;
  title <- lift (Py.item page "title") ;;
  setattr self "title" title ;;
  fullurl <- lift (Py.item page "fullurl") ;;
  setattr self "url" fullurl.

(** [query_params] of [__load], after [update(self.__title_query_param)] *)
Definition load_query_params (title_param : dict) : dict :=
  Dict.update [("prop", VStr "info|pageprops"); ("inprop", VStr "url");
               ("ppprop", VStr "disambiguation"); ("redirects", VStr EmptyString)]
              title_param.

(** [self.__load(redirect, preload)] *)
Definition load (reinit : value -> M unit) (self : addr) (redirect : bool)
  : M unit :=
  title_param <- title_query_param self ;;
  let query_params := load_query_params title_param in
  request <- _wiki_request query_params ;;
  query <- lift (Py.item request "query") ;;
  pages <- lift (Py.item query "pages") ;;
  keys <- lift (Py.keys pages) ;;
  match keys with
  | [] => raise IndexError
  | pageid :: _ =>
      page <- lift (Py.item pages pageid) ;;
      is_missing <- lift (Py.contains "missing" page) ;;
      if is_missing then load_missing self
      else
        has_redirects <- lift (Py.contains "redirects" query) ;;
        if has_redirects then load_redirect reinit self redirect query page
        else
          has_pageprops <- lift (Py.contains "pageprops" page) ;;
          if has_pageprops then load_disambiguation self pageid page
          else load_page self pageid page
  end.

(** The loop of [__init__] under [if preload:]. *)
Definition preload_properties (fuel : nat) (self : addr) : M unit :=
  fold_right
    (fun (prop : M value) rest =>
       try_except (prop ;; ret tt)
                  (fun e => if is_WikipediaAPIVersionError e
                               || is_WikipediaExtensionError e
                            then ret tt else raise e) ;;
       rest)
    (ret tt)
    [content self; summary self; images fuel self; references fuel self;
     links fuel self; sections self; redirects fuel self; coordinates self;
     backlinks fuel self; categories fuel self].

(** [WikipediaPage.__init__(self, title, pageid, redirect, preload,
    original_title)].  [fuel] bounds the nesting of [__init__] inside
    [__load] along a chain of redirects, and the rounds of every loop of a
    preload. *)
Fixpoint init (fuel : nat) (self : addr) (title pageid : value)
         (redirect preload : bool) (original_title : value) : M unit :=
  match fuel with
  | O => diverge
  | S fuel' =>
      ensure_site_info ;;
      match title, pageid with
      | VNone, VNone =>
          raise (ValueError "Either a title or a pageid must be specified")
      | VNone, _ => setattr self "pageid" pageid
      | _, _ =>
          setattr self "title" title ;;
          setattr self "original_title"
                  (if truthy original_title then original_title else title)
      end ;;
      load (fun to => init fuel' self to VNone redirect preload (VStr EmptyString))
           self redirect ;;
      if preload then preload_properties fuel' self else ret tt
  end.

(** [WikipediaPage(title, pageid, redirect, preload)]: a new object, then
    [__init__] on it. *)
Definition new (fuel : nat) (title pageid : value)
           (redirect preload : bool) : M addr :=
  self <- new_object ;;
  init fuel self title pageid redirect preload (VStr EmptyString) ;;
  ret self.

End Page.

End WikipediaPage.

(** [page(title=None, pageid=None, auto_suggest=True, redirect=True,
    preload=False)] *)
Definition page {X : Externals} (fuel : nat) (title pageid : value)
           (auto_suggest redirect preload : bool) : M addr :=
  is_blank <- lift (blank title) ;;
  if negb is_blank then
    title <-
      (if auto_suggest then
         r <- search ([title], [("results", VInt 1); ("suggestion", VBool true)]) ;;
         match r with
         | VTuple [results; suggestion] | VList [results; suggestion] =>
             if truthy suggestion then ret suggestion
             else try_except
                    (lift (Py.item_v results (VInt 0)))
                    (fun e => if is_IndexError e
                              then raise (WikipediaPage.PageError_new [title] [])
                              else raise e)
         | _ => raise (ValueError "not enough values to unpack")
         end
       else ret title) ;;
    WikipediaPage.new fuel title VNone redirect preload
  else
    match pageid with
    | VNone => raise (ValueError "Either a title or a pageid must be specified")
    | _ => WikipediaPage.new fuel VNone pageid true preload
    end.

(* ===================================================================== *)
(** ** [categorytree] *)
(* ===================================================================== *)

Section CategoryTree.

Context {X : Externals}.

(** The memo dictionaries [categories] (category name to page object) and
    [links] (category name to the pair of member lists). *)
Definition page_memo := list (string * addr).

Fixpoint memo_get (cat : string) (m : page_memo) : option addr :=
  match m with
  | [] => None
  | (c, a) :: m' => if String.eqb cat c then Some a else memo_get cat m'
  end.

Fixpoint memo_set (cat : string) (a : addr) (m : page_memo) : page_memo :=
  match m with
  | [] => [(cat, a)]
  | (c, b) :: m' =>
      if String.eqb cat c then (c, a) :: m' else (c, b) :: memo_set cat a m'
  end.

(** The [while True:] loop that fills [categories[cat]] and [links[cat]]:
    a [PageError] is raised again for [cat], any other exception is slept
    on and the three calls are run again. *)
Fixpoint fetch_category (fuel : nat) (cat : string) (categories : page_memo)
         (links : dict) : M (page_memo * dict) :=
  match fuel with
  | O => diverge
  | S fuel' =>
      try_except
        (p <- page fuel' (VStr ("Category:" ++ cat)) VNone true true false ;;
         WikipediaPage.categories fuel' p ;;
         members <- categorymembers ([VStr cat; VInt 500; VBool true], []) ;;
         ret (memo_set cat p categories, Dict.set cat members links))
        (fun e =>
           if is_PageError e then raise (WikipediaPage.PageError_new [VStr cat] [])
           else sleep 1 ;; fetch_category fuel' cat categories links)
  end.

(** [tree[cat]] as created at the head of [__cat_tree_rec]. *)
Definition node (level : Z) (subs : dict) (links parents : list value) : value :=
  VDict [("depth", VInt level); ("sub-categories", VDict subs);
         ("links", VList links); ("parent-categories", VList parents)].

(** [for c in links[cat][1]: tree[cat]['sub-categories'][c] = None] *)
Fixpoint null_leaves (subcats : list value) (subs : dict) : exn + dict :=
  match subcats with
  | [] => inr subs
  | VStr c :: rest => null_leaves rest (Dict.set c VNone subs)
  | _ :: _ => inl TypeError
  end.

(** [for c in links[cat][1]: __cat_tree_rec(c, depth,
    tree[cat]['sub-categories'], level + 1, categories, links)], with the
    recursive call as [rec]. *)
Fixpoint for_each_subcategory
         (rec : string -> dict -> page_memo -> dict -> M (dict * page_memo * dict))
         (subcats : list value) (subs : dict) (categories : page_memo)
         (links : dict) : M (dict * page_memo * dict) :=
  match subcats with
  | [] => ret (subs, categories, links)
  | VStr c :: rest =>
      r <- rec c subs categories links ;;
      for_each_subcategory rec rest (fst (fst r)) (snd (fst r)) (snd r)
  | _ :: _ => raise TypeError
  end.

(** [__cat_tree_rec(cat, depth, tree, level, categories, links)]; the three
    dictionaries it writes to are returned. *)
Fixpoint cat_tree_rec (fuel : nat) (cat : string) (depth : Z) (tree : dict)
         (level : Z) (categories : page_memo) (links : dict)
  : M (dict * page_memo * dict) :=
  match fuel with
  | O => diverge
  | S fuel' =>
      let tree := Dict.set cat (node level [] [] []) tree in
      fetched <- (match memo_get cat categories with
                  | None => fetch_category fuel' cat categories links
                  | Some _ => ret (categories, links)
                  end) ;;
      let categories := fst fetched in
      let links := snd fetched in
      p <- (match memo_get cat categories with
            | Some p => ret p
            | None => raise (KeyError (VStr cat))
            end) ;;
      parents <- WikipediaPage.categories fuel' p ;;
      parents <- lift (Py.iter parents) ;;
      members <- lift (Py.item (VDict links) cat) ;;
      pages <- lift (Py.item_at members 0) ;;
      pages <- lift (Py.iter pages) ;;
      subcats <- lift (Py.item_at members 1) ;;
      subcats <- lift (Py.iter subcats) ;;
      if (depth <=? level) && (0 <? depth) then
        subs <- lift (null_leaves subcats []) ;;
        ret (Dict.set cat (node level subs pages parents) tree, categories, links)
      else
        r <- for_each_subcategory
               (fun c subs categories links =>
                  cat_tree_rec fuel' c depth subs (level + 1) categories links)
               subcats [] categories links ;;
        ret (Dict.set cat (node level (fst (fst r)) pages parents) tree,
             snd (fst r), snd r)
  end.

(** [for cat in cats: __cat_tree_rec(cat, depth, results, 0, categories,
    links)] *)
Fixpoint for_each_category (fuel : nat) (depth : Z) (cats : list string)
         (results : dict) (categories : page_memo) (links : dict)
  : M (dict * page_memo * dict) :=
  match cats with
  | [] => ret (results, categories, links)
  | cat :: cats' =>
      r <- cat_tree_rec fuel cat depth results 0 categories links ;;
      for_each_category fuel depth cats' (fst (fst r)) (snd (fst r)) (snd r)
  end.

(** [categorytree(category, depth=5)] for a list of categories *)
Definition categorytree (fuel : nat) (category : list string) (depth : Z)
  : M dict :=
  r <- for_each_category fuel depth category [] [] [] ;;
  ret (fst (fst r)).

End CategoryTree.

(* ===================================================================== *)
(** ** Vocabulary of the statements *)
(* ===================================================================== *)

(** A result with a function applied to the value returned. *)
Definition on_result {A B} (f : A -> B) (r : outcome A * World) : outcome B * World :=
  match r with
  | (Ok a, w) => (Ok (f a), w)
  | (Raise e, w) => (Raise e, w)
  | (Diverge, w) => (Diverge, w)
  end.

(** *** Responses to the page-info query *)

(** The response has the shape
    [{"query": {"pages": {pageid: page, ...}, ...}, ...}], with [pageid] the
    first key of the page collection. *)
Definition page_info (response : value) (query : dict) (pageid : string)
           (page : dict) : Prop :=
  exists rd others,
    response = VDict rd
    /\ Dict.get "query" rd = Some (VDict query)
    /\ Dict.get "pages" query = Some (VDict ((pageid, VDict page) :: others)).


(** [query[key][0]] is an object with the fields ["from"] and ["to"]. *)
Definition mapping_entry (key : string) (query : dict) (from to : value) : Prop :=
  exists entries entry,
    Dict.get key query = Some entries
    /\ Py.item_at entries 0 = inr (VDict entry)
    /\ Dict.get "from" entry = Some from
    /\ Dict.get "to" entry = Some to.

(** The arguments of [__init__] name a page: a title, or else a pageid, for
    an object that has no title attribute yet. *)
Definition identified (self : addr) (title pageid : value) (w : World) : Prop :=
  match title, pageid with
  | VNone, VNone => False
  | VNone, _ => Dict.get "title" (heap w self) = None
  | _, _ => True
  end.

(** What [self.__title_query_param] is for these arguments. *)
Definition identifier_param (title pageid : value) : dict :=
  match title with
  | VNone => [("pageids", pageid)]
  | _ => [("titles", title)]
  end.

(** The two [assert] statements of the redirect branch hold for an object
    made from [title], or from a pageid when [title] is [None]: with a
    ["normalized"] entry, it maps the title to the source of the redirect;
    without one, the title is the source, or the object has no title and
    takes the source as its title. *)
Definition redirect_checks (query : dict) (title from : value) : Prop :=
  (exists nfrom nto,
      mapping_entry "normalized" query nfrom nto
      /\ title <> VNone
      /\ py_eq nfrom title = true /\ py_eq from nto = true)
  \/ (Dict.has "normalized" query = false
      /\ truthy title = true /\ py_eq from title = true)
  \/ (Dict.has "normalized" query = false
      /\ title = VNone /\ py_eq from from = true).

(** The state in which the redirect branch calls [__init__] again: without
    a ["normalized"] entry, an object without a true title takes the source
    of the redirect as its title and loses its pageid. *)
Definition source_adopted (self : addr) (query : dict) (title from : value)
           (w : World) : World :=
  if Dict.has "normalized" query then w
  else if truthy title then w
       else unassign self "pageid" (assign self "title" from w).

(** The state in which [__init__] calls [__load]: the title and the original
    title are assigned, or else the pageid. *)
Definition entered (self : addr) (title pageid original_title : value) (w : World)
  : World :=
  match title with
  | VNone => assign self "pageid" pageid w
  | _ => assign self "original_title"
                (if truthy original_title then original_title else title)
                (assign self "title" title w)
  end.

(** The attributes [__init__] leaves for [__load]: the title, or else the
    pageid and no title. *)
Definition named (self : addr) (title : value) (w : World) : Prop :=
  match title with
  | VNone => Dict.get "title" (heap w self) = None
             /\ Dict.has "pageid" (heap w self) = true
  | _ => Dict.get "title" (heap w self) = Some title
  end.

(** The state after the answered page-info request of that object. *)
Definition asked (self : addr) (title pageid original_title : value) (w : World)
  : World :=
  answered (WikipediaPage.load_query_params (identifier_param title pageid))
           (entered self title pageid original_title w).

(** The title [RedirectError] and [DisambiguationError] are raised with:
    [getattr(self, 'title', page['title'])]. *)
Definition reported_title (title page_title : value) : value :=
  match title with VNone => page_title | _ => title end.

(** The new title as section 4.1 of the spec words it: the "normalized"
    mapping is preferred over the redirect's own "to" field when both
    exist. *)
Definition title_as_worded (query : dict) : exn + value :=
  if Dict.has "normalized" query
  then and_then (Py.item (VDict query) "normalized") (fun n =>
       and_then (Py.item_at n 0) (fun n => Py.item n "to"))
  else and_then (Py.item (VDict query) "redirects") (fun r =>
       and_then (Py.item_at r 0) (fun r => Py.item r "to")).

(** *** Lazy fields *)

Inductive lazy_field : Type :=
| Content | Coordinates | Images | Links | Categories | Redirects | Backlinks
| References | Summary | Sections.

(** The attribute a field is kept in. *)
Definition field_attr (f : lazy_field) : string :=
  match f with
  | Content => "_content" | Coordinates => "_coordinates" | Images => "_images"
  | Links => "_links" | Categories => "_categories" | Redirects => "_redirects"
  | Backlinks => "_backlinks" | References => "_references"
  | Summary => "_summary" | Sections => "_sections"
  end.

(** Reading the property of a field, and the body of the [if] of that
    property. *)
Definition access {X : Externals} (fuel : nat) (f : lazy_field) (self : addr)
  : M value :=
  match f with
  | Content => WikipediaPage.content self
  | Coordinates => WikipediaPage.coordinates self
  | Images => WikipediaPage.images fuel self
  | Links => WikipediaPage.links fuel self
  | Categories => WikipediaPage.categories fuel self
  | Redirects => WikipediaPage.redirects fuel self
  | Backlinks => WikipediaPage.backlinks fuel self
  | References => WikipediaPage.references fuel self
  | Summary => WikipediaPage.summary self
  | Sections => WikipediaPage.sections self
  end.

Definition fetch {X : Externals} (fuel : nat) (f : lazy_field) (self : addr)
  : M unit :=
  match f with
  | Content => WikipediaPage.fetch_content self
  | Coordinates => WikipediaPage.fetch_coordinates self
  | Images => WikipediaPage.fetch_images fuel self
  | Links => WikipediaPage.fetch_links fuel self
  | Categories => WikipediaPage.fetch_categories fuel self
  | Redirects => WikipediaPage.fetch_redirects fuel self
  | Backlinks => WikipediaPage.fetch_backlinks fuel self
  | References => WikipediaPage.fetch_references fuel self
  | Summary => WikipediaPage.fetch_summary self
  | Sections => WikipediaPage.fetch_sections self
  end.

(** *** Sections of the content *)

(** What [section] computes from the content, as a function of strings. *)
Definition section_text (content section_title : string) : option string :=
  let section := WikipediaPage.section_marker section_title in
  match Str.index_from section content 0 with
  | None => None
  | Some i =>
      let index := (i + String.length section)%nat in
      let next_index := match Str.index_from "==" content index with
                        | Some j => j
                        | None => String.length content
                        end in
      Some (Str.strip (Str.lstrip "=" (Str.slice content index next_index)))
  end.

(** [None] or a string, as a value. *)
Definition option_value (o : option string) : value :=
  match o with Some s => VStr s | None => VNone end.

(** [sub] occurs in [s] at offset [n] and at no smaller offset. *)
Definition first_at (sub s : string) (n : nat) : Prop :=
  String.prefix sub (Str.drop n s) = true
  /\ (n <= String.length s)%nat
  /\ forall m, (m < n)%nat -> String.prefix sub (Str.drop m s) = false.

(** [sub] occurs nowhere in [s]. *)
Definition absent (sub s : string) : Prop :=
  forall n, (n <= String.length s)%nat -> String.prefix sub (Str.drop n s) = false.

(** The example of the documentation: a History section followed by the
    next heading. *)
Definition history_block : string :=
  "== History ==" ++ String "010" ("text here" ++ String "010" "== Legacy ==").

(** The result as section 4.3 of the spec words it: the text between the
    marker and the next [==], with [=] and whitespace trimmed from both
    ends. *)
Definition equals_or_space (c : ascii) : bool :=
  Ascii.eqb c "=" || Str.isspace c.

Definition section_as_worded (content section_title : string) : option string :=
  let section := WikipediaPage.section_marker section_title in
  match Str.index_from section content 0 with
  | None => None
  | Some i =>
      let index := (i + String.length section)%nat in
      let next_index := match Str.index_from "==" content index with
                        | Some j => j
                        | None => String.length content
                        end in
      Some (Str.rstrip_by equals_or_space
              (Str.lstrip_by equals_or_space (Str.slice content index next_index)))
  end.

(** *** Category trees *)

(** [links[cat][1]], the sub-category names of [cat] in the memo [links]. *)
Definition subcategories_of (links : dict) (cat : string) : exn + list value :=
  and_then (Py.item (VDict links) cat) (fun members =>
  and_then (Py.item_at members 1) Py.iter).

(** Every entry [links[cat]] is a value that
    [categorymembers(cat, 500, True)] returned. *)
Definition fetched (links : dict) : Prop :=
  forall cat members, Dict.get cat links = Some members ->
    exists w1 w2,
      categorymembers ([VStr cat; VInt 500; VBool true], []) w1 = (Ok members, w2).

(** The two memo dictionaries only gain entries: a category that has its
    page keeps one, and keeps its entry of [links]. *)
Definition grows (categories : page_memo) (links : dict)
           (categories' : page_memo) (links' : dict) : Prop :=
  forall k, memo_get k categories <> None ->
            memo_get k categories' <> None
            /\ Dict.get k links' = Dict.get k links.

(** The node of [cat] built at [level] under the bound [depth], for the memo
    dictionaries [categories] and [links]: its children are named by the
    sub-categories [links[cat][1]]; when [level >= depth > 0] every child is
    [None]; otherwise every child is the node of that sub-category built at
    [level + 1] in the same way. *)
Inductive shaped (depth : Z) (categories : page_memo) (links : dict)
  : Z -> string -> value -> Prop :=
| shaped_node (level : Z) (cat : string) (subs : dict)
              (pages parents subcats : list value) :
    memo_get cat categories <> None ->
    subcategories_of links cat = inr subcats ->
    (forall c, Dict.has c subs = true <-> In (VStr c) subcats) ->
    ((depth <=? level) && (0 <? depth) = true ->
     forall c v, Dict.get c subs = Some v -> v = VNone) ->
    ((depth <=? level) && (0 <? depth) = false ->
     forall c v, Dict.get c subs = Some v ->
                 shaped depth categories links (level + 1) c v) ->
    shaped depth categories links level cat (node level subs pages parents).

(** A node without [None] anywhere below it. *)
Inductive expanded : value -> Prop :=
| expanded_node (level : Z) (subs : dict) (links parents : list value) :
    (forall c v, Dict.get c subs = Some v -> expanded v) ->
    expanded (node level subs links parents).

(** What one call of [__cat_tree_rec] for [cat] does to the three
    dictionaries it is given: the memo dictionaries only gain entries, the
    entry of [cat] in the tree is a node of that shape, the other entries of
    the tree are left alone. *)
Definition builds (depth level : Z) (cat : string) (tree : dict)
           (categories : page_memo) (links : dict)
           (r : dict * page_memo * dict) : Prop :=
  grows categories links (snd (fst r)) (snd r)
  /\ (exists n, Dict.get cat (fst (fst r)) = Some n
                /\ shaped depth (snd (fst r)) (snd r) level cat n)
  /\ (forall k, k <> cat -> Dict.get k (fst (fst r)) = Dict.get k tree).

(* ===================================================================== *)
(** ** Fixtures *)
(* ===================================================================== *)

Module Fixture.

(** A stand-in for the two libraries: pages without list items, and
    [Decimal] of an integer or of a float. *)
Definition externals : Externals := {|
  find_all_li := fun _ => inr [];
  Decimal := fun v =>
    match v with
    | VInt z => inr (VDecimal z 0)
    | VFloat m e => inr (if 0 <=? e then VDecimal (m * 2 ^ e) 0
                         else VDecimal (m * 5 ^ (- e)) e)
    | _ => inl TypeError
    end
|}.

(** The configuration once the site has been probed: MediaWiki 1.28 with
    the two extensions, no rate limiting, no session yet. *)
Definition site : Globals := {|
  API_URL := "http://en.wikipedia.org/w/api.php";
  API_VERSION := Some "1.28.0";
  API_VERSION_MAJOR_MINOR := Some [1; 28; 0];
  INSTALLED_EXTENSIONS := Some [VStr "TextExtracts"; VStr "GeoData"];
  LANGUAGE_PREFIX := "en";
  RATE_LIMIT := false;
  RATE_LIMIT_MIN_WAIT := None;
  RATE_LIMIT_LAST_CALL := None;
  USER_AGENT := USER_AGENT initial_globals;
  SESSION := None;
  TIMEOUT := None
|}.

(** A state in which the remote will answer [replies] and the object at
    address 0, if any, has the attributes [o]. *)
Definition state (g : Globals) (o : dict) (replies : list reply) : World := {|
  globals := g;
  memo := [];
  pending := replies;
  sent := [];
  clock := fun n => 1000 * Z.of_nat n;
  reads := O;
  slept := [];
  heap := fun a => if Nat.eqb a 0 then o else [];
  next_addr := 1
|}.

Definition world (replies : list reply) : World := state site [] replies.

Definition json (v : value) : reply := Reply (Some v).

(** [{"query": {..., "pages": {pageid: page}}}] *)
Definition pages_response (more : dict) (pageid : string) (page : dict) : value :=
  VDict [("query", VDict (more ++ [("pages", VDict [(pageid, VDict page)])])%list)].

(** The attributes of a resolved page. *)
Definition loaded_page : dict :=
  [("title", VStr "Rocq"); ("original_title", VStr "Rocq");
   ("pageid", VStr "42"); ("url", VStr "http://en.wikipedia.org/wiki/Rocq")].

Definition page_world (replies : list reply) : World :=
  state site loaded_page replies.

(** *** Three rounds of links *)

Definition link (title : string) : value :=
  VDict [("ns", VInt 0); ("title", VStr title)].

Definition links_round (continue : option dict) (titles : list string) : value :=
  VDict (match continue with
         | Some c => [("continue", VDict c)]
         | None => []
         end
         ++ [("query", VDict [("pages",
               VDict [("42", VDict [("pageid", VInt 42);
                                    ("links", VList (map link titles))])])])])%list.

Definition continue_1 : dict := [("plcontinue", VStr "42|0|C"); ("continue", VStr "||")].
Definition continue_2 : dict := [("plcontinue", VStr "42|0|E"); ("continue", VStr "||")].

Definition round_1 : value := links_round (Some continue_1) ["A"; "B"].
Definition round_2 : value := links_round (Some continue_2) ["C"; "D"].
Definition round_3 : value := links_round None ["E"].

Definition links_params : dict :=
  [("prop", VStr "links"); ("plnamespace", VInt 0); ("pllimit", VStr "max")].

(** *** Page-info responses *)

Definition plain_page (pageid title : string) : value :=
  pages_response [] pageid
    [("pageid", VStr pageid); ("ns", VInt 0); ("title", VStr title);
     ("fullurl", VStr ("http://en.wikipedia.org/wiki/" ++ title))].

Definition missing_response : value :=
  pages_response [] "-1" [("ns", VInt 0); ("title", VStr "Nonexistent");
                          ("missing", VStr EmptyString)].

Definition mapping (from to : string) : value :=
  VList [VDict [("from", VStr from); ("to", VStr to)]].

(** A redirect from [from] to [to]; the page entry is the target. *)
Definition redirect_response (from to : string) : value :=
  pages_response [("redirects", mapping from to)] "7"
    [("pageid", VInt 7); ("ns", VInt 0); ("title", VStr to);
     ("fullurl", VStr ("http://en.wikipedia.org/wiki/" ++ to))].

(** The title ["foo"] is normalized to ["Foo"], which redirects to
    ["Bar"]. *)
Definition normalized_query : dict :=
  [("normalized", mapping "foo" "Foo"); ("redirects", mapping "Foo" "Bar");
   ("pages", VDict [("7", VDict [("pageid", VInt 7); ("ns", VInt 0);
                                 ("title", VStr "Bar");
                                 ("fullurl", VStr "http://en.wikipedia.org/wiki/Bar")])])].

Definition normalized_redirect : value := VDict [("query", VDict normalized_query)].

(** A redirect whose target does not exist: the page entry of the target
    is marked missing. *)
Definition broken_redirect : value :=
  pages_response [("redirects", mapping "Old" "Gone")] "-1"
    [("ns", VInt 0); ("title", VStr "Gone"); ("missing", VStr EmptyString)].

(** *** Lazy fields *)

Definition content_response : value :=
  pages_response [] "42"
    [("pageid", VInt 42); ("title", VStr "Rocq");
     ("extract", VStr "Rocq is a proof assistant.");
     ("revisions", VList [VDict [("revid", VInt 10); ("parentid", VInt 9)]])].

(** A page without coordinates. *)
Definition no_coordinates : value :=
  pages_response [] "42" [("pageid", VInt 42); ("title", VStr "Rocq")].

(** *** Sections *)

Definition read_page (content : string) : World :=
  state site (loaded_page ++ [("_content", VStr content)])%list [].

(** *** Queries under the cache *)

Definition prefix_results (titles : list string) : value :=
  VDict [("query", VDict [("prefixsearch", VList (map link titles))])].

Definition search_results (titles : list string) : value :=
  VDict [("query", VDict [("search", VList (map link titles))])].

Definition languages_response : value :=
  VDict [("query", VDict [("languages",
    VList [VDict [("code", VStr "en"); ("*", VStr "English")];
           VDict [("code", VStr "fr"); ("*", VStr "francais")]])])].

Definition call (args : list value) : call_key := (args, []).

(** *** Rate limiting *)

(** Rate limiting on with 50 ms between calls; the last call was at
    10 ms. *)
Definition limited_site : Globals := {|
  API_URL := API_URL site;
  API_VERSION := API_VERSION site;
  API_VERSION_MAJOR_MINOR := API_VERSION_MAJOR_MINOR site;
  INSTALLED_EXTENSIONS := INSTALLED_EXTENSIONS site;
  LANGUAGE_PREFIX := LANGUAGE_PREFIX site;
  RATE_LIMIT := true;
  RATE_LIMIT_MIN_WAIT := Some 50000;
  RATE_LIMIT_LAST_CALL := Some 10000;
  USER_AGENT := USER_AGENT site;
  SESSION := SESSION site;
  TIMEOUT := TIMEOUT site
|}.

(** *** A category tree *)

Definition member (type title : string) : value :=
  VDict [("type", VStr type); ("title", VStr title)].

Definition members_response (members : list value) : value :=
  VDict [("query", VDict [("categorymembers", VList members)])].

Definition categories_response (pageid : string) (titles : list string) : value :=
  VDict [("query", VDict [("pages",
    VDict [(pageid, VDict [("categories", VList (map link titles))])])])].

(** What the remote answers while the tree of ["Logic"] is built to depth
    1: for the root and for its sub-category ["Proof"], the search, the
    page, its categories and its members. *)
Definition tree_replies : list reply :=
  map json
    [search_results ["Category:Logic"];
     plain_page "1" "Category:Logic";
     categories_response "1" ["Category:Philosophy"];
     members_response [member "page" "Modus ponens";
                       member "subcat" "Category:Proof"];
     search_results ["Category:Proof"];
     plain_page "2" "Category:Proof";
     categories_response "2" ["Category:Logic"];
     members_response [member "page" "Lemma";
                       member "subcat" "Category:Proof assistants"]].

(** The rate-limited site with a clock that stands at 59 ms at the first
    reading and at 2 s from the second on: the process is held up between
    the two readings of [_wiki_request]. *)
Definition stalled_world : World := {|
  globals := limited_site;
  memo := [];
  pending := [];
  sent := [];
  clock := fun n => match n with O => 59000 | S _ => 2000000 end;
  reads := O;
  slept := [];
  heap := fun _ => [];
  next_addr := 1
|}.

(** *** A disambiguation page *)





(** *** Further sites and responses *)

(** A site at MediaWiki 1.15. *)
Definition old_site : Globals :=
  set_API_VERSION (Some "1.15.0") (set_API_VERSION_MAJOR_MINOR (Some [1; 15; 0]) site).

(** The site with the OpenSearch extension. *)
Definition opensearch_site : Globals :=
  set_INSTALLED_EXTENSIONS (Some [VStr "OpenSearch"]) site.

(** Rate limiting on with 50 ms between calls, no call made yet. *)
Definition fresh_limited_site : Globals := set_rate true (Some 50000) site.

Definition siteinfo_response : value :=
  VDict [("query",
          VDict [("general", VDict [("generator", VStr "MediaWiki 1.28.0-wmf.1")]);
                 ("extensions", VList [VDict [("name", VStr "GeoData")];
                                       VDict [("name", VStr "TextExtracts")]])])].

Definition error_response (info : string) : value :=
  VDict [("error", VDict [("code", VStr "internal_api_error"); ("info", VStr info)])].

Definition random_response (titles : list string) : value :=
  VDict [("query", VDict [("random", VList (map link titles))])].

Definition opensearch_response : value :=
  VList [VStr "ro";
         VList [VStr "Rocq"; VStr "Rome"];
         VList [VStr "A proof assistant"; VStr "A city"];
         VList [VStr "http://en.wikipedia.org/wiki/Rocq";
                VStr "http://en.wikipedia.org/wiki/Rome"]].

Definition extlinks_response : value :=
  pages_response [] "42"
    [("pageid", VInt 42);
     ("extlinks", VList [VDict [("*", VStr "//example.org/a")];
                         VDict [("*", VStr "http://rocq-prover.org")]])].

(** The list items of a disambiguation page: one entry, and one line of the
    table of contents. *)
Definition disambiguation_items : list li_tag :=
  [mkLi [] [mkAnchor "Rocq (software)" (Some "Rocq (software)")]
        "Rocq (software), a proof assistant";
   mkLi ["toclevel-1"; "tocsection-1"] [mkAnchor "Contents" None] "Contents"].

(** A response to a search with a suggestion and no title. *)
Definition suggestion_response (suggestion : string) : value :=
  VDict [("query", VDict [("searchinfo", VDict [("suggestion", VStr suggestion)]);
                          ("search", VList [])])].

(** Two rounds of external links. *)
Definition extlinks_round (continue : option dict) (links : list string) : value :=
  VDict (match continue with
         | Some c => [("continue", VDict c)]
         | None => []
         end
         ++ [("query", VDict [("pages",
               VDict [("42", VDict [("pageid", VInt 42);
                                    ("extlinks",
                                     VList (map (fun l => VDict [("*", VStr l)])
                                                links))])])])])%list.

End Fixture.

(* ===================================================================== *)
(** ** Vocabulary of the further properties *)
(* ===================================================================== *)

Import WikipediaPage.

(** What the remote makes of the next request: the body parsed as JSON, or
    the exception of [r.json()] or of the HTTP layer. *)
Definition remote_outcome (replies : list reply) : outcome value :=
  match replies with
  | [] => Raise (RequestException "ConnectionError")
  | NoReply e :: _ => Raise e
  | Reply None :: _ => Raise (ValueError "No JSON object could be decoded")
  | Reply (Some json) :: _ => Ok json
  end.

(** *** The module-level queries *)

Inductive query_fn : Type :=
| QSearch | QSuggest | QPrefexsearch | QCategorymembers | QOpensearch | QRandom.

Definition run_query (f : query_fn) (call : call_key) : M value :=
  match f with
  | QSearch => search call
  | QSuggest => suggest call
  | QPrefexsearch => prefexsearch call
  | QCategorymembers => categorymembers call
  | QOpensearch => opensearch call
  | QRandom => random call
  end.

(** The version each function passes to [_cmp_major_minor], and the two
    strings it builds its [WikipediaAPIVersionError] with. *)
Definition minimum_version (f : query_fn) : list Z :=
  match f with
  | QSearch | QSuggest => [1; 16]
  | QPrefexsearch => [1; 23]
  | QCategorymembers => [1; 17]
  | QOpensearch => [1; 25]
  | QRandom => [1; 12]
  end.

Definition version_label (f : query_fn) : string :=
  match f with
  | QSearch | QSuggest => "1.16"
  | QPrefexsearch => "1.23"
  | QCategorymembers => "1.17"
  | QOpensearch => "1.25"
  | QRandom => "1.12"
  end.

Definition function_label (f : query_fn) : string :=
  match f with
  | QSearch => "search"
  | QSuggest => "suggest"
  | QPrefexsearch => "prefixsearch"
  | QCategorymembers => "categorymembers"
  | QOpensearch => "opensearch"
  | QRandom => "random"
  end.

(** The memo table a function is decorated with, if any. *)
Definition cache_of (f : query_fn) : option cached_fn :=
  match f with
  | QSearch => Some Fsearch
  | QSuggest => Some Fsuggest
  | QPrefexsearch => Some Fprefexsearch
  | QCategorymembers => Some Fcategorymembers
  | QOpensearch => Some Fopensearch
  | QRandom => None
  end.

(** The call is not answered from the memo table. *)
Definition unseen (f : query_fn) (call : call_key) (w : World) : Prop :=
  match cache_of f with
  | Some c => memo_lookup c call (memo w) = None
  | None => True
  end.

(** The site information is at hand and passes the checks of the function:
    the version test, and for [opensearch] the extension test. *)
Definition supported (f : query_fn) (g : Globals) : Prop :=
  (exists v, API_VERSION_MAJOR_MINOR g = Some v
             /\ _cmp_major_minor v (minimum_version f) = false)
  /\ (f = QOpensearch ->
      exists l, INSTALLED_EXTENSIONS g = Some l
                /\ existsb (py_eq (VStr "OpenSearch")) l = true).

(** The argument test of the function holds: a query that is [None] or
    blank, a number of pages that is [None] or below 1. *)
Definition rejected (f : query_fn) (argument : value) : Prop :=
  match f with
  | QRandom => argument = VNone \/ less_than argument 1 = inr true
  | _ => blank argument = inr true
  end.

Definition rejection (f : query_fn) : string :=
  match f with
  | QCategorymembers => "Category must be specified"
  | QRandom => "Number of pages must be greater than 0"
  | _ => "Query must be specified"
  end.

(** [info in ('HTTP request timed out.', 'Pool queue is full')] *)
Definition timed_out (info : value) : bool :=
  py_eq info (VStr "HTTP request timed out.") || py_eq info (VStr "Pool queue is full").

(** The suggestion [search] returns beside the titles:
    [raw_results['query']['searchinfo']['suggestion']] when
    [raw_results['query'].get('searchinfo')] is true, else [None]. *)
Definition suggested (query : dict) (s : value) : Prop :=
  let searchinfo := match Dict.get "searchinfo" query with
                    | Some x => x
                    | None => VNone
                    end in
  if truthy searchinfo then Py.item searchinfo "suggestion" = inr s else s = VNone.

(** [search_params] of [search] *)
Definition search_params (query results suggestion : value) : dict :=
  ([("list", VStr "search"); ("srprop", VStr EmptyString); ("srlimit", results);
    ("srsearch", query)]
   ++ (if truthy suggestion then [("srinfo", VStr "suggestion")] else []))%list.

(** [search_params] of [categorymembers] *)
Definition members_params (category : string) (results subcategories : value) : dict :=
  [("list", VStr "categorymembers"); ("cmprop", VStr "ids|title|type");
   ("cmtype", VStr (if truthy subcategories then "page|subcat" else "page"));
   ("cmlimit", results); ("cmtitle", VStr ("Category:" ++ category))].

(** A member of a category as the response lists it: its type and its
    title. *)
Definition member_entry (d : value) (m : string * string) : Prop :=
  Py.item d "type" = inr (VStr (fst m)) /\ Py.item d "title" = inr (VStr (snd m)).

(** The titles of the members of type ["page"], in order. *)
Definition member_pages (l : list (string * string)) : list value :=
  map (fun m => VStr (snd m)) (filter (fun m => String.eqb (fst m) "page") l).

(** The titles of the members of type ["subcat"], in order, each without a
    leading ["Category:"]. *)
Definition member_subcategories (l : list (string * string)) : list value :=
  map (fun m => VStr (if Str.startswith "Category:" (snd m)
                      then Str.drop 9 (snd m) else snd m))
      (filter (fun m => String.eqb (fst m) "subcat") l).

(** A computation that leaves the state as it is. *)
Definition stateless {A} (m : M A) : Prop := forall w, snd (m w) = w.

(** The parameter in which a function passes on its [results] argument. *)
Definition limit_key (f : query_fn) : string :=
  match f with
  | QPrefexsearch => "pslimit"
  | QOpensearch => "limit"
  | QSearch | QSuggest => "srlimit"
  | QCategorymembers => "cmlimit"
  | QRandom => "rnlimit"
  end.

(** One round of the loop of [opensearch]:
    [(raw_results[1][i], raw_results[2][i], raw_results[3][i])]. *)
Definition opensearch_row (raw_results : value) (i : nat) : exn + value :=
  and_then (Py.item_at raw_results 1) (fun l1 =>
  and_then (Py.item_at l1 i) (fun x =>
  and_then (Py.item_at raw_results 2) (fun l2 =>
  and_then (Py.item_at l2 i) (fun y =>
  and_then (Py.item_at raw_results 3) (fun l3 =>
  and_then (Py.item_at l3 i) (fun z =>
  inr (VTuple [x; y; z]))))))).

(** The rows [(title, description, url)] of an OpenSearch response. *)
Definition opensearch_rows (titles descriptions urls : list value) : list value :=
  map (fun r => VTuple [fst r; fst (snd r); snd (snd r)])
      (combine titles (combine descriptions urls)).

(** *** [page] *)

(** The title [page] goes on with after the search: [suggestion or
    results[0]]. *)
Definition chosen_title (titles : list value) (suggestion : value) : option value :=
  if truthy suggestion then Some suggestion else hd_error titles.

(** The call [search(title, results=1, suggestion=True)] of [page]. *)
Definition suggest_call (title : value) : call_key :=
  ([title], [("results", VInt 1); ("suggestion", VBool true)]).

(** *** Disambiguation pages *)

(** The list items [__load] keeps: those whose classes, joined, do not
    contain ["tocsection"]. *)
Definition kept_items (lis : list li_tag) : list li_tag :=
  filter (fun li => negb (Str.contains "tocsection"
                            (Str.join EmptyString (li_class li)))) lis.

(** The first link of a list item, with its [title] attribute. *)
Definition first_link (li : li_tag) (text title : string) : Prop :=
  exists a rest, li_anchors li = a :: rest
                 /\ a_text a = text /\ a_title a = Some title.

(** *** What the lazy fields ask of the site *)

(** The version a field passes to [_cmp_major_minor], with the two strings
    of its [WikipediaAPIVersionError]. *)
Definition version_gate (f : lazy_field) : option (list Z * string * string) :=
  match f with
  | Content => Some ([1; 11], "1.11", "content")
  | References => Some ([1; 13], "1.13", "references")
  | Links => Some ([1; 13], "1.13", "links")
  | Categories => Some ([1; 14], "1.14", "categories")
  | Redirects => Some ([1; 24], "1.24", "redirects")
  | Backlinks => Some ([1; 9], "1.9", "backlinks")
  | Coordinates | Images | Summary | Sections => None
  end.

(** The extension a field looks for, with the function name of its
    [WikipediaExtensionError]. *)
Definition extension_gate (f : lazy_field) : option (string * string) :=
  match f with
  | Content => Some ("TextExtracts", "content")
  | Summary => Some ("TextExtracts", "get_summary()")
  | Coordinates => Some ("GeoData", "coordinates")
  | Images | Links | Categories | Redirects | Backlinks | References
  | Sections => None
  end.

(** The site passes the version test of the field, if the field has one. *)
Definition recent_enough (f : lazy_field) (g : Globals) : Prop :=
  match version_gate f with
  | Some (required, _, _) =>
      exists v, API_VERSION_MAJOR_MINOR g = Some v
                /\ _cmp_major_minor v required = false
  | None => True
  end.

(** The value a read of the field starts from:
    [getattr(self, name, False)]. *)
Definition seen (f : lazy_field) (self : addr) (w : World) : value :=
  match Dict.get (field_attr f) (heap w self) with
  | Some v => v
  | None => VBool false
  end.

(** A list of strings that all start with ["http"]. *)
Definition absolute_urls (v : value) : Prop :=
  exists l, v = VList l
            /\ Forall (fun x => exists s, x = VStr s
                                          /\ Str.startswith "http" s = true) l.

(** *** What a request leaves alone *)

(** A computation that leaves the attributes of every object as they are. *)
Definition keeps_heap {A} (m : M A) : Prop := forall w, heap (snd (m w)) = heap w.

(** The site the configuration names and what is known of it. *)
Definition same_site (g g' : Globals) : Prop :=
  API_URL g' = API_URL g
  /\ LANGUAGE_PREFIX g' = LANGUAGE_PREFIX g
  /\ API_VERSION g' = API_VERSION g
  /\ API_VERSION_MAJOR_MINOR g' = API_VERSION_MAJOR_MINOR g
  /\ INSTALLED_EXTENSIONS g' = INSTALLED_EXTENSIONS g.

(** *** Changing the site *)

(** [tmp_url] of [set_lang]: the API URL with ["/<old prefix>."] replaced by
    ["/<new prefix>."], the new prefix in lower case. *)
Definition language_url (prefix : string) (g : Globals) : string :=
  Str.replace ("/" ++ LANGUAGE_PREFIX g ++ ".") ("/" ++ Str.lower prefix ++ ".")
              (API_URL g).

(** [search_params] of [suggest] *)
Definition suggest_params (query : value) : dict :=
  [("list", VStr "search"); ("srinfo", VStr "suggestion");
   ("srprop", VStr EmptyString); ("srsearch", query)].

(** *** The loop that fetches a category *)

(** One attempt: the three statements under [try:] in [__cat_tree_rec]. *)
Definition category_attempt {X : Externals} (fuel : nat) (cat : string)
           (categories : page_memo) (links : dict) : M (page_memo * dict) :=
  p <- page fuel (VStr ("Category:" ++ cat)) VNone true true false ;;
  WikipediaPage.categories fuel p ;;
  members <- categorymembers ([VStr cat; VInt 500; VBool true], []) ;;
  ret (memo_set cat p categories, Dict.set cat members links).

(** [n] attempts in a row lead from [w] to [w']: each raises an exception
    other than [PageError] and is followed by a sleep of one second.  The
    attempt that comes after them has [fuel] rounds at hand. *)
Fixpoint retried {X : Externals} (n fuel : nat) (cat : string)
         (categories : page_memo) (links : dict) (w w' : World) : Prop :=
  match n with
  | O => w' = w
  | S n' =>
      exists e w1,
        category_attempt (n + fuel) cat categories links w = (Raise e, w1)
        /\ is_PageError e = false
        /\ retried n' fuel cat categories links (with_slept (1 :: slept w1) w1) w'
  end.

(** *** What the continuation cursor yields *)

(** The run of [__continued_query] from the place it is suspended at, over
    the answers [pend] of the remote: the fragments it yields and the
    parameters of the requests it makes, both in order, and the answers it
    leaves.  At [GStart] it is about to ask with the continuation [lc]; at
    [GRound data r] it is in the [for] loop of the response [r] with [data]
    still to yield. *)
Inductive continued (qp : dict) (prop : value) (pageid : option value)
  : gen_pc -> value -> list reply -> list value -> list dict -> list reply
    -> Prop :=
| continued_done lc pend :
    continued qp prop pageid GDone lc pend [] [] pend
| continued_datum d data r lc pend frags ps rest :
    continued qp prop pageid (GRound data r) lc pend frags ps rest ->
    continued qp prop pageid (GRound (d :: data) r) lc pend (d :: frags) ps rest
| continued_last r lc pend :
    Py.contains "continue" r = inr false ->
    continued qp prop pageid (GRound [] r) lc pend [] [] pend
| continued_more r lc c pend frags ps rest :
    Py.contains "continue" r = inr true ->
    Py.item r "continue" = inr c ->
    continued qp prop pageid GStart c pend frags ps rest ->
    continued qp prop pageid (GRound [] r) lc pend frags ps rest
| continued_stop lc params r pend :
    Py.update qp lc = inr params ->
    Py.contains "query" r = inr false ->
    continued qp prop pageid GStart lc (Reply (Some r) :: pend) [] [params] pend
| continued_round lc params r pend data frags ps rest :
    Py.update qp lc = inr params ->
    Py.contains "query" r = inr true ->
    round_data qp prop pageid r = inr data ->
    continued qp prop pageid (GRound data r) lc pend frags ps rest ->
    continued qp prop pageid GStart lc (Reply (Some r) :: pend) frags
              (params :: ps) rest.

(** The values a loop over the fragments appends: [pick] gives the value
    for a fragment, or [None] for a fragment the loop passes over. *)
Fixpoint picked (pick : value -> exn + option value) (frags : list value)
  : exn + list value :=
  match frags with
  | [] => inr []
  | d :: frags' =>
      and_then (pick d) (fun o =>
      and_then (picked pick frags') (fun xs =>
      inr (match o with Some x => x :: xs | None => xs end)))
  end.

(** The body of such a loop: [self.name.append(x)] for the value of the
    fragment. *)
Definition appends (self : addr) (name : string)
           (pick : value -> exn + option value) (datum : value) : M unit :=
  o <- lift (pick datum) ;;
  match o with
  | Some x => append_attr self name x
  | None => ret tt
  end.

(** What the state holds while such a loop runs. *)
Definition collecting (self : addr) (name : string) (pageid : option value)
           (pend : list reply) (acc : list value) (asked : list dict) (w : World)
  : Prop :=
  RATE_LIMIT (globals w) = false
  /\ pending w = pend
  /\ Dict.get "pageid" (heap w self) = pageid
  /\ Dict.get name (heap w self) = Some (VList acc)
  /\ map rq_params (sent w) = asked.

(** *** What a lazy field reads *)

(** The fields filled by a loop over [__continued_query]. *)
Definition field_loops (f : lazy_field) : bool :=
  match f with
  | Images | Links | Categories | Redirects | References => true
  | _ => false
  end.

(** The parameters of the first request of a field, for a page with that
    title. *)
Definition field_query (f : lazy_field) (title : value) : dict :=
  match f with
  | Content =>
      [("prop", VStr "extracts|revisions"); ("explaintext", VStr EmptyString);
       ("rvprop", VStr "ids"); ("titles", title)]
  | Summary =>
      [("prop", VStr "extracts"); ("explaintext", VStr EmptyString);
       ("titles", title); ("exintro", VStr EmptyString)]
  | Coordinates =>
      [("prop", VStr "coordinates"); ("colimit", VStr "max"); ("titles", title)]
  | Images =>
      [("generator", VStr "images"); ("gimlimit", VStr "max");
       ("prop", VStr "imageinfo"); ("iiprop", VStr "url"); ("titles", title)]
  | References =>
      [("prop", VStr "extlinks"); ("ellimit", VStr "max"); ("titles", title)]
  | Links =>
      [("prop", VStr "links"); ("plnamespace", VInt 0); ("pllimit", VStr "max");
       ("titles", title)]
  | Categories =>
      [("prop", VStr "categories"); ("cllimit", VStr "max");
       ("clshow", VStr "!hidden"); ("titles", title)]
  | Redirects =>
      [("prop", VStr "redirects"); ("rdprop", VStr "title");
       ("rdlimit", VStr "100"); ("titles", title)]
  | Backlinks =>
      [("action", VStr "query"); ("list", VStr "backlinks"); ("bltitle", title);
       ("bllimit", VInt 500); ("blfilterredir", VStr "nonredirects");
       ("blcontinue", VDict []); ("blnamespace", VInt 0)]
  | Sections =>
      [("action", VStr "parse"); ("prop", VStr "sections"); ("page", title)]
  end.

(** What the loop of a field appends for a fragment: the URL of an image
    that has one, a link made absolute, a title, the name of a category
    without its prefix. *)
Definition field_pick (f : lazy_field) (datum : value) : exn + option value :=
  match f with
  | Images =>
      and_then (Py.contains "imageinfo" datum) (fun has_info =>
      if has_info then
        and_then (Py.item datum "imageinfo") (fun info =>
        and_then (Py.item_at info 0) (fun first =>
        and_then (Py.item first "url") (fun url => inr (Some url))))
      else inr None)
  | References =>
      and_then (Py.item datum "*") (fun star =>
      and_then (Py.str_method "startswith" star) (fun star =>
      inr (Some (VStr (if Str.startswith "http" star then star
                       else "http:" ++ star)))))
  | Links | Redirects =>
      and_then (Py.item datum "title") (fun title => inr (Some title))
  | Categories =>
      and_then (Py.item datum "title") (fun title =>
      and_then (Py.str_method "startswith" title) (fun title =>
      inr (Some (VStr (if Str.startswith "Category:" title
                       then Str.drop 9 title else title)))))
  | _ => inr None
  end.

(** [request['query']['pages'][pageid]] *)
Definition page_entry (request pageid : value) : exn + value :=
  and_then (path request ["query"; "pages"]) (fun pages => Py.item_v pages pageid).

(** The rounds of the loop of [backlinks], from the parameters of a round:
    the titles it appends and the parameters of the requests it makes, both
    in order, and the answers it leaves. *)
Inductive backlinked : dict -> list reply -> list value -> list dict -> list reply
                       -> Prop :=
| backlinked_last qp r rest found l titles :
    path r ["query"; "backlinks"] = inr found ->
    Py.iter found = inr l ->
    map_e (fun link => Py.item link "title") l = inr titles ->
    Py.get r "continue" (VBool false) = inr (VBool false) ->
    backlinked qp (Reply (Some r) :: rest) titles [qp] rest
| backlinked_more qp r pend found l titles more c titles' ps rest :
    path r ["query"; "backlinks"] = inr found ->
    Py.iter found = inr l ->
    map_e (fun link => Py.item link "title") l = inr titles ->
    Py.get r "continue" (VBool false) = inr more ->
    more <> VBool false ->
    path r ["continue"; "blcontinue"] = inr c ->
    backlinked (Dict.set "blcontinue" c (request_params qp)) pend titles' ps rest ->
    backlinked qp (Reply (Some r) :: pend) (titles ++ titles') (qp :: ps) rest.

(** What a read of the field makes of the answers [pend] of the remote, for
    a page with that title and that pageid: the value of the field, the
    parameters of the requests made, in order, the number of fragments a
    loop goes through, and the answers left. *)
Inductive reads_as {X : Externals} (title pageid : value)
  : lazy_field -> list reply -> value -> list dict -> nat -> list reply -> Prop :=
| reads_loop f pend frags ps rest xs :
    field_loops f = true ->
    continued (field_query f title)
              (match Dict.get "prop" (field_query f title) with
               | Some p => p | None => VNone end)
              (Some pageid) GStart (VDict []) pend frags ps rest ->
    picked (field_pick f) frags = inr xs ->
    reads_as title pageid f pend (VList xs) ps (List.length frags) rest
| reads_content r rest page extract revisions revision revid parentid :
    page_entry r pageid = inr page ->
    Py.item page "extract" = inr extract ->
    Py.item page "revisions" = inr revisions ->
    Py.item_at revisions 0 = inr revision ->
    Py.item revision "revid" = inr revid ->
    Py.item revision "parentid" = inr parentid ->
    reads_as title pageid Content (Reply (Some r) :: rest) extract
             [field_query Content title] 0 rest
| reads_summary r rest page extract :
    page_entry r pageid = inr page ->
    Py.item page "extract" = inr extract ->
    reads_as title pageid Summary (Reply (Some r) :: rest) extract
             [field_query Summary title] 0 rest
| reads_no_coordinates r rest :
    Py.contains "query" r = inr false
    \/ (Py.contains "query" r = inr true
        /\ exists page, page_entry r pageid = inr page
                        /\ Py.contains "coordinates" page = inr false) ->
    reads_as title pageid Coordinates (Reply (Some r) :: rest) VNone
             [field_query Coordinates title] 0 rest
| reads_coordinates r rest page coordinates first lat lon dlat dlon :
    Py.contains "query" r = inr true ->
    page_entry r pageid = inr page ->
    Py.contains "coordinates" page = inr true ->
    Py.item page "coordinates" = inr coordinates ->
    Py.item_at coordinates 0 = inr first ->
    Py.item first "lat" = inr lat ->
    Decimal lat = inr dlat ->
    Py.item first "lon" = inr lon ->
    Decimal lon = inr dlon ->
    reads_as title pageid Coordinates (Reply (Some r) :: rest) (VTuple [dlat; dlon])
             [field_query Coordinates title] 0 rest
| reads_sections r rest found l lines :
    path r ["parse"; "sections"] = inr found ->
    Py.iter found = inr l ->
    map_e (fun section => Py.item section "line") l = inr lines ->
    reads_as title pageid Sections (Reply (Some r) :: rest) (VList lines)
             [field_query Sections title] 0 rest
| reads_backlinks pend titles ps rest :
    backlinked (field_query Backlinks title) pend titles ps rest ->
    reads_as title pageid Backlinks pend (VList titles) ps 0 rest.

(** The site has the extension the field looks for, if it looks for one. *)
Definition equipped (f : lazy_field) (g : Globals) : Prop :=
  match extension_gate f with
  | Some (ext, _) =>
      exists l, INSTALLED_EXTENSIONS g = Some l
                /\ existsb (py_eq (VStr ext)) l = true
  | None => True
  end.

(** The URL [references] keeps for a link: the link itself when it starts
    with ["http"], else the link behind ["http:"]. *)
Definition absolute_url (link : string) : string :=
  if Str.startswith "http" link then link else "http:" ++ link.

(** [link['*']], which has to be a string. *)
Definition external_link (link : value) : exn + string :=
  and_then (Py.item link "*") (Py.str_method "startswith").

(* ===================================================================== *)
(** * Properties *)
(* ===================================================================== *)

Import WikipediaPage.

(** ** Running the monad *)

Arguments _wiki_request : simpl never.

Lemma bind_ok {A B} (m : M A) (k : A -> M B) w a w' :
  m w = (Ok a, w') -> bind m k w = k a w'.
Proof. intros H. unfold bind. rewrite H. reflexivity. Qed.

Lemma bind_raise {A B} (m : M A) (k : A -> M B) w e w' :
  m w = (Raise e, w') -> bind m k w = (Raise e, w').
Proof. intros H. unfold bind. rewrite H. reflexivity. Qed.

Lemma store_same h a o : store h a o a = o.
Proof. unfold store. rewrite Nat.eqb_refl. reflexivity. Qed.

Lemma store_other h a o b : b <> a -> store h a o b = h b.
Proof. intros H. unfold store. apply Nat.eqb_neq in H. rewrite H. reflexivity. Qed.

Lemma dict_get_set_same k v d : Dict.get k (Dict.set k v d) = Some v.
Proof.
  induction d as [|[k' v'] d IH]; cbn.
  - rewrite String.eqb_refl. reflexivity.
  - destruct (String.eqb k k') eqn:E; cbn; rewrite E; auto.
Qed.

Lemma dict_get_set_other k k' v d :
  k <> k' -> Dict.get k (Dict.set k' v d) = Dict.get k d.
Proof.
  intros H. induction d as [|[k'' v''] d IH]; cbn.
  - apply String.eqb_neq in H. rewrite H. reflexivity.
  - destruct (String.eqb k' k'') eqn:E; cbn.
    + apply String.eqb_eq in E. subst k''. apply String.eqb_neq in H. rewrite H. reflexivity.
    + destruct (String.eqb k k''); auto.
Qed.

(** ** Requests without rate limiting *)

Lemma wiki_request_answered params w json rest :
  RATE_LIMIT (globals w) = false ->
  pending w = Reply (Some json) :: rest ->
  _wiki_request params w = (Ok json, answered params w).
Proof.
  intros Hr Hp. destruct w as [g m p s c r sl h n].
  destruct g as [? ? ? ? ? ? ? ? ? ses ?]. cbn in *. subst.
  unfold _wiki_request, answered, open_session, request_of.
  destruct ses; reflexivity.
Qed.

Lemma answered_rate params w :
  RATE_LIMIT (globals (answered params w)) = RATE_LIMIT (globals w).
Proof.
  unfold answered, open_session. cbn. destruct (SESSION (globals w)); reflexivity.
Qed.

Lemma answered_version params w :
  API_VERSION_MAJOR_MINOR (globals (answered params w))
  = API_VERSION_MAJOR_MINOR (globals w).
Proof.
  unfold answered, open_session. cbn. destruct (SESSION (globals w)); reflexivity.
Qed.

Lemma answered_extensions params w :
  INSTALLED_EXTENSIONS (globals (answered params w))
  = INSTALLED_EXTENSIONS (globals w).
Proof.
  unfold answered, open_session. cbn. destruct (SESSION (globals w)); reflexivity.
Qed.

Lemma answered_heap params w : heap (answered params w) = heap w.
Proof. reflexivity. Qed.

Lemma answered_next_addr params w : next_addr (answered params w) = next_addr w.
Proof. reflexivity. Qed.

Lemma answered_memo params w : memo (answered params w) = memo w.
Proof. reflexivity. Qed.

Lemma answered_pending params w : pending (answered params w) = tl (pending w).
Proof. reflexivity. Qed.

Lemma answered_sent params w :
  sent (answered params w) = request_of (globals w) params :: sent w.
Proof. reflexivity. Qed.

Lemma answered_sent_params params w :
  map rq_params (sent (answered params w))
  = request_params params :: map rq_params (sent w).
Proof. reflexivity. Qed.

Lemma bind_ret {A B} (a : A) (k : A -> M B) w : bind (ret a) k w = k a w.
Proof. reflexivity. Qed.

Lemma bind_lift_inr {A B} (a : A) (k : A -> M B) w : bind (lift (inr a)) k w = k a w.
Proof. reflexivity. Qed.

Lemma bind_lift_inl {A B} (e : exn) (k : A -> M B) w :
  bind (lift (inl e)) k w = (Raise e, w).
Proof. reflexivity. Qed.

Lemma bind_raise_now {A B} (e : exn) (k : A -> M B) w :
  bind (raise e) k w = (Raise e, w).
Proof. reflexivity. Qed.

Lemma bind_bind {A B C} (m : M A) (k : A -> M B) (k' : B -> M C) w :
  bind (bind m k) k' w = bind m (fun a => bind (k a) k') w.
Proof.
  unfold bind. destruct (m w) as [[a|e|] w']; reflexivity.
Qed.

Lemma bind_attrs {B} self (k : dict -> M B) w : bind (attrs self) k w = k (heap w self) w.
Proof. reflexivity. Qed.

Lemma bind_get_globals {B} (k : Globals -> M B) w :
  bind get_globals k w = k (globals w) w.
Proof. reflexivity. Qed.

Lemma bind_wiki_request {B} params (k : value -> M B) w json rest :
  RATE_LIMIT (globals w) = false ->
  pending w = Reply (Some json) :: rest ->
  bind (_wiki_request params) k w = k json (answered params w).
Proof.
  intros Hr Hp. apply bind_ok. eapply wiki_request_answered; eassumption.
Qed.

(** One step of a run: the head of the computation is a pure operation whose
    result is known. *)
Ltac pure_step :=
  first [ rewrite bind_bind | rewrite bind_lift_inr | rewrite bind_ret
        | rewrite bind_attrs | rewrite bind_get_globals | rewrite bind_lift_inl
        | rewrite bind_raise_now ];
  cbv beta.

Ltac run := repeat pure_step.

(** ** Assignments to attributes *)

Lemma assign_heap_self self name v w :
  heap (assign self name v w) self = Dict.set name v (heap w self).
Proof. unfold assign. cbn. apply store_same. Qed.

Lemma assign_heap_other self name v w a :
  a <> self -> heap (assign self name v w) a = heap w a.
Proof. intros H. unfold assign. cbn. apply store_other. assumption. Qed.

Lemma assign_globals self name v w : globals (assign self name v w) = globals w.
Proof. reflexivity. Qed.
Lemma assign_pending self name v w : pending (assign self name v w) = pending w.
Proof. reflexivity. Qed.
Lemma assign_sent self name v w : sent (assign self name v w) = sent w.
Proof. reflexivity. Qed.
Lemma assign_memo self name v w : memo (assign self name v w) = memo w.
Proof. reflexivity. Qed.

Lemma bind_setattr {B} self name v (k : unit -> M B) w :
  bind (setattr self name v) k w = k tt (assign self name v w).
Proof. reflexivity. Qed.

Lemma try_except_ok {A} (m : M A) h w a w' :
  m w = (Ok a, w') -> try_except m h w = (Ok a, w').
Proof. intros H. unfold try_except. rewrite H. reflexivity. Qed.

Lemma try_except_raise {A} (m : M A) h w e w' :
  m w = (Raise e, w') -> try_except m h w = h e w'.
Proof. intros H. unfold try_except. rewrite H. reflexivity. Qed.

(** ** Rate limiting *)

Lemma quot_negative (x : Z) : (Z.quot x 1000000 <? 0) = (x <=? -1000000).
Proof.
  destruct (Z.leb_spec x (-1000000)); destruct (Z.ltb_spec (Z.quot x 1000000) 0); try reflexivity.
  - exfalso. destruct (Z.le_gt_cases 0 x). lia.
    assert (Z.quot (- x) 1000000 >= 1). { apply Z.le_ge. apply Z.quot_le_lower_bound; lia. }
    rewrite Z.quot_opp_l in H2 by lia. lia.
  - exfalso. destruct (Z.le_gt_cases 0 x).
    + pose proof (Z.quot_pos x 1000000 H1). lia.
    + assert (Z.quot (- x) 1000000 = 0) by (apply Z.quot_small; lia).
      rewrite Z.quot_opp_l in H2 by lia. lia.
Qed.

Lemma wiki_request_wait_run :
  forall (params : dict) (w : World) (last_call wait : Z),
    RATE_LIMIT (globals w) = true ->
    RATE_LIMIT_LAST_CALL (globals w) = Some last_call ->
    RATE_LIMIT_MIN_WAIT (globals w) = Some wait ->
    last_call + wait > clock w (reads w) ->
    _wiki_request params w =
    let wait_time := last_call + wait - clock w (S (reads w)) in
    let w' := with_reads (S (S (reads w))) w in
    if wait_time <=? -1000000
    then (Raise (ValueError "sleep length must be non-negative"), w')
    else (Raise (NameError "filtered_lis"),
          with_slept (Z.quot wait_time 1000000 :: slept w) w').
Proof.
  intros params w last_call wait Hr Hl Hw Hn.
  unfold _wiki_request, bind, get_globals.
  rewrite Hr, Hl, Hw. unfold now at 1. cbn [fst snd].
  replace (last_call + wait >? clock w (reads w)) with true
    by (symmetry; apply Z.gtb_lt; lia).
  unfold rate_limit_wait, bind, now, sleep. cbn.
  rewrite quot_negative.
  destruct (Z.leb_spec (last_call + wait - clock w (S (reads w))) (-1000000));
    reflexivity.
Qed.

(** Claim C10, amended.  A call of [_wiki_request] made while rate limiting
    is on, a previous call is on record and the minimum wait has not elapsed
    since it does not reach the remote: nothing is sent, nothing is consumed,
    and the call ends in an exception.  When the second reading of the clock
    is less than a second past the end of the wait, the truncated number of
    seconds is slept and the exception is the [NameError] for
    [filtered_lis]; when it is a second or more past the end of the wait,
    [time.sleep] is given a negative number and raises [ValueError], and
    nothing is slept. *)
Theorem wiki_request_in_wait_window :
  forall (params : dict) (w : World) (last_call wait : Z),
    RATE_LIMIT (globals w) = true ->
    RATE_LIMIT_LAST_CALL (globals w) = Some last_call ->
    RATE_LIMIT_MIN_WAIT (globals w) = Some wait ->
    last_call + wait > clock w (reads w) ->
    let wait_time := last_call + wait - clock w (S (reads w)) in
    (exists e, fst (_wiki_request params w) = Raise e)
    /\ sent (snd (_wiki_request params w)) = sent w
    /\ pending (snd (_wiki_request params w)) = pending w
    /\ (-1000000 < wait_time ->
        fst (_wiki_request params w) = Raise (NameError "filtered_lis")
        /\ slept (snd (_wiki_request params w))
           = Z.quot wait_time 1000000 :: slept w)
    /\ (wait_time <= -1000000 ->
        fst (_wiki_request params w)
        = Raise (ValueError "sleep length must be non-negative")
        /\ slept (snd (_wiki_request params w)) = slept w).
Proof.
  intros params w last_call wait Hr Hl Hw Hn wait_time. unfold wait_time.
  rewrite (wiki_request_wait_run params w last_call wait Hr Hl Hw Hn). cbv zeta.
  destruct (Z.leb_spec (last_call + wait - clock w (S (reads w))) (-1000000)); cbn.
  - repeat split; eauto; intros; lia.
  - repeat split; eauto; intros; lia.
Qed.

(** ** The continuation cursor *)

Lemma gen_round_yields self g resume w params r rest data :
  RATE_LIMIT (globals w) = false ->
  pending w = Reply (Some r) :: rest ->
  Py.update (gen_query_params g) (gen_last_continue g) = inr params ->
  Py.contains "query" r = inr true ->
  round_data (gen_query_params g) (gen_prop g) (Dict.get "pageid" (heap w self)) r
    = inr data ->
  gen_round self g resume w
  = resume (mkGen (GRound data r) (gen_query_params g) (gen_last_continue g) (gen_prop g))
           (answered params w).
Proof.
  intros Hr Hp Hu Hq Hd. unfold gen_round. rewrite Hu. run.
  rewrite (bind_wiki_request _ _ w r rest Hr Hp).
  rewrite Hq. run. cbn [negb]. run. rewrite answered_heap, Hd. run. reflexivity.
Qed.

Lemma gen_round_stops self g resume w params r rest :
  RATE_LIMIT (globals w) = false ->
  pending w = Reply (Some r) :: rest ->
  Py.update (gen_query_params g) (gen_last_continue g) = inr params ->
  Py.contains "query" r = inr false ->
  gen_round self g resume w
  = (Ok (None, mkGen GDone (gen_query_params g) (gen_last_continue g) (gen_prop g)),
     answered params w).
Proof.
  intros Hr Hp Hu Hq. unfold gen_round. rewrite Hu. run.
  rewrite (bind_wiki_request _ _ w r rest Hr Hp).
  rewrite Hq. run. reflexivity.
Qed.

Lemma list_gen_unfold fuel self g w :
  list_gen (S fuel) self g w
  = match gen_next (S fuel) self g w with
    | (Ok (None, _), w') => (Ok [], w')
    | (Ok (Some datum, g'), w') => on_result (cons datum) (list_gen fuel self g' w')
    | (Raise e, w') => (Raise e, w')
    | (Diverge, w') => (Diverge, w')
    end.
Proof.
  cbn [list_gen]. unfold bind at 1.
  destruct (gen_next (S fuel) self g w) as [[[[x|] g']|e|] w']; reflexivity.
Qed.

(** Data already fetched are handed out without touching the state. *)
Lemma list_gen_buffered data : forall fuel self rq qp lc prop w,
  list_gen (length data + fuel) self (mkGen (GRound data rq) qp lc prop) w
  = on_result (app data) (list_gen fuel self (mkGen (GRound [] rq) qp lc prop) w).
Proof.
  induction data as [|x data IH]; intros fuel self rq qp lc prop w.
  - cbn [length Nat.add app]. unfold on_result.
    destruct (list_gen fuel self _ w) as [[l|e|] w']; reflexivity.
  - cbn [length Nat.add]. rewrite list_gen_unfold.
    cbn [gen_next gen_pc_of gen_query_params gen_last_continue gen_prop ret].
    rewrite IH. unfold on_result.
    destruct (list_gen fuel self _ w) as [[l|e|] w']; reflexivity.
Qed.

(** The round after a response that carries [continue]. *)
Lemma list_gen_next_round fuel self rq qp lc prop w c params r rest data :
  RATE_LIMIT (globals w) = false ->
  pending w = Reply (Some r) :: rest ->
  Py.contains "continue" rq = inr true ->
  Py.item rq "continue" = inr c ->
  Py.update qp c = inr params ->
  Py.contains "query" r = inr true ->
  round_data qp prop (Dict.get "pageid" (heap w self)) r = inr data ->
  data <> [] ->
  list_gen (S (length data + fuel)) self (mkGen (GRound [] rq) qp lc prop) w
  = on_result (app data)
      (list_gen (S fuel) self (mkGen (GRound [] r) qp c prop) (answered params w)).
Proof.
  intros Hr Hp Hc Hi Hu Hq Hd Hne.
  destruct data as [|x data]; [congruence|].
  rewrite list_gen_unfold.
  cbn [gen_next gen_pc_of gen_query_params gen_last_continue gen_prop].
  rewrite Hc. run. cbn [negb]. rewrite Hi. run.
  erewrite gen_round_yields; [ | eassumption | eassumption | eassumption | eassumption | eassumption ].
  cbn [length Nat.add gen_next gen_pc_of gen_query_params gen_last_continue gen_prop ret].
  rewrite plus_n_Sm, list_gen_buffered. unfold on_result.
  destruct (list_gen (S fuel) self _ _) as [[l|e|] w']; reflexivity.
Qed.

(** The round after a response that carries [continue], answered without a
    [query] section. *)
Lemma list_gen_next_round_stops fuel self rq qp lc prop w c params r rest :
  RATE_LIMIT (globals w) = false ->
  pending w = Reply (Some r) :: rest ->
  Py.contains "continue" rq = inr true ->
  Py.item rq "continue" = inr c ->
  Py.update qp c = inr params ->
  Py.contains "query" r = inr false ->
  list_gen (S fuel) self (mkGen (GRound [] rq) qp lc prop) w
  = (Ok [], answered params w).
Proof.
  intros Hr Hp Hc Hi Hu Hq.
  rewrite list_gen_unfold.
  cbn [gen_next gen_pc_of gen_query_params gen_last_continue gen_prop].
  rewrite Hc. run. cbn [negb]. rewrite Hi. run.
  erewrite gen_round_stops; [ | eassumption | eassumption | eassumption | eassumption ].
  reflexivity.
Qed.

(** The first round. *)
Lemma list_gen_first_round fuel self query_params w title_param r rest data :
  RATE_LIMIT (globals w) = false ->
  title_param_of (heap w self) = inr title_param ->
  pending w = Reply (Some r) :: rest ->
  let qp := Dict.update query_params title_param in
  let prop := match Dict.get "prop" qp with Some p => p | None => VNone end in
  Py.contains "query" r = inr true ->
  round_data qp prop (Dict.get "pageid" (heap w self)) r = inr data ->
  data <> [] ->
  list_gen (S (length data + fuel)) self (continued_query query_params) w
  = on_result (app data)
      (list_gen (S fuel) self (mkGen (GRound [] r) qp (VDict []) prop) (answered qp w)).
Proof.
  intros Hr Ht Hp qp prop Hq Hd Hne.
  destruct data as [|x data]; [congruence|].
  rewrite list_gen_unfold.
  cbn [gen_next continued_query gen_pc_of gen_query_params gen_last_continue gen_prop].
  unfold title_query_param. run. rewrite Ht. run.
  fold qp. fold prop.
  erewrite gen_round_yields;
    [ | eassumption | eassumption | reflexivity | eassumption | eassumption ].
  cbn [length Nat.add gen_next gen_pc_of gen_query_params gen_last_continue gen_prop ret].
  rewrite plus_n_Sm, list_gen_buffered. unfold on_result.
  destruct (list_gen (S fuel) self _ _) as [[l|e|] w']; reflexivity.
Qed.

(** A first response without a [query] section. *)
Lemma list_gen_first_round_stops fuel self query_params w title_param r rest :
  RATE_LIMIT (globals w) = false ->
  title_param_of (heap w self) = inr title_param ->
  pending w = Reply (Some r) :: rest ->
  Py.contains "query" r = inr false ->
  list_gen (S (S fuel)) self (continued_query query_params) w
  = (Ok [], answered (Dict.update query_params title_param) w).
Proof.
  intros Hr Ht Hp Hq.
  rewrite list_gen_unfold.
  cbn [gen_next continued_query gen_pc_of gen_query_params gen_last_continue gen_prop].
  unfold title_query_param. run. rewrite Ht. run.
  erewrite gen_round_stops;
    [ | eassumption | eassumption | reflexivity | eassumption ].
  reflexivity.
Qed.

(** A response without [continue] ends the sequence. *)
Lemma list_gen_last_round fuel self rq qp lc prop w :
  Py.contains "continue" rq = inr false ->
  list_gen (S fuel) self (mkGen (GRound [] rq) qp lc prop) w = (Ok [], w).
Proof.
  intros Hc. rewrite list_gen_unfold.
  cbn [gen_next gen_pc_of gen_query_params gen_last_continue gen_prop].
  rewrite Hc. run. reflexivity.
Qed.

(** Claim C1.  With rate limiting off, [__continued_query] starts from the
    empty continuation state.  Over three rounds that carry 2, 2 and 1
    fragments, the last one without [continue], it yields the five fragments
    in round order with exactly three requests: the first carries the query
    parameters alone, each later one the parameters updated with the
    [continue] section of the response just before it.  A round answered
    without a [query] section yields nothing more and ends the sequence. *)
Theorem continued_query_rounds :
  forall (self : addr) (w : World) (query_params title_param : dict),
    RATE_LIMIT (globals w) = false ->
    title_param_of (heap w self) = inr title_param ->
    let qp := Dict.update query_params title_param in
    let prop := match Dict.get "prop" qp with Some p => p | None => VNone end in
    let pageid := Dict.get "pageid" (heap w self) in
    gen_last_continue (continued_query query_params) = VDict []
    /\ (forall (fuel : nat) (r1 r2 r3 : value) (rest : list reply)
               (a b c d e : value) (c1 c2 : dict),
          pending w = Reply (Some r1) :: Reply (Some r2) :: Reply (Some r3) :: rest ->
          Py.contains "query" r1 = inr true -> round_data qp prop pageid r1 = inr [a; b] ->
          Py.contains "continue" r1 = inr true -> Py.item r1 "continue" = inr (VDict c1) ->
          Py.contains "query" r2 = inr true -> round_data qp prop pageid r2 = inr [c; d] ->
          Py.contains "continue" r2 = inr true -> Py.item r2 "continue" = inr (VDict c2) ->
          Py.contains "query" r3 = inr true -> round_data qp prop pageid r3 = inr [e] ->
          Py.contains "continue" r3 = inr false ->
          (6 <= fuel)%nat ->
          exists w',
            list_gen fuel self (continued_query query_params) w
            = (Ok [a; b; c; d; e], w')
            /\ pending w' = rest
            /\ map rq_params (sent w')
               = request_params (Dict.update qp c2)
                 :: request_params (Dict.update qp c1)
                 :: request_params qp :: map rq_params (sent w))
    /\ (forall (fuel : nat) (r1 r2 : value) (rest : list reply) (a b : value)
               (c1 : dict),
          pending w = Reply (Some r1) :: Reply (Some r2) :: rest ->
          Py.contains "query" r1 = inr true -> round_data qp prop pageid r1 = inr [a; b] ->
          Py.contains "continue" r1 = inr true -> Py.item r1 "continue" = inr (VDict c1) ->
          Py.contains "query" r2 = inr false ->
          (4 <= fuel)%nat ->
          exists w',
            list_gen fuel self (continued_query query_params) w = (Ok [a; b], w')
            /\ pending w' = rest
            /\ map rq_params (sent w')
               = request_params (Dict.update qp c1)
                 :: request_params qp :: map rq_params (sent w)).
Proof.
  intros self w query_params title_param Hrate Htitle qp prop pageid.
  split; [reflexivity|]. split.
  - intros fuel r1 r2 r3 rest a b c d e c1 c2 Hpending
           Q1 D1 C1 I1 Q2 D2 C2 I2 Q3 D3 C3 Hfuel.
    do 6 (destruct fuel as [|fuel]; [lia|]). clear Hfuel.
    exists (answered (Dict.update qp c2) (answered (Dict.update qp c1) (answered qp w))).
    split; [|split].
    + change (S (S (S (S (S (S fuel))))))
        with (S (length [a; b] + (length [c; d] + (length [e] + fuel)))).
      rewrite (list_gen_first_round _ self query_params w title_param r1 _ [a; b]
                 Hrate Htitle Hpending Q1 D1) by discriminate.
      fold qp prop.
      rewrite (list_gen_next_round _ self r1 qp (VDict []) prop (answered qp w)
                 (VDict c1) (Dict.update qp c1) r2 (Reply (Some r3) :: rest) [c; d]);
        [ | rewrite answered_rate; assumption
          | rewrite answered_pending, Hpending; reflexivity
          | assumption | assumption | reflexivity | assumption | assumption
          | discriminate ].
      rewrite (list_gen_next_round _ self r2 qp (VDict c1) prop
                 (answered (Dict.update qp c1) (answered qp w))
                 (VDict c2) (Dict.update qp c2) r3 rest [e]);
        [ | rewrite !answered_rate; assumption
          | rewrite !answered_pending, Hpending; reflexivity
          | assumption | assumption | reflexivity | assumption | assumption
          | discriminate ].
      rewrite list_gen_last_round by assumption. reflexivity.
    + rewrite !answered_pending, Hpending. reflexivity.
    + rewrite !answered_sent_params. reflexivity.
  - intros fuel r1 r2 rest a b c1 Hpending Q1 D1 C1 I1 Q2 Hfuel.
    do 4 (destruct fuel as [|fuel]; [lia|]). clear Hfuel.
    exists (answered (Dict.update qp c1) (answered qp w)).
    split; [|split].
    + change (S (S (S (S fuel)))) with (S (length [a; b] + S fuel)).
      rewrite (list_gen_first_round _ self query_params w title_param r1 _ [a; b]
                 Hrate Htitle Hpending Q1 D1) by discriminate.
      fold qp prop.
      rewrite (list_gen_next_round_stops _ self r1 qp (VDict []) prop (answered qp w)
                 (VDict c1) (Dict.update qp c1) r2 rest);
        [ | rewrite answered_rate; assumption
          | rewrite answered_pending, Hpending; reflexivity
          | assumption | assumption | reflexivity | assumption ].
      reflexivity.
    + rewrite !answered_pending, Hpending. reflexivity.
    + rewrite !answered_sent_params. reflexivity.
Qed.

(** ** Page resolution *)

Lemma map_e_Forall2 {A B} (f : A -> exn + B) (l : list A) (l' : list B) :
  Forall2 (fun x y => f x = inr y) l l' -> map_e f l = inr l'.
Proof.
  induction 1 as [|x y l l' Hxy _ IH]; cbn; [reflexivity|].
  rewrite Hxy, IH. reflexivity.
Qed.

Lemma map_e_first_error {A B} (f : A -> exn + B) (e : exn) (l : list A) :
  (forall x, In x l -> f x = inl e \/ exists y, f x = inr y) ->
  (exists x, In x l /\ f x = inl e) ->
  map_e f l = inl e.
Proof.
  induction l as [|x l IH]; intros Hall (x0 & Hin & Hx0); [destruct Hin|].
  cbn. destruct (Hall x (or_introl eq_refl)) as [Hx|(y & Hx)]; rewrite Hx.
  - reflexivity.
  - destruct Hin as [<-|Hin]; [congruence|].
    rewrite IH; [reflexivity| |eauto].
    intros x1 H1. apply Hall. right. assumption.
Qed.

Section Resolution.
Context {X : Externals}.

Lemma load_dispatch reinit self redirect w title_param response rest query pageid page :
  RATE_LIMIT (globals w) = false ->
  title_param_of (heap w self) = inr title_param ->
  pending w = Reply (Some response) :: rest ->
  page_info response query pageid page ->
  load reinit self redirect w
  = let w1 := answered (load_query_params title_param) w in
    if Dict.has "missing" page then load_missing self w1
    else if Dict.has "redirects" query
         then load_redirect reinit self redirect (VDict query) (VDict page) w1
         else if Dict.has "pageprops" page
              then load_disambiguation self pageid (VDict page) w1
              else load_page self pageid (VDict page) w1.
Proof.
  intros Hr Ht Hp (rd & others & -> & Hq & Hpages).
  unfold load, title_query_param.
  rewrite bind_bind, bind_attrs, Ht. pure_step.
  rewrite (bind_wiki_request _ _ w _ rest Hr Hp).
  cbn [Py.item]. rewrite Hq. pure_step.
  cbn [Py.item]. rewrite Hpages. pure_step.
  cbn [Py.keys Dict.keys map fst]. pure_step.
  cbn [Py.item Dict.get]. rewrite String.eqb_refl. pure_step.
  cbn [Py.contains]. pure_step.
  destruct (Dict.has "missing" page); [reflexivity|].
  pure_step.
  destruct (Dict.has "redirects" query); [reflexivity|].
  pure_step.
  destruct (Dict.has "pageprops" page); reflexivity.
Qed.

Lemma title_param_unchanged self params w :
  title_param_of (heap (answered params w) self) = title_param_of (heap w self).
Proof. reflexivity. Qed.


Lemma bind_getattr {B} self name default (k : value -> M B) w :
  bind (getattr self name default) k w
  = k (match Dict.get name (heap w self) with Some v => v | None => default end) w.
Proof. reflexivity. Qed.

Lemma load_redirect_refused reinit self query page w page_title :
  Dict.get "title" page = Some page_title ->
  load_redirect reinit self false query (VDict page) w
  = (Raise (RedirectError (match Dict.get "title" (heap w self) with
                           | Some t => t | None => page_title end)), w).
Proof.
  intros Hp. unfold load_redirect. cbn [Py.item]. rewrite Hp. pure_step.
  rewrite bind_getattr. reflexivity.
Qed.



Lemma load_page_ok self pageid page w t u :
  Dict.get "title" page = Some t ->
  Dict.get "fullurl" page = Some u ->
  load_page self pageid (VDict page) w
  = (Ok tt, assign self "url" u
              (assign self "title" t (assign self "pageid" (VStr pageid) w))).
Proof.
  intros Ht Hu. unfold load_page. rewrite bind_setattr.
  cbn [Py.item]. rewrite Ht. pure_step. rewrite bind_setattr.
  rewrite Hu. pure_step. reflexivity.
Qed.

End Resolution.

Section RedirectBranch.
Context {X : Externals}.

Lemma unassign_globals self name w : globals (unassign self name w) = globals w.
Proof. reflexivity. Qed.
Lemma unassign_pending self name w : pending (unassign self name w) = pending w.
Proof. reflexivity. Qed.
Lemma unassign_sent self name w : sent (unassign self name w) = sent w.
Proof. reflexivity. Qed.

Lemma bind_delattr {B} self name (k : unit -> M B) w :
  Dict.has name (heap w self) = true ->
  bind (delattr self name) k w = k tt (unassign self name w).
Proof. intros H. unfold delattr. run. rewrite H. reflexivity. Qed.

Lemma dict_get_del_other k k' d :
  k <> k' -> Dict.get k (Dict.del k' d) = Dict.get k d.
Proof.
  intros H. apply String.eqb_neq in H.
  induction d as [|[k'' v''] d IH]; cbn; [reflexivity|].
  destruct (String.eqb k' k'') eqn:E; cbn.
  - apply String.eqb_eq in E. subst k''. rewrite H. reflexivity.
  - rewrite IH. reflexivity.
Qed.

Lemma dict_has_set_same k v d : Dict.has k (Dict.set k v d) = true.
Proof. unfold Dict.has. rewrite dict_get_set_same. reflexivity. Qed.

Lemma dict_has_set_other k k' v d :
  k <> k' -> Dict.has k (Dict.set k' v d) = Dict.has k d.
Proof. intros H. unfold Dict.has. rewrite dict_get_set_other by assumption. reflexivity. Qed.

Lemma source_adopted_globals self query title from w :
  globals (source_adopted self query title from w) = globals w.
Proof.
  unfold source_adopted. destruct (Dict.has "normalized" query); [reflexivity|].
  destruct (truthy title); reflexivity.
Qed.

Lemma source_adopted_pending self query title from w :
  pending (source_adopted self query title from w) = pending w.
Proof.
  unfold source_adopted. destruct (Dict.has "normalized" query); [reflexivity|].
  destruct (truthy title); reflexivity.
Qed.

Lemma source_adopted_sent self query title from w :
  sent (source_adopted self query title from w) = sent w.
Proof.
  unfold source_adopted. destruct (Dict.has "normalized" query); [reflexivity|].
  destruct (truthy title); reflexivity.
Qed.

Lemma mapping_entry_has key query from to :
  mapping_entry key query from to -> Dict.has key query = true.
Proof. intros (es & e & H & _). unfold Dict.has. rewrite H. reflexivity. Qed.

Lemma named_title self title w :
  title <> VNone -> named self title w ->
  Dict.get "title" (heap w self) = Some title.
Proof. intros Hn H. destruct title; try exact H. congruence. Qed.

Lemma truthy_not_None v : truthy v = true -> v <> VNone.
Proof. intros H ->. discriminate. Qed.

Lemma load_redirect_follows reinit self query page w title from to :
  named self title w ->
  mapping_entry "redirects" query from to ->
  redirect_checks query title from ->
  load_redirect reinit self true (VDict query) page w
  = reinit to (source_adopted self query title from w).
Proof.
  intros Ht (rs & re & Hrs & Hre & Hf & Hto) Hc. unfold load_redirect, source_adopted.
  cbn [Py.item]. rewrite Hrs. run. rewrite Hre. run.
  cbn [Py.contains]. run.
  destruct Hc as [(nf & nt & (ns & ne & Hns & Hne & Hnf & Hnt) & Hn & E1 & E2)
                 | [(Hn & Htr & E) | (Hn & -> & E)]].
  - assert (Hh : Dict.has "normalized" query = true)
      by (unfold Dict.has; rewrite Hns; reflexivity).
    rewrite Hh. run. cbn [Py.item]. rewrite Hns. run.
    rewrite Hne. run. cbn [Py.item]. rewrite Hnf. run.
    unfold attr at 1. run. rewrite (named_title _ _ _ Hn Ht). run.
    unfold assert_eq at 1. rewrite E1. run.
    rewrite Hnt. run. rewrite Hf. run.
    unfold assert_eq. rewrite E2. run. rewrite Hto. run. reflexivity.
  - pose proof (named_title _ _ _ (truthy_not_None _ Htr) Ht) as Hg.
    rewrite Hn. run. rewrite bind_getattr, Hg, Htr. cbn [negb]. run.
    unfold attr. run. rewrite Hg. run.
    cbn [Py.item]. rewrite Hf. run.
    unfold assert_eq. rewrite E. run. rewrite Hto. run. reflexivity.
  - destruct Ht as [Hg Hpid].
    rewrite Hn. run. rewrite bind_getattr, Hg. cbn [truthy negb]. run.
    cbn [Py.item]. rewrite Hf. run. rewrite bind_setattr.
    rewrite bind_delattr
      by (rewrite assign_heap_self, dict_has_set_other by discriminate; exact Hpid).
    unfold attr. run.
    replace (heap (unassign self "pageid" (assign self "title" from w)) self)
      with (Dict.del "pageid" (Dict.set "title" from (heap w self)))
      by (unfold unassign; cbn [heap with_heap]; rewrite store_same, assign_heap_self;
          reflexivity).
    rewrite dict_get_del_other by discriminate.
    rewrite dict_get_set_same. run.
    unfold assert_eq. rewrite E. run. rewrite Hto. run. reflexivity.
Qed.

Lemma entered_named self title pageid ot w :
  identified self title pageid w -> named self title (entered self title pageid ot w).
Proof.
  unfold identified, named, entered. intros H.
  destruct title;
    try (rewrite !assign_heap_self, dict_get_set_other by discriminate;
         apply dict_get_set_same).
  destruct pageid; try contradiction;
    (split; [rewrite assign_heap_self, dict_get_set_other by discriminate; exact H
            | rewrite assign_heap_self; apply dict_has_set_same]).
Qed.

Lemma entered_param self title pageid ot w :
  identified self title pageid w ->
  title_param_of (heap (entered self title pageid ot w) self)
  = inr (identifier_param title pageid).
Proof.
  intros H. pose proof (entered_named self title pageid ot w H) as Hn.
  unfold title_param_of, identifier_param.
  destruct title; cbn [named] in Hn; try (rewrite Hn; reflexivity).
  destruct Hn as [Hg _]. rewrite Hg. unfold entered.
  rewrite assign_heap_self, dict_get_set_same. reflexivity.
Qed.

Lemma init_enters fuel self title pageid redirect preload ot w v :
  API_VERSION_MAJOR_MINOR (globals w) = Some v ->
  identified self title pageid w ->
  init (S fuel) self title pageid redirect preload ot w
  = bind (load (fun to => init fuel self to VNone redirect preload (VStr EmptyString))
               self redirect)
         (fun _ => if preload then preload_properties fuel self else ret tt)
         (entered self title pageid ot w).
Proof.
  intros Hv Hn. cbn [init]. unfold ensure_site_info.
  run. rewrite Hv. run.
  unfold identified in Hn.
  destruct title; try reflexivity.
  destruct pageid; try contradiction; reflexivity.
Qed.

Lemma asked_version self title pageid ot w :
  API_VERSION_MAJOR_MINOR (globals (asked self title pageid ot w))
  = API_VERSION_MAJOR_MINOR (globals w).
Proof. unfold asked. rewrite answered_version. destruct title; reflexivity. Qed.

Lemma asked_rate self title pageid ot w :
  RATE_LIMIT (globals (asked self title pageid ot w)) = RATE_LIMIT (globals w).
Proof. unfold asked. rewrite answered_rate. destruct title; reflexivity. Qed.

Lemma asked_pending self title pageid ot w :
  pending (asked self title pageid ot w) = tl (pending w).
Proof. destruct title; reflexivity. Qed.

Lemma asked_sent self title pageid ot w :
  map rq_params (sent (asked self title pageid ot w))
  = request_params (load_query_params (identifier_param title pageid))
    :: map rq_params (sent w).
Proof. destruct title; reflexivity. Qed.

Lemma asked_named self title pageid ot w :
  identified self title pageid w -> named self title (asked self title pageid ot w).
Proof.
  intros H. pose proof (entered_named self title pageid ot w H) as Hn.
  unfold named, asked in *. rewrite answered_heap. exact Hn.
Qed.

Lemma identified_title self title w : title <> VNone -> identified self title VNone w.
Proof. intros H. destruct title; try exact I. congruence. Qed.

Lemma init_follows_redirect fuel self title pageid ot preload w v response rest
      query pid page from to :
  API_VERSION_MAJOR_MINOR (globals w) = Some v ->
  RATE_LIMIT (globals w) = false ->
  identified self title pageid w ->
  pending w = Reply (Some response) :: rest ->
  page_info response query pid page ->
  Dict.has "missing" page = false ->
  mapping_entry "redirects" query from to ->
  redirect_checks query title from ->
  init (S fuel) self title pageid true preload ot w
  = bind (init fuel self to VNone true preload (VStr EmptyString))
         (fun _ => if preload then preload_properties fuel self else ret tt)
         (source_adopted self query title from (asked self title pageid ot w)).
Proof.
  intros Hv Hr Hn Hp Hi Hm He Hc.
  rewrite (init_enters _ _ _ _ _ _ _ _ v Hv Hn).
  unfold bind at 1.
  rewrite (load_dispatch _ self true (entered self title pageid ot w)
             (identifier_param title pageid) response rest query pid page);
    [ | destruct title; assumption | apply entered_param; assumption
      | destruct title; assumption | assumption ].
  cbv zeta. rewrite Hm, (mapping_entry_has _ _ _ _ He).
  fold (asked self title pageid ot w).
  rewrite (load_redirect_follows _ self query (VDict page) _ title from to);
    [ | apply asked_named; assumption | assumption | assumption ].
  reflexivity.
Qed.

Lemma init_refuses_redirect fuel self title pageid ot preload w v response rest
      query pid page page_title :
  API_VERSION_MAJOR_MINOR (globals w) = Some v ->
  RATE_LIMIT (globals w) = false ->
  identified self title pageid w ->
  pending w = Reply (Some response) :: rest ->
  page_info response query pid page ->
  Dict.has "missing" page = false ->
  Dict.has "redirects" query = true ->
  Dict.get "title" page = Some page_title ->
  init (S fuel) self title pageid false preload ot w
  = (Raise (RedirectError (reported_title title page_title)),
     asked self title pageid ot w).
Proof.
  intros Hv Hr Hn Hp Hi Hm He Hpt.
  rewrite (init_enters _ _ _ _ _ _ _ _ v Hv Hn).
  unfold bind at 1.
  rewrite (load_dispatch _ self false (entered self title pageid ot w)
             (identifier_param title pageid) response rest query pid page);
    [ | destruct title; assumption | apply entered_param; assumption
      | destruct title; assumption | assumption ].
  cbv zeta. rewrite Hm, He.
  rewrite (load_redirect_refused _ _ _ _ _ page_title Hpt).
  fold (asked self title pageid ot w).
  pose proof (asked_named self title pageid ot w Hn) as Ha.
  destruct title; cbn [named reported_title] in *;
    try (rewrite Ha; reflexivity).
  destruct Ha as [Ha _]. rewrite Ha. reflexivity.
Qed.

Lemma init_plain_page fuel self title pageid ot w v response rest query pid page t u :
  API_VERSION_MAJOR_MINOR (globals w) = Some v ->
  RATE_LIMIT (globals w) = false ->
  identified self title pageid w ->
  pending w = Reply (Some response) :: rest ->
  page_info response query pid page ->
  Dict.has "missing" page = false ->
  Dict.has "redirects" query = false ->
  Dict.has "pageprops" page = false ->
  Dict.get "title" page = Some t ->
  Dict.get "fullurl" page = Some u ->
  init (S fuel) self title pageid true false ot w
  = (Ok tt, assign self "url" u
              (assign self "title" t
                 (assign self "pageid" (VStr pid) (asked self title pageid ot w)))).
Proof.
  intros Hv Hr Hn Hp Hi Hm He Hpp Ht Hu.
  rewrite (init_enters _ _ _ _ _ _ _ _ v Hv Hn).
  unfold bind at 1.
  rewrite (load_dispatch _ self true (entered self title pageid ot w)
             (identifier_param title pageid) response rest query pid page);
    [ | destruct title; assumption | apply entered_param; assumption
      | destruct title; assumption | assumption ].
  cbv zeta. rewrite Hm, He, Hpp.
  rewrite (load_page_ok self pid page _ t u Ht Hu). reflexivity.
Qed.

(** Claim C3, amended.  For an object made from a title or from a pageid,
    when the response holds a redirect entry and redirects are followed, the
    title resolved next is the redirect's own [to] field: a [normalized]
    mapping only takes part in the two checks on the source of the redirect.
    The new title goes through [__init__] and so through a fresh
    classification.  When redirects are not followed, [RedirectError] is
    raised for the title of the object, or for the title of the page entry
    when the object was made from a pageid. *)
Theorem redirect_resolves_target :
  forall (fuel : nat) (self : addr) (title pageid original_title : value)
         (preload : bool) (w : World) (v : list Z) (response : value)
         (rest : list reply) (query : dict) (pid : string) (page : dict)
         (from to : value),
    API_VERSION_MAJOR_MINOR (globals w) = Some v ->
    RATE_LIMIT (globals w) = false ->
    identified self title pageid w ->
    pending w = Reply (Some response) :: rest ->
    page_info response query pid page ->
    Dict.has "missing" page = false ->
    mapping_entry "redirects" query from to ->
    (redirect_checks query title from ->
     init (S fuel) self title pageid true preload original_title w
     = bind (init fuel self to VNone true preload (VStr EmptyString))
            (fun _ => if preload then preload_properties fuel self else ret tt)
            (source_adopted self query title from
               (asked self title pageid original_title w)))
    /\ (forall page_title, Dict.get "title" page = Some page_title ->
        init (S fuel) self title pageid false preload original_title w
        = (Raise (RedirectError (reported_title title page_title)),
           asked self title pageid original_title w)).
Proof.
  intros fuel self title pageid ot preload w v response rest query pid page from to
         Hv Hr Hn Hp Hi Hm He.
  split.
  - intros Hc. eapply init_follows_redirect; eassumption.
  - intros page_title Hpt. eapply init_refuses_redirect; try eassumption.
    eapply mapping_entry_has; eassumption.
Qed.

(** Claim C4, amended.  For an object made from a title or from a pageid, a
    chain of two redirects followed by a plain page resolves to that page
    with three requests.  When redirects are not followed, a first response
    that holds a redirect and whose page entry is not marked missing raises
    [RedirectError] after exactly one request. *)
Theorem redirect_chain_of_depth_two :
  (forall (fuel : nat) (self : addr) (t pageid a b original_title : value)
          (w : World) (v : list Z) (r1 r2 r3 : value) (rest : list reply)
          (q1 q2 q3 : dict) (pid1 pid2 pid3 : string) (pg1 pg2 pg3 : dict)
          (f1 f2 page_title url : value),
      API_VERSION_MAJOR_MINOR (globals w) = Some v ->
      RATE_LIMIT (globals w) = false ->
      (3 <= fuel)%nat ->
      identified self t pageid w -> a <> VNone -> b <> VNone ->
      pending w = Reply (Some r1) :: Reply (Some r2) :: Reply (Some r3) :: rest ->
      page_info r1 q1 pid1 pg1 -> Dict.has "missing" pg1 = false ->
      mapping_entry "redirects" q1 f1 a -> redirect_checks q1 t f1 ->
      page_info r2 q2 pid2 pg2 -> Dict.has "missing" pg2 = false ->
      mapping_entry "redirects" q2 f2 b -> redirect_checks q2 a f2 ->
      page_info r3 q3 pid3 pg3 -> Dict.has "missing" pg3 = false ->
      Dict.has "redirects" q3 = false -> Dict.has "pageprops" pg3 = false ->
      Dict.get "title" pg3 = Some page_title ->
      Dict.get "fullurl" pg3 = Some url ->
      exists w',
        init fuel self t pageid true false original_title w = (Ok tt, w')
        /\ Dict.get "pageid" (heap w' self) = Some (VStr pid3)
        /\ Dict.get "title" (heap w' self) = Some page_title
        /\ Dict.get "url" (heap w' self) = Some url
        /\ pending w' = rest
        /\ map rq_params (sent w')
           = request_params (load_query_params [("titles", b)])
             :: request_params (load_query_params [("titles", a)])
             :: request_params (load_query_params (identifier_param t pageid))
             :: map rq_params (sent w))
  /\ (forall (fuel : nat) (self : addr) (t pageid original_title : value)
             (w : World) (v : list Z) (r1 : value) (rest : list reply) (q1 : dict)
             (pid1 : string) (pg1 : dict) (page_title : value),
         API_VERSION_MAJOR_MINOR (globals w) = Some v ->
         RATE_LIMIT (globals w) = false ->
         (1 <= fuel)%nat ->
         identified self t pageid w ->
         pending w = Reply (Some r1) :: rest ->
         page_info r1 q1 pid1 pg1 -> Dict.has "missing" pg1 = false ->
         Dict.has "redirects" q1 = true ->
         Dict.get "title" pg1 = Some page_title ->
         exists w',
           init fuel self t pageid false false original_title w
           = (Raise (RedirectError (reported_title t page_title)), w')
           /\ pending w' = rest
           /\ map rq_params (sent w')
              = request_params (load_query_params (identifier_param t pageid))
                :: map rq_params (sent w)).
Proof.
  split.
  - intros fuel self t pageid a b ot w v r1 r2 r3 rest q1 q2 q3 pid1 pid2 pid3
           pg1 pg2 pg3 f1 f2 page_title url Hv Hr Hfuel Ht Ha Hb Hp
           I1 M1 E1 C1 I2 M2 E2 C2 I3 M3 R3 P3 T3 U3.
    do 3 (destruct fuel as [|fuel]; [lia|]). clear Hfuel.
    set (w1 := source_adopted self q1 t f1 (asked self t pageid ot w)).
    set (w2 := source_adopted self q2 a f2 (asked self a VNone (VStr EmptyString) w1)).
    set (w3 := asked self b VNone (VStr EmptyString) w2).
    exists (assign self "url" url
              (assign self "title" page_title (assign self "pageid" (VStr pid3) w3))).
    assert (P1 : pending w1 = Reply (Some r2) :: Reply (Some r3) :: rest)
      by (unfold w1; rewrite source_adopted_pending, asked_pending, Hp; reflexivity).
    assert (P2 : pending w2 = Reply (Some r3) :: rest)
      by (unfold w2; rewrite source_adopted_pending, asked_pending, P1; reflexivity).
    assert (V1 : API_VERSION_MAJOR_MINOR (globals w1) = Some v)
      by (unfold w1; rewrite source_adopted_globals, asked_version; assumption).
    assert (V2 : API_VERSION_MAJOR_MINOR (globals w2) = Some v)
      by (unfold w2; rewrite source_adopted_globals, asked_version; assumption).
    assert (R1 : RATE_LIMIT (globals w1) = false)
      by (unfold w1; rewrite source_adopted_globals, asked_rate; assumption).
    assert (R2 : RATE_LIMIT (globals w2) = false)
      by (unfold w2; rewrite source_adopted_globals, asked_rate; assumption).
    split; [|split; [|split; [|split; [|split]]]].
    + rewrite (init_follows_redirect _ self t pageid ot false w v r1 _ q1 pid1 pg1 f1 a
                 Hv Hr Ht Hp I1 M1 E1 C1).
      fold w1. unfold bind at 1.
      rewrite (init_follows_redirect _ self a VNone (VStr EmptyString) false w1 v r2 _
                 q2 pid2 pg2 f2 b V1 R1 (identified_title _ _ _ Ha) P1 I2 M2 E2 C2).
      fold w2. unfold bind at 1.
      rewrite (init_plain_page _ self b VNone (VStr EmptyString) w2 v r3 rest q3 pid3 pg3
                 page_title url V2 R2 (identified_title _ _ _ Hb) P2 I3 M3 R3 P3 T3 U3).
      reflexivity.
    + rewrite !assign_heap_self. rewrite !dict_get_set_other by discriminate.
      apply dict_get_set_same.
    + rewrite !assign_heap_self. rewrite dict_get_set_other by discriminate.
      apply dict_get_set_same.
    + rewrite !assign_heap_self. apply dict_get_set_same.
    + rewrite !assign_pending. unfold w3. rewrite asked_pending, P2. reflexivity.
    + rewrite !assign_sent. unfold w3. rewrite asked_sent.
      unfold w2. rewrite source_adopted_sent, asked_sent.
      unfold w1. rewrite source_adopted_sent, asked_sent.
      destruct a; try congruence; destruct b; try congruence; reflexivity.
  - intros fuel self t pageid ot w v r1 rest q1 pid1 pg1 page_title
           Hv Hr Hfuel Ht Hp I1 M1 R1 T1.
    destruct fuel as [|fuel]; [lia|].
    exists (asked self t pageid ot w). split; [|split].
    + eapply init_refuses_redirect; eassumption.
    + rewrite asked_pending, Hp. reflexivity.
    + apply asked_sent.
Qed.
End RedirectBranch.

(** ** Lazy fields *)

Section Lazy.
Context {X : Externals}.

Lemma lazy_attr_cached self name load w v :
  Dict.get name (heap w self) = Some v ->
  truthy v = true ->
  lazy_attr self name load w = (Ok v, w).
Proof.
  intros Hg Ht. unfold lazy_attr, getattr, attr. run.
  rewrite Hg, Ht. cbn [negb]. run. rewrite Hg. reflexivity.
Qed.

Lemma lazy_attr_reloads self name load w :
  truthy (match Dict.get name (heap w self) with
          | Some v => v | None => VBool false end) = false ->
  lazy_attr self name load w = bind load (fun _ => attr self name) w.
Proof.
  intros Ht. unfold lazy_attr, getattr. run. rewrite Ht. reflexivity.
Qed.

Lemma lazy_attr_returns self name load w v w1 :
  lazy_attr self name load w = (Ok v, w1) ->
  Dict.get name (heap w1 self) = Some v.
Proof.
  unfold lazy_attr, getattr, attr. run. intros H.
  unfold bind in H.
  destruct ((if negb _ then load else ret tt) w) as [[[]|e|] w'] eqn:E;
    try discriminate.
  unfold attrs in H.
  destruct (Dict.get name (heap w' self)) as [x|] eqn:G; cbn in H.
  - injection H as -> ->. assumption.
  - discriminate.
Qed.

Lemma access_is_lazy fuel f self :
  access fuel f self = lazy_attr self (field_attr f) (fetch fuel f self).
Proof. destruct f; reflexivity. Qed.

End Lazy.

(** ** Sections *)

Lemma find_first_at sub : forall s n, Str.find sub s = Some n -> first_at sub s n.
Proof.
  induction s as [|c s IH]; intros n H; cbn [Str.find] in H.
  - destruct (String.prefix sub EmptyString) eqn:E; [|discriminate].
    injection H as <-. repeat split; auto. intros m Hm; lia.
  - destruct (String.prefix sub (String c s)) eqn:E.
    + injection H as <-. repeat split; auto. cbn; lia. intros m Hm; lia.
    + destruct (Str.find sub s) as [k|] eqn:F; [|discriminate].
      injection H as <-. destruct (IH k eq_refl) as (P & L & Min).
      repeat split.
      * exact P.
      * cbn [String.length]. lia.
      * intros [|m] Hm; [exact E|]. cbn [Str.drop]. apply Min. lia.
Qed.

Lemma find_absent sub : forall s, Str.find sub s = None -> absent sub s.
Proof.
  induction s as [|c s IH]; intros H n Hn; cbn [Str.find] in H.
  - destruct (String.prefix sub EmptyString) eqn:E; [discriminate|].
    cbn in Hn. assert (n = 0)%nat by lia. subst. exact E.
  - destruct (String.prefix sub (String c s)) eqn:E; [discriminate|].
    destruct (Str.find sub s) eqn:F; [discriminate|].
    destruct n as [|n]; [exact E|]. cbn [Str.drop]. apply IH; auto.
    cbn in Hn. lia.
Qed.

Lemma first_at_unique sub s n m : first_at sub s n -> first_at sub s m -> n = m.
Proof.
  intros (P & L & Min) (P' & L' & Min').
  destruct (Nat.lt_trichotomy n m) as [H|[H|H]]; auto.
  - rewrite (Min' n H) in P. discriminate.
  - rewrite (Min m H) in P'. discriminate.
Qed.

Lemma first_at_find sub s n : first_at sub s n -> Str.find sub s = Some n.
Proof.
  intros H. destruct (Str.find sub s) as [k|] eqn:F.
  - f_equal. eapply first_at_unique; [apply find_first_at|]; eassumption.
  - destruct H as (P & L & _). rewrite (find_absent sub s F n L) in P. discriminate.
Qed.

Lemma absent_find sub s : absent sub s -> Str.find sub s = None.
Proof.
  intros H. destruct (Str.find sub s) as [k|] eqn:F; auto.
  destruct (find_first_at sub s k F) as (P & L & _). rewrite (H k L) in P. discriminate.
Qed.

Lemma drop_length n : forall s, (n <= String.length s)%nat ->
  String.length (Str.drop n s) = (String.length s - n)%nat.
Proof.
  induction n as [|n IH]; intros [|c s] H; cbn in *; try lia. apply IH. lia.
Qed.

Lemma substring_drop n : forall s,
  String.substring n (String.length s - n) s = Str.drop n s.
Proof.
  induction n as [|n IH]; intros s.
  - rewrite Nat.sub_0_r. cbn [Str.drop].
    induction s as [|c s IHs]; cbn; [reflexivity|]. f_equal. exact IHs.
  - destruct s as [|c s]; cbn; [reflexivity|]. apply IH.
Qed.

Lemma first_at_length sub s n :
  first_at sub s n -> (n + String.length sub <= String.length s)%nat.
Proof.
  intros (P & L & _). apply String.prefix_correct in P.
  assert (H : String.length (String.substring 0 (String.length sub) (Str.drop n s))
              = String.length sub) by congruence.
  pose proof (drop_length n s L) as D.
  assert (G : forall k t, (String.length (String.substring 0 k t) <= String.length t)%nat).
  { induction k as [|k IHk]; intros [|c t]; cbn; try lia. specialize (IHk t). lia. }
  specialize (G (String.length sub) (Str.drop n s)). lia.
Qed.

Lemma section_text_spec :
  forall (content section_title : string),
    let marker := section_marker section_title in
    (absent marker content -> section_text content section_title = None)
    /\ (forall i, first_at marker content i ->
          let index := (i + String.length marker)%nat in
          (forall j, first_at "==" (Str.drop index content) j ->
             section_text content section_title
             = Some (Str.strip (Str.lstrip "=" (String.substring index j content))))
          /\ (absent "==" (Str.drop index content) ->
              section_text content section_title
              = Some (Str.strip (Str.lstrip "=" (Str.drop index content))))).
Proof.
  intros content section_title marker. split.
  - intros H. unfold section_text, Str.index_from. fold marker.
    cbn [Nat.ltb Nat.leb Str.drop]. rewrite (absent_find _ _ H). reflexivity.
  - intros i Hi index.
    assert (Hlen : (index <= String.length content)%nat)
      by (apply first_at_length; assumption).
    assert (E : Str.index_from marker content 0 = Some i).
    { unfold Str.index_from. cbn [Nat.ltb Nat.leb Str.drop].
      rewrite (first_at_find _ _ _ Hi). reflexivity. }
    assert (Hlt : (String.length content <? index)%nat = false)
      by (apply Nat.ltb_ge; exact Hlen).
    split.
    + intros j Hj. unfold section_text. fold marker. rewrite E. fold index.
      unfold Str.index_from. rewrite Hlt, (first_at_find _ _ _ Hj). cbn [option_map].
      unfold Str.slice. replace (index + j - index)%nat with j by lia. reflexivity.
    + intros Ha. unfold section_text. fold marker. rewrite E. fold index.
      unfold Str.index_from. rewrite Hlt, (absent_find _ _ Ha). cbn [option_map].
      unfold Str.slice. rewrite substring_drop. reflexivity.
Qed.

Lemma drop_app pre : forall s, Str.drop (String.length pre) (pre ++ s) = s.
Proof. induction pre as [|c pre IH]; intros s; cbn; auto. Qed.

Lemma drop_add n : forall m s, Str.drop (n + m) s = Str.drop m (Str.drop n s).
Proof.
  induction n as [|n IH]; intros m s; cbn [Nat.add Str.drop]; [reflexivity|].
  destruct s as [|c s]; [destruct m; reflexivity|]. apply IH.
Qed.

Lemma substring_app pre : forall k s,
  String.substring (String.length pre) k (pre ++ s) = String.substring 0 k s.
Proof. induction pre as [|c pre IH]; intros k s; cbn; auto. Qed.

Lemma substring_add n : forall k s,
  String.substring n k s = String.substring 0 k (Str.drop n s).
Proof.
  induction n as [|n IH]; intros k s; cbn [Str.drop]; [reflexivity|].
  destruct s as [|c s]; [destruct k; reflexivity|]. cbn. apply IH.
Qed.

Lemma section_history_example pre post :
  first_at (section_marker "History") (pre ++ history_block ++ post)
           (String.length pre) ->
  section_text (pre ++ history_block ++ post) "History" = Some "text here".
Proof.
  intros Hi.
  destruct (section_text_spec (pre ++ history_block ++ post) "History") as [_ H].
  destruct (H _ Hi) as [Hj _]. clear H. cbv zeta in Hj.
  rewrite (Hj 11%nat).
  - rewrite substring_add, drop_add, drop_app. reflexivity.
  - rewrite drop_add, drop_app. repeat split.
    + cbn. lia.
    + intros m Hm. do 11 (destruct m as [|m]; [reflexivity|]). lia.
Qed.

Lemma content_loaded self w c :
  Dict.get "_content" (heap w self) = Some (VStr c) -> c <> EmptyString ->
  content self w = (Ok (VStr c), w).
Proof.
  intros H Hn. apply lazy_attr_cached; [assumption|].
  cbn. destruct c; [congruence|reflexivity].
Qed.

Lemma section_of_loaded self w c section_title :
  Dict.get "_content" (heap w self) = Some (VStr c) -> c <> EmptyString ->
  section self section_title w = (Ok (option_value (section_text c section_title)), w).
Proof.
  intros H Hn. pose proof (content_loaded self w c H Hn) as Hc.
  unfold section, section_text.
  set (marker := section_marker section_title).
  destruct (Str.index_from marker c 0) as [i|] eqn:E.
  - erewrite bind_ok;
      [ | apply try_except_ok; rewrite (bind_ok _ _ _ _ _ Hc);
          cbn [Py.index_from]; rewrite E; reflexivity ].
    cbv beta iota.
    destruct (Str.index_from "==" c (i + String.length marker)) as [j|] eqn:F.
    + erewrite bind_ok;
        [ | apply try_except_ok; rewrite (bind_ok _ _ _ _ _ Hc);
            cbn [Py.index_from]; rewrite F; reflexivity ].
      rewrite (bind_ok _ _ _ _ _ Hc). reflexivity.
    + erewrite bind_ok;
        [ | erewrite try_except_raise;
            [ | rewrite (bind_ok _ _ _ _ _ Hc);
                cbn [Py.index_from]; rewrite F; reflexivity ];
            cbn [is_ValueError]; rewrite (bind_ok _ _ _ _ _ Hc); reflexivity ].
      rewrite (bind_ok _ _ _ _ _ Hc). reflexivity.
  - erewrite bind_ok;
      [ | erewrite try_except_raise;
          [ | rewrite (bind_ok _ _ _ _ _ Hc);
              cbn [Py.index_from]; rewrite E; reflexivity ];
          reflexivity ].
    reflexivity.
Qed.

(** Claim C7, amended.  On loaded content [section] changes no state and is
    the function [section_text] of the content: [None] when the marker
    [== title ==] does not occur; otherwise the text from the end of its
    first occurrence to the next [==], or to the end of the content, with
    leading [=] removed and then the whitespace of both ends removed.  On
    content that has the History block of the documentation at the first
    occurrence of its marker the result is ["text here"]. *)
Theorem section_between_markers :
  forall (self : addr) (w : World) (content section_title : string),
    Dict.get "_content" (heap w self) = Some (VStr content) ->
    content <> EmptyString ->
    let marker := section_marker section_title in
    section self section_title w
    = (Ok (option_value (section_text content section_title)), w)
    /\ (absent marker content -> section_text content section_title = None)
    /\ (forall i, first_at marker content i ->
          let index := (i + String.length marker)%nat in
          (forall j, first_at "==" (Str.drop index content) j ->
             section_text content section_title
             = Some (Str.strip (Str.lstrip "=" (String.substring index j content))))
          /\ (absent "==" (Str.drop index content) ->
              section_text content section_title
              = Some (Str.strip (Str.lstrip "=" (Str.drop index content)))))
    /\ (forall pre post,
          content = pre ++ history_block ++ post ->
          first_at (section_marker "History") content (String.length pre) ->
          section_text content "History" = Some "text here").
Proof.
  intros self w content section_title Hc Hn marker.
  split; [apply section_of_loaded; assumption|].
  destruct (section_text_spec content section_title) as [Ha Hf].
  split; [exact Ha|]. split; [exact Hf|].
  intros pre post -> Hi. apply section_history_example. exact Hi.
Qed.

(** ** Category trees *)

Lemma bind_inv {A B} (m : M A) (k : A -> M B) w b w' :
  bind m k w = (Ok b, w') ->
  exists a w1, m w = (Ok a, w1) /\ k a w1 = (Ok b, w').
Proof.
  unfold bind. destruct (m w) as [[a|e|] w1]; intros H; try discriminate.
  exists a, w1. split; auto.
Qed.

Lemma lift_inv {A} (r : exn + A) w a w' :
  lift r w = (Ok a, w') -> r = inr a /\ w' = w.
Proof.
  destruct r as [e|x]; cbn; intros H; [discriminate|].
  injection H as -> ->. auto.
Qed.

Lemma ret_inv {A} (x : A) w a w' : ret x w = (Ok a, w') -> a = x /\ w' = w.
Proof. cbn. intros H. injection H as -> ->. auto. Qed.

Lemma try_except_inv {A} (m : M A) h w a w' :
  try_except m h w = (Ok a, w') ->
  m w = (Ok a, w') \/ exists e w1, m w = (Raise e, w1) /\ h e w1 = (Ok a, w').
Proof.
  unfold try_except. destruct (m w) as [[x|e|] w1]; intros H.
  - left. exact H.
  - right. exists e, w1. auto.
  - discriminate.
Qed.

Lemma memo_get_set_same cat a m : memo_get cat (memo_set cat a m) = Some a.
Proof.
  induction m as [|[c b] m IH]; cbn.
  - rewrite String.eqb_refl. reflexivity.
  - destruct (String.eqb cat c) eqn:E; cbn; rewrite E; auto.
Qed.

Lemma memo_get_set_other k cat a m :
  k <> cat -> memo_get k (memo_set cat a m) = memo_get k m.
Proof.
  intros H. apply String.eqb_neq in H.
  induction m as [|[c b] m IH]; cbn.
  - rewrite H. reflexivity.
  - destruct (String.eqb cat c) eqn:E; cbn.
    + apply String.eqb_eq in E. subst c. rewrite H. reflexivity.
    + rewrite IH. reflexivity.
Qed.

Lemma dict_has_get k d : Dict.has k d = true <-> exists v, Dict.get k d = Some v.
Proof.
  unfold Dict.has. destruct (Dict.get k d) as [v|]; split.
  - eauto.
  - reflexivity.
  - discriminate.
  - intros [v H]. discriminate.
Qed.

Lemma grows_refl categories links : grows categories links categories links.
Proof. intros k H. auto. Qed.

Lemma grows_trans c1 l1 c2 l2 c3 l3 :
  grows c1 l1 c2 l2 -> grows c2 l2 c3 l3 -> grows c1 l1 c3 l3.
Proof.
  intros G1 G2 k H. destruct (G1 k H) as [H1 E1]. destruct (G2 k H1) as [H2 E2].
  split; [assumption|congruence].
Qed.

Lemma subcategories_of_grows categories links categories' links' cat :
  grows categories links categories' links' ->
  memo_get cat categories <> None ->
  subcategories_of links' cat = subcategories_of links cat.
Proof.
  intros G H. destruct (G cat H) as [_ E].
  unfold subcategories_of. cbn [Py.item]. rewrite E. reflexivity.
Qed.

Lemma shaped_grows depth categories links categories' links' :
  grows categories links categories' links' ->
  forall level cat n,
    shaped depth categories links level cat n ->
    shaped depth categories' links' level cat n.
Proof.
  intros G level cat n H.
  induction H as [level cat subs pages parents subcats Hc Hs Hk Hb Hr IH].
  apply (shaped_node depth categories' links' level cat subs pages parents subcats).
  - apply (G cat Hc).
  - rewrite (subcategories_of_grows _ _ _ _ _ G Hc). exact Hs.
  - exact Hk.
  - exact Hb.
  - exact IH.
Qed.

Lemma shaped_unbounded depth categories links : depth <= 0 ->
  forall level cat n, shaped depth categories links level cat n -> expanded n.
Proof.
  intros Hd level cat n H.
  induction H as [level cat subs pages parents subcats Hc Hs Hk Hb Hr IH].
  constructor. intros c v Hg.
  apply (IH ltac:(apply andb_false_iff; right; apply Z.ltb_ge; lia) c v Hg).
Qed.

Lemma null_leaves_all_none : forall subcats subs subs',
  (forall c v, Dict.get c subs = Some v -> v = VNone) ->
  null_leaves subcats subs = inr subs' ->
  forall c v, Dict.get c subs' = Some v -> v = VNone.
Proof.
  induction subcats as [|x rest IH]; intros subs subs' Hs H c v Hg.
  - cbn in H. injection H as <-. eauto.
  - cbn in H. destruct x; try discriminate.
    eapply (IH (Dict.set s VNone subs)); [|eassumption|eassumption].
    intros c' v' Hg'. destruct (String.eqb_spec c' s) as [->|Hne].
    + rewrite dict_get_set_same in Hg'. congruence.
    + rewrite dict_get_set_other in Hg' by assumption. eauto.
Qed.

Lemma dict_has_set k k' v d :
  Dict.has k (Dict.set k' v d) = true <-> Dict.has k d = true \/ k = k'.
Proof.
  unfold Dict.has. destruct (String.eqb_spec k k') as [->|Hne].
  - rewrite dict_get_set_same. split; auto.
  - rewrite dict_get_set_other by assumption. split; [auto|].
    intros [H|H]; [assumption|contradiction].
Qed.

Lemma null_leaves_keys : forall subcats subs subs',
  null_leaves subcats subs = inr subs' ->
  forall c, Dict.has c subs' = true <-> Dict.has c subs = true \/ In (VStr c) subcats.
Proof.
  induction subcats as [|x rest IH]; intros subs subs' H c.
  - cbn in H. injection H as <-. cbn. tauto.
  - cbn [null_leaves] in H. destruct x; try discriminate.
    rewrite (IH _ _ H c), dict_has_set. cbn [In].
    split; [intros [[?| ->]|?]|intros [?|[E|?]]]; auto.
    injection E as ->. auto.
Qed.

Section Walk.
Context {X : Externals}.

Lemma fetch_category_ok : forall fuel cat categories links w r w',
  fetch_category fuel cat categories links w = (Ok r, w') ->
  exists p members,
    r = (memo_set cat p categories, Dict.set cat members links)
    /\ exists w1 w2,
         categorymembers ([VStr cat; VInt 500; VBool true], []) w1 = (Ok members, w2).
Proof.
  induction fuel as [|fuel IH]; intros cat categories links w r w' H.
  - discriminate.
  - cbn [fetch_category] in H. apply try_except_inv in H.
    destruct H as [H|(e & w1 & _ & H)].
    + apply bind_inv in H. destruct H as (p & w1 & _ & H).
      apply bind_inv in H. destruct H as (cs & w2 & _ & H).
      apply bind_inv in H. destruct H as (members & w3 & Hm & H).
      apply ret_inv in H. destruct H as [-> _].
      exists p, members. split; [reflexivity|]. eauto.
    + destruct (is_PageError e); [discriminate|].
      apply bind_inv in H. destruct H as (u & w2 & _ & H).
      eapply IH. exact H.
Qed.

Lemma for_each_subcategory_builds depth level rec :
  (forall c subs categories links w r w',
      rec c subs categories links w = (Ok r, w') ->
      fetched links ->
      builds depth level c subs categories links r /\ fetched (snd r)) ->
  forall subcats subs categories links w r w',
    for_each_subcategory rec subcats subs categories links w = (Ok r, w') ->
    fetched links ->
    (forall c v, Dict.get c subs = Some v -> shaped depth categories links level c v) ->
    grows categories links (snd (fst r)) (snd r)
    /\ fetched (snd r)
    /\ (forall c, Dict.has c (fst (fst r)) = true
                  <-> Dict.has c subs = true \/ In (VStr c) subcats)
    /\ (forall c v, Dict.get c (fst (fst r)) = Some v ->
                    shaped depth (snd (fst r)) (snd r) level c v).
Proof.
  intros Hrec. induction subcats as [|x rest IH];
    intros subs categories links w r w' H Hf Hs.
  - apply ret_inv in H. destruct H as [-> _]. cbn [fst snd In].
    split; [apply grows_refl|]. split; [assumption|]. split; [tauto|assumption].
  - cbn [for_each_subcategory] in H. destruct x; try discriminate.
    apply bind_inv in H. destruct H as (r1 & w1 & H1 & H2).
    destruct (Hrec _ _ _ _ _ _ _ H1 Hf) as [(G1 & (n & Hn & Sn) & Hframe) F1].
    assert (Hs1 : forall c v, Dict.get c (fst (fst r1)) = Some v ->
                              shaped depth (snd (fst r1)) (snd r1) level c v).
    { intros c v Hg. destruct (String.eqb_spec c s) as [->|Hne].
      - congruence.
      - rewrite (Hframe c Hne) in Hg. eapply shaped_grows; eauto. }
    destruct (IH _ _ _ _ _ _ H2 F1 Hs1) as (G2 & F2 & K2 & S2).
    split; [eapply grows_trans; eassumption|]. split; [assumption|].
    split; [|assumption].
    intros c. rewrite (K2 c). cbn [In].
    assert (K1 : Dict.has c (fst (fst r1)) = true <-> Dict.has c subs = true \/ c = s).
    { unfold Dict.has. destruct (String.eqb_spec c s) as [->|Hne].
      - rewrite Hn. split; auto.
      - rewrite (Hframe c Hne). split; [auto|]. intros [?|?]; [assumption|contradiction]. }
    rewrite K1. split; [intros [[?| ->]|?]|intros [?|[E|?]]]; auto.
    injection E as ->. auto.
Qed.

Lemma cat_tree_rec_builds depth :
  forall fuel cat tree level categories links w r w',
    cat_tree_rec fuel cat depth tree level categories links w = (Ok r, w') ->
    fetched links ->
    builds depth level cat tree categories links r /\ fetched (snd r).
Proof.
  induction fuel as [|fuel IH]; intros cat tree level categories links w r w' H Hf.
  - discriminate.
  - cbn [cat_tree_rec] in H.
    apply bind_inv in H. destruct H as ([categories1 links1] & w1 & Hfetch & H).
    cbn [fst snd] in H.
    apply bind_inv in H. destruct H as (p & w2 & Hp & H).
    apply bind_inv in H. destruct H as (parents & w3 & _ & H).
    apply bind_inv in H. destruct H as (parents' & w4 & _ & H).
    apply bind_inv in H. destruct H as (members & w5 & Hm & H).
    apply bind_inv in H. destruct H as (pages & w6 & _ & H).
    apply bind_inv in H. destruct H as (pages' & w7 & _ & H).
    apply bind_inv in H. destruct H as (sv & w8 & Hsv & H).
    apply bind_inv in H. destruct H as (subcats & w9 & Hsub & H).
    apply lift_inv in Hm. destruct Hm as [Hm _].
    apply lift_inv in Hsv. destruct Hsv as [Hsv _].
    apply lift_inv in Hsub. destruct Hsub as [Hsub _].
    assert (Hin : memo_get cat categories1 <> None).
    { destruct (memo_get cat categories1); [discriminate|]. discriminate Hp. }
    assert (Hsubs : subcategories_of links1 cat = inr subcats).
    { unfold subcategories_of. rewrite Hm. cbn [and_then]. rewrite Hsv. exact Hsub. }
    assert (G1 : grows categories links categories1 links1 /\ fetched links1).
    { destruct (memo_get cat categories) as [q|] eqn:Eq.
      - apply ret_inv in Hfetch. destruct Hfetch as [Hfetch _].
        injection Hfetch as <- <-. split; [apply grows_refl|assumption].
      - apply fetch_category_ok in Hfetch.
        destruct Hfetch as (q & ms & Hfetch & Hms). injection Hfetch as -> ->.
        split.
        + intros k Hk.
          assert (Hne : k <> cat) by (intros ->; contradiction).
          rewrite memo_get_set_other, dict_get_set_other by assumption. auto.
        + intros c ms' Hg. destruct (String.eqb_spec c cat) as [->|Hne].
          * rewrite dict_get_set_same in Hg. injection Hg as <-. exact Hms.
          * rewrite dict_get_set_other in Hg by assumption. eauto. }
    destruct G1 as [G1 F1].
    destruct ((depth <=? level) && (0 <? depth)) eqn:G.
    + apply bind_inv in H. destruct H as (subs & w10 & Hn & H).
      apply lift_inv in Hn. destruct Hn as [Hn _].
      apply ret_inv in H. destruct H as [-> _]. unfold builds. cbn [fst snd].
      split; [|assumption]. split; [assumption|]. split.
      * eexists. split; [apply dict_get_set_same|].
        apply (shaped_node depth categories1 links1 level cat subs pages' parents'
                 subcats Hin Hsubs).
        -- intros c. rewrite (null_leaves_keys _ _ _ Hn c).
           split; [intros [?|?]; [discriminate|assumption]|auto].
        -- intros _. eapply null_leaves_all_none; [|exact Hn].
           intros c v Hc. discriminate.
        -- congruence.
      * intros k Hk. rewrite !dict_get_set_other by assumption. reflexivity.
    + apply bind_inv in H. destruct H as (r1 & w10 & Hl & H).
      apply ret_inv in H. destruct H as [-> _]. cbn [fst snd].
      destruct (for_each_subcategory_builds depth (level + 1)
                  (fun c subs categories links =>
                     cat_tree_rec fuel c depth subs (level + 1) categories links)
                  (fun c subs cats lks w0 r0 w0' => IH c subs (level + 1) cats lks w0 r0 w0')
                  _ _ _ _ _ _ _ Hl F1
                  (fun c v (Hc : Dict.get c [] = Some v) =>
                     match Hc with eq_refl => I end))
        as (G2 & F2 & K2 & S2).
      unfold builds. cbn [fst snd].
      split; [|assumption].
      split; [eapply grows_trans; eassumption|]. split.
      * eexists. split; [apply dict_get_set_same|].
        apply (shaped_node depth _ _ level cat (fst (fst r1)) pages' parents' subcats).
        -- apply (G2 cat Hin).
        -- rewrite (subcategories_of_grows _ _ _ _ _ G2 Hin). exact Hsubs.
        -- intros c. rewrite (K2 c).
           split; [intros [?|?]; [discriminate|assumption]|auto].
        -- congruence.
        -- intros _. exact S2.
      * intros k Hk. rewrite !dict_get_set_other by assumption. reflexivity.
Qed.

Lemma for_each_category_builds depth fuel :
  forall cats results categories links w r w',
    for_each_category fuel depth cats results categories links w = (Ok r, w') ->
    fetched links ->
    (forall c v, Dict.get c results = Some v -> shaped depth categories links 0 c v) ->
    fetched (snd r)
    /\ (forall c, Dict.has c (fst (fst r)) = true
                  <-> Dict.has c results = true \/ In c cats)
    /\ (forall c v, Dict.get c (fst (fst r)) = Some v ->
                    shaped depth (snd (fst r)) (snd r) 0 c v).
Proof.
  induction cats as [|cat cats IH]; intros results categories links w r w' H Hf Hs.
  - apply ret_inv in H. destruct H as [-> _]. cbn [fst snd In].
    split; [assumption|]. split; [tauto|assumption].
  - cbn [for_each_category] in H.
    apply bind_inv in H. destruct H as (r1 & w1 & H1 & H2).
    destruct (cat_tree_rec_builds _ _ _ _ _ _ _ _ _ _ H1 Hf)
      as [(G1 & (n & Hn & Sn) & Hframe) F1].
    assert (Hs1 : forall c v, Dict.get c (fst (fst r1)) = Some v ->
                              shaped depth (snd (fst r1)) (snd r1) 0 c v).
    { intros c v Hg. destruct (String.eqb_spec c cat) as [->|Hne].
      - congruence.
      - rewrite (Hframe c Hne) in Hg. eapply shaped_grows; eauto. }
    destruct (IH _ _ _ _ _ _ H2 F1 Hs1) as (F2 & K2 & S2).
    split; [assumption|]. split; [|assumption].
    intros c. rewrite (K2 c). cbn [In].
    assert (K1 : Dict.has c (fst (fst r1)) = true
                 <-> Dict.has c results = true \/ c = cat).
    { unfold Dict.has. destruct (String.eqb_spec c cat) as [->|Hne].
      - rewrite Hn. split; auto.
      - rewrite (Hframe c Hne). split; [auto|]. intros [?|?]; [assumption|contradiction]. }
    rewrite K1. split; [intros [[?| ->]|?]|intros [?|[ ->|?]]]; auto.
Qed.

(** Claim C8.  When [categorytree] returns, with the memo dictionaries
    [categories] and [links] as the walk leaves them, every entry of [links]
    is a value [categorymembers(cat, 500, True)] returned, and every root of
    the tree is the node of its category built at level 0: at every level
    the children of the node of [cat] are named by the sub-categories
    [links[cat][1]]; when [level >= depth > 0] every child is a [None] leaf,
    and otherwise every child is the node of that sub-category built at
    [level + 1].  With [depth <= 0] no node has a [None] leaf at any
    level. *)
Theorem categorytree_depth :
  forall (fuel : nat) (category : list string) (depth : Z) (w w' : World)
         (results : dict),
    categorytree fuel category depth w = (Ok results, w') ->
    exists (categories : page_memo) (links : dict),
      for_each_category fuel depth category [] [] [] w
      = (Ok (results, categories, links), w')
      /\ fetched links
      /\ forall cat, In cat category ->
           exists n, Dict.get cat results = Some n
                     /\ shaped depth categories links 0 cat n
                     /\ (depth <= 0 -> expanded n).
Proof.
  intros fuel category depth w w' results H.
  unfold categorytree in H. apply bind_inv in H.
  destruct H as ([[results' categories] links] & w1 & H1 & H2).
  apply ret_inv in H2. cbn [fst] in H2. destruct H2 as [-> ->].
  exists categories, links. split; [exact H1|].
  destruct (for_each_category_builds _ _ _ _ _ _ _ _ _ H1
              (fun c m (Hc : Dict.get c [] = Some m) => match Hc with eq_refl => I end)
              (fun c v (Hc : Dict.get c [] = Some v) => match Hc with eq_refl => I end))
    as (F & K & S).
  cbn [fst snd] in F, K, S.
  split; [exact F|].
  intros cat Hc.
  destruct (proj1 (dict_has_get cat results') (proj2 (K cat) (or_intror Hc))) as [n Hn].
  exists n. split; [exact Hn|]. split; [exact (S _ _ Hn)|].
  intros Hd. eapply shaped_unbounded; [exact Hd|exact (S _ _ Hn)].
Qed.
End Walk.

(** ** The properties on the fixtures *)

Lemma run_pair {A} (r : outcome A * World) (o : outcome A) :
  fst r = o -> r = (o, snd r).
Proof. destruct r. cbn. intros ->. reflexivity. Qed.

Lemma wiki_request_in_wait_window_witness :
  let w := Fixture.state Fixture.limited_site [] [] in
  fst (_wiki_request [] w) = Raise (NameError "filtered_lis")
  /\ sent (snd (_wiki_request [] w)) = []
  /\ slept (snd (_wiki_request [] w)) = [0].
Proof.
  intros w.
  destruct (wiki_request_in_wait_window [] w 10000 50000 eq_refl eq_refl eq_refl
              ltac:(vm_compute; reflexivity)) as (_ & Hs & _ & Hn & _).
  destruct (Hn ltac:(vm_compute; reflexivity)) as [He Hsl].
  split; [exact He|]. split; [exact Hs|exact Hsl].
Defined.

(** Claim C10, at the failing input.  The process is held up between the two
    readings of the clock: the first reading is inside the wait, the second
    is two seconds later.  The number of seconds to sleep is [-1],
    [time.sleep] raises [ValueError], and the line that names [filtered_lis]
    is not reached. *)
Theorem wait_window_call_raises_value_error :
  let w := Fixture.stalled_world in
  let r := _wiki_request [] w in
  RATE_LIMIT (globals w) = true
  /\ RATE_LIMIT_LAST_CALL (globals w) = Some 10000
  /\ RATE_LIMIT_MIN_WAIT (globals w) = Some 50000
  /\ 10000 + 50000 > clock w (reads w)
  /\ Z.quot (10000 + 50000 - clock w (S (reads w))) 1000000 = -1
  /\ fst r = Raise (ValueError "sleep length must be non-negative")
  /\ fst r <> Raise (NameError "filtered_lis")
  /\ slept (snd r) = []
  /\ sent (snd r) = [].
Proof.
  intros w r.
  assert (E : fst r = Raise (ValueError "sleep length must be non-negative"))
    by (vm_compute; reflexivity).
  repeat split; try (vm_compute; reflexivity).
  rewrite E. discriminate.
Qed.

Lemma continued_query_rounds_witness :
  let w := Fixture.page_world
             (map Fixture.json [Fixture.round_1; Fixture.round_2; Fixture.round_3]) in
  exists w',
    list_gen 6 0%nat (continued_query Fixture.links_params) w
    = (Ok (map Fixture.link ["A"; "B"; "C"; "D"; "E"]), w')
    /\ pending w' = []
    /\ List.length (sent w') = 3%nat.
Proof.
  intros w.
  destruct (continued_query_rounds 0%nat w Fixture.links_params
              [("titles", VStr "Rocq")] eq_refl eq_refl) as (_ & H & _).
  destruct (H 6%nat Fixture.round_1 Fixture.round_2 Fixture.round_3 []
              (Fixture.link "A") (Fixture.link "B") (Fixture.link "C")
              (Fixture.link "D") (Fixture.link "E")
              Fixture.continue_1 Fixture.continue_2
              eq_refl eq_refl eq_refl eq_refl eq_refl eq_refl eq_refl eq_refl
              eq_refl eq_refl eq_refl eq_refl (le_n 6))
    as (w' & E & P & S).
  exists w'. split; [exact E|]. split; [exact P|].
  rewrite <- (length_map rq_params), S. reflexivity.
Defined.



Lemma redirect_resolves_target_witness :
  let w := Fixture.world (map Fixture.json [Fixture.normalized_redirect;
                                            Fixture.plain_page "7" "Bar"]) in
  let r := init (X := Fixture.externals) 2 0%nat (VStr "foo") VNone true false
                (VStr EmptyString) w in
  fst r = Ok tt /\ Dict.get "title" (heap (snd r) 0%nat) = Some (VStr "Bar").
Proof.
  intros w r. unfold r.
  destruct (redirect_resolves_target (X := Fixture.externals) 1 0%nat (VStr "foo")
              VNone (VStr EmptyString) false w [1; 28; 0] Fixture.normalized_redirect
              [Fixture.json (Fixture.plain_page "7" "Bar")]
              Fixture.normalized_query "7" _ (VStr "Foo") (VStr "Bar")
              eq_refl eq_refl I eq_refl
              (ex_intro _ _ (ex_intro _ [] (conj eq_refl (conj eq_refl eq_refl))))
              eq_refl
              (ex_intro _ _ (ex_intro _ _
                 (conj eq_refl (conj eq_refl (conj eq_refl eq_refl))))))
    as [H _].
  rewrite H.
  - split; vm_compute; reflexivity.
  - left. exists (VStr "foo"), (VStr "Foo").
    split; [|split; [discriminate|split; reflexivity]].
    exact (ex_intro _ _ (ex_intro _ _
             (conj eq_refl (conj eq_refl (conj eq_refl eq_refl))))).
Defined.

(** An object made from a pageid follows a redirect: it takes the source of
    the redirect as its title, loses its pageid, and is loaded again from the
    redirect's target. *)
Example redirect_from_pageid :
  let w := Fixture.world (map Fixture.json [Fixture.redirect_response "A" "B";
                                            Fixture.plain_page "9" "B"]) in
  let r := init (X := Fixture.externals) 2 0%nat VNone (VInt 5) true false
                (VStr EmptyString) w in
  fst r = Ok tt
  /\ Dict.get "title" (heap (snd r) 0%nat) = Some (VStr "B")
  /\ Dict.get "pageid" (heap (snd r) 0%nat) = Some (VStr "9")
  /\ map (fun rq => (Dict.get "titles" (rq_params rq),
                     Dict.get "pageids" (rq_params rq))) (sent (snd r))
     = [(Some (VStr "B"), None); (None, Some (VInt 5))].
Proof. intros w r. repeat split; vm_compute; reflexivity. Qed.

Lemma redirect_target_is_not_the_normalized_title :
  let w := Fixture.world (map Fixture.json [Fixture.normalized_redirect;
                                            Fixture.plain_page "7" "Bar"]) in
  let w' := snd (init (X := Fixture.externals) 2 0%nat (VStr "foo") VNone true
                      false (VStr EmptyString) w) in
  title_as_worded Fixture.normalized_query = inr (VStr "Foo")
  /\ map (fun rq => Dict.get "titles" (rq_params rq)) (sent w')
     = [Some (VStr "Bar"); Some (VStr "foo")]
  /\ VStr "Bar" <> VStr "Foo".
Proof.
  intros w w'. split; [reflexivity|]. split; [vm_compute; reflexivity|discriminate].
Qed.

Lemma redirect_chain_of_depth_two_witness :
  let w := Fixture.world (map Fixture.json [Fixture.redirect_response "A" "B";
                                            Fixture.redirect_response "B" "C";
                                            Fixture.plain_page "9" "C"]) in
  exists w',
    init (X := Fixture.externals) 3 0%nat (VStr "A") VNone true false (VStr EmptyString) w
    = (Ok tt, w')
    /\ Dict.get "pageid" (heap w' 0%nat) = Some (VStr "9")
    /\ Dict.get "title" (heap w' 0%nat) = Some (VStr "C")
    /\ pending w' = []
    /\ List.length (sent w') = 3%nat.
Proof.
  intros w.
  destruct (redirect_chain_of_depth_two (X := Fixture.externals)) as [H _].
  destruct (H 3%nat 0%nat (VStr "A") VNone (VStr "B") (VStr "C") (VStr EmptyString) w
              [1; 28; 0]
              (Fixture.redirect_response "A" "B") (Fixture.redirect_response "B" "C")
              (Fixture.plain_page "9" "C") [] _ _ _ "7" "7" "9" _ _ _
              (VStr "A") (VStr "B") (VStr "C") (VStr "http://en.wikipedia.org/wiki/C")
              eq_refl eq_refl (le_n 3)
              I ltac:(discriminate) ltac:(discriminate) eq_refl
              (ex_intro _ _ (ex_intro _ [] (conj eq_refl (conj eq_refl eq_refl))))
              eq_refl
              (ex_intro _ _ (ex_intro _ _
                 (conj eq_refl (conj eq_refl (conj eq_refl eq_refl)))))
              (or_intror (or_introl (conj eq_refl (conj eq_refl eq_refl))))
              (ex_intro _ _ (ex_intro _ [] (conj eq_refl (conj eq_refl eq_refl))))
              eq_refl
              (ex_intro _ _ (ex_intro _ _
                 (conj eq_refl (conj eq_refl (conj eq_refl eq_refl)))))
              (or_intror (or_introl (conj eq_refl (conj eq_refl eq_refl))))
              (ex_intro _ _ (ex_intro _ [] (conj eq_refl (conj eq_refl eq_refl))))
              eq_refl eq_refl eq_refl eq_refl eq_refl)
    as (w' & E & Hp & Ht & _ & Hpend & Hs).
  exists w'. repeat split; try assumption.
  rewrite <- (length_map rq_params), Hs. reflexivity.
Defined.

Lemma redirect_to_missing_page_raises_page_error :
  let w := Fixture.world [Fixture.json Fixture.broken_redirect] in
  let r := init (X := Fixture.externals) 1 0%nat (VStr "Old") VNone false false
                (VStr EmptyString) w in
  path Fixture.broken_redirect ["query"; "redirects"]
  = inr (Fixture.mapping "Old" "Gone")
  /\ fst r = Raise (PageError (Some (VStr "Old")) None)
  /\ fst r <> Raise (RedirectError (VStr "Old")).
Proof.
  intros w r. split; [reflexivity|].
  assert (E : fst r = Raise (PageError (Some (VStr "Old")) None))
    by (vm_compute; reflexivity).
  split; [exact E|]. rewrite E. discriminate.
Qed.

(** Claim C5, at the failing input.  A page without coordinates reads
    [None] and a page without images reads the empty list; both values are
    stored, and both fields are asked from the remote again by the second
    read. *)
Lemma falsy_fields_are_fetched_again :
  let w := Fixture.page_world [Fixture.json Fixture.no_coordinates;
                               Fixture.json Fixture.no_coordinates] in
  let r1 := access (X := Fixture.externals) 1 Coordinates 0%nat w in
  let r2 := access (X := Fixture.externals) 1 Coordinates 0%nat (snd r1) in
  let v := Fixture.page_world [Fixture.json (VDict [("batchcomplete", VStr EmptyString)]);
                               Fixture.json (VDict [("batchcomplete", VStr EmptyString)])] in
  let i1 := access (X := Fixture.externals) 3 Images 0%nat v in
  let i2 := access (X := Fixture.externals) 3 Images 0%nat (snd i1) in
  (fst r1 = Ok VNone /\ List.length (sent (snd r1)) = 1%nat
   /\ fst r2 = Ok VNone /\ List.length (sent (snd r2)) = 2%nat)
  /\ (fst i1 = Ok (VList []) /\ List.length (sent (snd i1)) = 1%nat
      /\ fst i2 = Ok (VList []) /\ List.length (sent (snd i2)) = 2%nat).
Proof. vm_compute. repeat split; reflexivity. Qed.

Lemma section_between_markers_witness :
  let w := Fixture.read_page ("Intro " ++ history_block ++ " rest") in
  section 0%nat "History" w = (Ok (VStr "text here"), w).
Proof.
  intros w.
  destruct (section_between_markers 0%nat w ("Intro " ++ history_block ++ " rest")
              "History" eq_refl ltac:(discriminate)) as [H _].
  rewrite H. reflexivity.
Defined.

Lemma section_keeps_equals_signs :
  section_text "== A ==x=" "A" = Some "x="
  /\ section_as_worded "== A ==x=" "A" = Some "x"
  /\ section_text "== A ==x=" "A" <> section_as_worded "== A ==x=" "A"
  /\ section 0%nat "A" (Fixture.read_page "== A ==x=")
     = (Ok (VStr "x="), Fixture.read_page "== A ==x=").
Proof.
  split; [reflexivity|]. split; [reflexivity|]. split; [discriminate|].
  apply (section_of_loaded 0%nat (Fixture.read_page "== A ==x=") "== A ==x=" "A" eq_refl).
  discriminate.
Qed.

Lemma categorytree_depth_witness :
  let r := categorytree (X := Fixture.externals) 10 ["Logic"] 1
                        (Fixture.world Fixture.tree_replies) in
  exists results categories links n,
    fst r = Ok results
    /\ Dict.get "Logic" results = Some n
    /\ shaped 1 categories links 0 "Logic" n
    /\ subcategories_of links "Logic" = inr [VStr "Proof"]
    /\ path n ["sub-categories"; "Proof"; "sub-categories"; "Proof assistants"]
       = inr VNone.
Proof.
  intros r.
  assert (E : exists results, fst r = Ok results
                              /\ path (VDict results)
                                   ["Logic"; "sub-categories"; "Proof";
                                    "sub-categories"; "Proof assistants"]
                                 = inr VNone).
  { eexists. split; vm_compute; reflexivity. }
  destruct E as (results & E & P).
  destruct (categorytree_depth (X := Fixture.externals) 10 ["Logic"] 1 _ _ results
              (run_pair r _ E)) as (categories & links & Hw & _ & H).
  destruct (H "Logic" (or_introl eq_refl)) as (n & Hn & Sn & _).
  exists results, categories, links, n.
  split; [assumption|]. split; [assumption|]. split; [assumption|]. split.
  - assert (L : match fst (for_each_category (X := Fixture.externals) 10 1 ["Logic"]
                             [] [] [] (Fixture.world Fixture.tree_replies)) with
                | Ok x => subcategories_of (snd x) "Logic" = inr [VStr "Proof"]
                | _ => False
                end) by (vm_compute; reflexivity).
    rewrite Hw in L. exact L.
  - cbn [path and_then Py.item] in P. rewrite Hn in P. exact P.
Defined.

(** Claim C6, at the failing input.  [prefexsearch] is under [@cache] and is
    not among the functions [clear_cache] clears: after [set_lang("fr")] the
    call [prefexsearch("ro")] returns the result cached for the English site
    without any request, while [search("rocq")] is asked again from the
    French site. *)
Theorem prefexsearch_survives_set_lang :
  let w0 := Fixture.world
              (map Fixture.json
                   [Fixture.search_results ["Rocq"];
                    Fixture.prefix_results ["Rocq"];
                    Fixture.languages_response;
                    Fixture.search_results ["Rocq (logiciel)"];
                    Fixture.prefix_results ["Rocq (logiciel)"]]) in
  let s1 := search (Fixture.call [VStr "rocq"]) w0 in
  let p1 := prefexsearch (Fixture.call [VStr "ro"]) (snd s1) in
  let l := set_lang "fr" (snd p1) in
  let s2 := search (Fixture.call [VStr "rocq"]) (snd l) in
  let p2 := prefexsearch (Fixture.call [VStr "ro"]) (snd s2) in
  existsb (cached_fn_eqb Fprefexsearch) cleared_functions = false
  /\ fst l = Ok tt
  /\ API_URL (globals (snd l)) = "http://fr.wikipedia.org/w/api.php"
  /\ fst s1 = Ok (VList [VStr "Rocq"])
  /\ fst s2 = Ok (VList [VStr "Rocq (logiciel)"])
  /\ fst p1 = Ok (VList [VStr "Rocq"])
  /\ fst p2 = Ok (VList [VStr "Rocq"])
  /\ sent (snd p2) = sent (snd s2)
  /\ pending (snd p2) = [Fixture.json (Fixture.prefix_results ["Rocq (logiciel)"])].
Proof. vm_compute. repeat split; reflexivity. Qed.

(** Claim C9, at the failing input.  For a title that the response marks
    missing, the [PageError] raised holds the title in its [pageid]
    attribute and has no [title] attribute: [PageError(self.title)] binds its
    positional argument to the parameter [pageid]. *)
Theorem missing_title_error_carries_pageid :
  let w := Fixture.world [Fixture.json Fixture.missing_response] in
  let r := WikipediaPage.new (X := Fixture.externals) 2 (VStr "Nonexistent") VNone
                             true false w in
  PageError_new [VStr "Nonexistent"] [] = PageError (Some (VStr "Nonexistent")) None
  /\ fst r = Raise (PageError (Some (VStr "Nonexistent")) None)
  /\ fst r <> Raise (PageError None (Some (VStr "Nonexistent")))
  /\ List.length (sent (snd r)) = 1%nat.
Proof.
  intros w r.
  assert (E : fst r = Raise (PageError (Some (VStr "Nonexistent")) None))
    by (vm_compute; reflexivity).
  split; [reflexivity|]. split; [exact E|]. split; [rewrite E; discriminate|].
  vm_compute. reflexivity.
Qed.

(* ===================================================================== *)
(** * Further properties *)
(* ===================================================================== *)

(** ** Further properties: requests and configuration *)

Lemma dict_has_false_get k d : Dict.has k d = false -> Dict.get k d = None.
Proof. unfold Dict.has. destruct (Dict.get k d); [discriminate|reflexivity]. Qed.

Lemma request_params_format params :
  Dict.get "format" (request_params params) = Some (VStr "json").
Proof.
  unfold request_params.
  destruct (Dict.has "action" (Dict.set "format" (VStr "json") params)).
  - apply dict_get_set_same.
  - rewrite dict_get_set_other by discriminate. apply dict_get_set_same.
Qed.

Lemma request_params_action params :
  Dict.get "action" (request_params params)
  = Some (match Dict.get "action" params with
          | Some a => a
          | None => VStr "query"
          end).
Proof.
  unfold request_params.
  destruct (Dict.has "action" (Dict.set "format" (VStr "json") params)) eqn:E.
  - unfold Dict.has in E. rewrite dict_get_set_other in * by discriminate.
    destruct (Dict.get "action" params); [reflexivity|discriminate].
  - apply dict_has_false_get in E. rewrite dict_get_set_other in E by discriminate.
    rewrite E. apply dict_get_set_same.
Qed.

Lemma request_params_other params k :
  k <> "format" -> k <> "action" ->
  Dict.get k (request_params params) = Dict.get k params.
Proof.
  intros H1 H2. unfold request_params.
  destruct (Dict.has "action" (Dict.set "format" (VStr "json") params));
    rewrite ?dict_get_set_other by assumption; reflexivity.
Qed.

Lemma wiki_request_unlimited params w :
  RATE_LIMIT (globals w) = false ->
  _wiki_request params w
  = (remote_outcome (pending w),
     with_remote (tl (pending w)) (request_of (globals w) params :: sent w)
                 (with_globals (open_session (globals w)) w)).
Proof.
  intros Hr. destruct w as [g m p s c r sl h n].
  destruct g as [? ? ? ? ? ? ? ? ? ses ?]. cbn in *. subst.
  unfold _wiki_request, open_session, request_of.
  destruct ses; destruct p as [|[[j|]|e] p]; reflexivity.
Qed.

(** X1.  Without rate limiting, every call of [_wiki_request] issues exactly
    one GET, whatever comes back: to the configured URL, with the configured
    timeout, and with the caller's parameters in which [format] is forced to
    ["json"] and [action] is ["query"] unless the caller gave one.  The call
    returns the parsed body, or raises what the HTTP layer or the JSON
    decoder raised. *)
Theorem wiki_request_wire_format :
  forall (params : dict) (w : World),
    RATE_LIMIT (globals w) = false ->
    let r := _wiki_request params w in
    fst r = remote_outcome (pending w)
    /\ pending (snd r) = tl (pending w)
    /\ exists rq,
         sent (snd r) = rq :: sent w
         /\ rq_url rq = API_URL (globals w)
         /\ rq_timeout rq = TIMEOUT (globals w)
         /\ Dict.get "format" (rq_params rq) = Some (VStr "json")
         /\ Dict.get "action" (rq_params rq)
            = Some (match Dict.get "action" params with
                    | Some a => a
                    | None => VStr "query"
                    end)
         /\ forall k, k <> "format" -> k <> "action" ->
                      Dict.get k (rq_params rq) = Dict.get k params.
Proof.
  intros params w Hr r. unfold r. rewrite (wiki_request_unlimited params w Hr).
  cbn [fst snd]. split; [reflexivity|]. split; [reflexivity|].
  exists (request_of (globals w) params).
  split; [reflexivity|]. split; [reflexivity|]. split; [reflexivity|].
  cbn [request_of rq_params].
  split; [apply request_params_format|].
  split; [apply request_params_action|].
  intros k H1 H2. apply request_params_other; assumption.
Qed.

Lemma wiki_request_limited_run params w json rest :
  RATE_LIMIT (globals w) = true ->
  pending w = Reply (Some json) :: rest ->
  (RATE_LIMIT_LAST_CALL (globals w) = None
   \/ exists last_call wait,
        RATE_LIMIT_LAST_CALL (globals w) = Some last_call
        /\ RATE_LIMIT_MIN_WAIT (globals w) = Some wait
        /\ last_call + wait <= clock w (reads w)) ->
  let n := match RATE_LIMIT_LAST_CALL (globals w) with
           | None => reads w
           | Some _ => S (reads w)
           end in
  _wiki_request params w
  = (Ok json,
     with_globals (set_RATE_LIMIT_LAST_CALL (Some (clock w n))
                     (open_session (globals w)))
       (with_reads (S n)
          (with_remote rest (request_of (globals w) params :: sent w) w))).
Proof.
  intros Hr Hp Hc. destruct w as [g m p s c r sl h n0].
  destruct g as [? ? ? ? ? ? mw lc ? ses ?]. cbn in *. subst.
  destruct Hc as [->|(last_call & wait & -> & -> & Hle)].
  - unfold _wiki_request, open_session, request_of. destruct ses; reflexivity.
  - unfold _wiki_request, bind, get_globals, now. cbn.
    replace (last_call + wait >? c r) with false
      by (symmetry; rewrite Z.gtb_ltb; apply Z.ltb_ge; lia).
    unfold open_session, request_of. destruct ses; reflexivity.
Qed.

(** X2.  With rate limiting on, a call made when no previous call is on
    record, or when the minimum wait has elapsed since it, is sent without
    sleeping; when the remote answers, the time of the call on record
    becomes the reading of the clock taken after the answer. *)
Theorem wiki_request_records_call_time :
  forall (params : dict) (w : World) (json : value) (rest : list reply),
    RATE_LIMIT (globals w) = true ->
    pending w = Reply (Some json) :: rest ->
    (RATE_LIMIT_LAST_CALL (globals w) = None
     \/ exists last_call wait,
          RATE_LIMIT_LAST_CALL (globals w) = Some last_call
          /\ RATE_LIMIT_MIN_WAIT (globals w) = Some wait
          /\ last_call + wait <= clock w (reads w)) ->
    let r := _wiki_request params w in
    fst r = Ok json
    /\ slept (snd r) = slept w
    /\ sent (snd r) = request_of (globals w) params :: sent w
    /\ exists n, reads (snd r) = S n
                 /\ (reads w <= n)%nat
                 /\ RATE_LIMIT_LAST_CALL (globals (snd r)) = Some (clock w n).
Proof.
  intros params w json rest Hr Hp Hc r. unfold r.
  rewrite (wiki_request_limited_run params w json rest Hr Hp Hc). cbv zeta.
  cbn [fst snd]. split; [reflexivity|]. split; [reflexivity|].
  split; [reflexivity|].
  eexists. split; [reflexivity|]. split; [|reflexivity].
  destruct (RATE_LIMIT_LAST_CALL (globals w)); lia.
Qed.

(** X3.  [set_rate_limiting] forgets the previous call: whatever its
    arguments and whatever the state, the request that follows it is not
    delayed (nothing is slept) and is sent. *)
Theorem set_rate_limiting_forgets_last_call :
  forall (rate_limit : bool) (min_wait : option Z) (params : dict) (w : World),
    let r := (set_rate_limiting rate_limit min_wait ;; _wiki_request params) w in
    slept (snd r) = slept w
    /\ RATE_LIMIT (globals (snd r)) = rate_limit
    /\ RATE_LIMIT_MIN_WAIT (globals (snd r))
       = (if rate_limit then min_wait else None)
    /\ exists rq, sent (snd r) = rq :: sent w
                  /\ rq_params rq = request_params params.
Proof.
  intros rate_limit min_wait params w r. unfold r.
  destruct w as [g m p s c rd sl h n].
  destruct g as [? ? ? ? ? ? mw lc ? ses ?].
  unfold set_rate_limiting, _wiki_request, bind, get_globals, set_globals, now.
  cbn.
  destruct rate_limit; destruct ses; destruct p as [|[[j|]|e] p]; cbn;
    (split; [reflexivity|]; split; [reflexivity|]; split; [reflexivity|];
     eexists; split; reflexivity).
Qed.

(** X4.  The request that follows [set_user_agent] and [set_timeout] carries
    the new User-Agent header and the new timeout, also when a session had
    been opened under another User-Agent. *)
Theorem configuration_reaches_next_request :
  forall (user_agent : string) (timeout : option Z) (params : dict) (w : World),
    RATE_LIMIT (globals w) = false ->
    let r := (set_user_agent user_agent ;; set_timeout timeout ;;
              _wiki_request params) w in
    fst r = remote_outcome (pending w)
    /\ exists rq, sent (snd r) = rq :: sent w
                  /\ rq_user_agent rq = user_agent
                  /\ rq_timeout rq = timeout.
Proof.
  intros user_agent timeout params w Hr r. unfold r.
  destruct w as [g m p s c rd sl h n].
  destruct g as [? ? ? ? ? rl mw lc ? ses ?]. cbn in Hr. subst rl.
  unfold set_user_agent, set_timeout, reset_session, _wiki_request, bind,
    get_globals, set_globals.
  cbn.
  destruct p as [|[[j|]|e] p]; cbn;
    (split; [reflexivity|]; eexists; split; [reflexivity|]; split; reflexivity).
Qed.

(** ** Further properties: site information *)

Lemma py_eq_str s v : py_eq (VStr s) v = true <-> v = VStr s.
Proof.
  destruct v; cbn; try (split; [discriminate|discriminate]).
  rewrite String.eqb_eq. split; [intros ->; reflexivity|congruence].
Qed.

Lemma existsb_str_app s l name :
  existsb (py_eq (VStr s)) (l ++ [name])
  = existsb (py_eq (VStr s)) l || py_eq (VStr s) name.
Proof. rewrite existsb_app. cbn. rewrite orb_false_r. reflexivity. Qed.

Lemma add_extensions_spec : forall (exts : list value) (w w' : World) (l0 : list value),
  (fix add_all (l : list value) : M unit :=
     match l with
     | [] => ret tt
     | ext :: l' =>
         name <- lift (Py.item ext "name") ;;
         match name with
         | VList _ | VDict _ => raise TypeError
         | _ =>
             g <- get_globals ;;
             let installed := match INSTALLED_EXTENSIONS g with
                              | Some l => l | None => [] end in
             set_globals
               (set_INSTALLED_EXTENSIONS
                  (Some (if existsb (py_eq name) installed then installed
                         else (installed ++ [name])%list)) g) ;;
             add_all l'
         end
     end) exts w = (Ok tt, w') ->
  INSTALLED_EXTENSIONS (globals w) = Some l0 ->
  API_VERSION_MAJOR_MINOR (globals w') = API_VERSION_MAJOR_MINOR (globals w)
  /\ API_VERSION (globals w') = API_VERSION (globals w)
  /\ sent w' = sent w
  /\ exists l, INSTALLED_EXTENSIONS (globals w') = Some l
       /\ forall s, existsb (py_eq (VStr s)) l = true
                    <-> existsb (py_eq (VStr s)) l0 = true
                        \/ exists ext, In ext exts
                                       /\ Py.item ext "name" = inr (VStr s).
Proof.
  induction exts as [|ext exts IH]; intros w w' l0 H Hi.
  - apply ret_inv in H. destruct H as [_ ->].
    split; [reflexivity|]. split; [reflexivity|]. split; [reflexivity|].
    exists l0. split; [assumption|]. intros s. split; [auto|].
    intros [?|(? & [] & _)]. assumption.
  - apply bind_inv in H. destruct H as (name & w1 & Hn & H).
    apply lift_inv in Hn. destruct Hn as [Hn ->].
    set (l1 := if existsb (py_eq name) l0 then l0 else (l0 ++ [name])%list).
    assert (Hstep : exists w2,
               INSTALLED_EXTENSIONS (globals w2) = Some l1
               /\ API_VERSION_MAJOR_MINOR (globals w2)
                  = API_VERSION_MAJOR_MINOR (globals w)
               /\ API_VERSION (globals w2) = API_VERSION (globals w)
               /\ sent w2 = sent w
               /\ (fix add_all (l : list value) : M unit :=
                     match l with
                     | [] => ret tt
                     | ext :: l' =>
                         name <- lift (Py.item ext "name") ;;
                         match name with
                         | VList _ | VDict _ => raise TypeError
                         | _ =>
                             g <- get_globals ;;
                             let installed := match INSTALLED_EXTENSIONS g with
                                              | Some l => l | None => [] end in
                             set_globals
                               (set_INSTALLED_EXTENSIONS
                                  (Some (if existsb (py_eq name) installed
                                         then installed
                                         else (installed ++ [name])%list)) g) ;;
                             add_all l'
                         end
                     end) exts w2 = (Ok tt, w')).
    { destruct name; try discriminate H;
        (eexists; split; [|split; [|split; [|split; [|exact H]]]];
         cbn; rewrite ?Hi; reflexivity). }
    destruct Hstep as (w2 & Hi2 & Hv2 & Ha2 & Hs2 & H2).
    destruct (IH w2 w' l1 H2 Hi2) as (Hv & Ha & Hs & l & Hl & Hmem).
    split; [congruence|]. split; [congruence|]. split; [congruence|].
    exists l. split; [assumption|]. intros s. rewrite (Hmem s).
    assert (Hl1 : existsb (py_eq (VStr s)) l1 = true
                  <-> existsb (py_eq (VStr s)) l0 = true \/ name = VStr s).
    { unfold l1. destruct (existsb (py_eq name) l0) eqn:E.
      - split; [auto|]. intros [?| ->]; assumption.
      - rewrite existsb_str_app, orb_true_iff, py_eq_str. reflexivity. }
    rewrite Hl1. split.
    + intros [[?|Hname]|(e & He & Hd)]; [auto| |].
      * right. exists ext. split; [left; reflexivity|]. rewrite Hn, Hname. reflexivity.
      * right. exists e. split; [right; assumption|assumption].
    + intros [?|(e & [<-|He] & Hd)]; [auto| |].
      * left. right. congruence.
      * right. exists e. split; assumption.
Qed.

(** X5.  When [_get_site_info] returns, the version of the site is known,
    so that the functions which ask for the site information when it is
    missing do not ask again, and the installed extensions are exactly the
    names of the response: a name is found in [INSTALLED_EXTENSIONS] if and
    only if an entry of [response['query']['extensions']] carries it. *)
Theorem site_info_holds_every_extension :
  forall (w w' : World) (response : value) (rest : list reply)
         (listed : value) (exts : list value),
    RATE_LIMIT (globals w) = false ->
    pending w = Reply (Some response) :: rest ->
    path response ["query"; "extensions"] = inr listed ->
    Py.iter listed = inr exts ->
    _get_site_info w = (Ok tt, w') ->
    (exists version major_minor,
        API_VERSION (globals w') = Some version
        /\ API_VERSION_MAJOR_MINOR (globals w') = Some major_minor)
    /\ ensure_site_info w' = (Ok tt, w')
    /\ sent w' = request_of (globals w) [("meta", VStr "siteinfo");
                                         ("siprop", VStr "extensions|general")]
                 :: sent w
    /\ exists names,
         INSTALLED_EXTENSIONS (globals w') = Some names
         /\ forall name,
              existsb (py_eq (VStr name)) names = true
              <-> exists ext, In ext exts /\ Py.item ext "name" = inr (VStr name).
Proof.
  intros w w' response rest listed exts Hr Hp Hl Hit H.
  unfold _get_site_info in H.
  rewrite (bind_wiki_request _ _ w response rest Hr Hp) in H.
  apply bind_inv in H. destruct H as (g1 & w1 & H1 & H).
  apply lift_inv in H1. destruct H1 as [_ ->].
  apply bind_inv in H. destruct H as (g2 & w1 & H1 & H).
  apply lift_inv in H1. destruct H1 as [_ ->].
  apply bind_inv in H. destruct H as (word & w1 & H1 & H).
  apply lift_inv in H1. destruct H1 as [_ ->].
  apply bind_inv in H. destruct H as (word' & w1 & H1 & H).
  apply lift_inv in H1. destruct H1 as [_ ->].
  rewrite bind_get_globals in H. cbv beta in H.
  apply bind_inv in H. destruct H as ([] & w1 & H1 & H).
  injection H1 as <-.
  apply bind_inv in H. destruct H as (mm & w1 & H1 & H).
  apply lift_inv in H1. destruct H1 as [_ ->].
  rewrite bind_get_globals in H. cbv beta in H.
  apply bind_inv in H. destruct H as ([] & w1 & H1 & H).
  injection H1 as <-.
  rewrite bind_get_globals in H. cbv beta in H.
  apply bind_inv in H. destruct H as ([] & w1 & H1 & H).
  injection H1 as <-.
  rewrite Hl in H. rewrite bind_lift_inr in H. cbv beta in H.
  rewrite Hit in H. rewrite bind_lift_inr in H. cbv beta in H.
  apply add_extensions_spec with (l0 := []) in H; [|reflexivity].
  destruct H as (Hv & Ha & Hs & l & Hi & Hmem).
  cbn in Hv, Ha, Hs.
  split; [eauto|]. split; [|split].
  - unfold ensure_site_info. rewrite bind_get_globals, Hv. reflexivity.
  - exact Hs.
  - exists l. split; [exact Hi|]. intros name. rewrite (Hmem name). cbn [existsb].
    split; [intros [?|?]; [discriminate|assumption]|auto].
Qed.

(** ** Further properties: the module-level queries *)

Lemma cached_miss f k body w :
  memo_lookup f k (memo w) = None ->
  cached f k body w
  = match body w with
    | (Ok v, w') => (Ok v, with_memo ((f, k, v) :: memo w') w')
    | r => r
    end.
Proof. intros H. unfold cached. rewrite H. reflexivity. Qed.

Lemma ensure_site_info_known w v :
  API_VERSION_MAJOR_MINOR (globals w) = Some v ->
  ensure_site_info w = (Ok tt, w).
Proof. intros H. unfold ensure_site_info. rewrite bind_get_globals, H. reflexivity. Qed.

Lemma bind_ensure_site_info {B} (k : unit -> M B) w v :
  API_VERSION_MAJOR_MINOR (globals w) = Some v ->
  bind ensure_site_info k w = k tt w.
Proof. intros H. apply bind_ok. eapply ensure_site_info_known; eassumption. Qed.

Lemma bind_require_version_old {B} major minor required function (k : unit -> M B) w v :
  API_VERSION_MAJOR_MINOR (globals w) = Some v ->
  _cmp_major_minor v [major; minor] = true ->
  bind (require_version major minor required function) k w
  = (Raise (WikipediaAPIVersionError (API_URL (globals w)) (API_VERSION (globals w))
              required function), w).
Proof.
  intros Hv Hc. unfold require_version. rewrite bind_bind, bind_get_globals, Hv, Hc.
  reflexivity.
Qed.

Lemma bind_require_version_ok {B} major minor required function (k : unit -> M B) w v :
  API_VERSION_MAJOR_MINOR (globals w) = Some v ->
  _cmp_major_minor v [major; minor] = false ->
  bind (require_version major minor required function) k w = k tt w.
Proof.
  intros Hv Hc. unfold require_version. rewrite bind_bind, bind_get_globals, Hv, Hc.
  reflexivity.
Qed.

Lemma bind_require_extension_ok {B} ext function (k : unit -> M B) w l :
  INSTALLED_EXTENSIONS (globals w) = Some l ->
  existsb (py_eq (VStr ext)) l = true ->
  bind (require_extension ext function) k w = k tt w.
Proof.
  intros Hi He. unfold require_extension. rewrite bind_bind, bind_get_globals, Hi, He.
  reflexivity.
Qed.

Lemma bind_require_extension_missing {B} ext function (k : unit -> M B) w l :
  INSTALLED_EXTENSIONS (globals w) = Some l ->
  existsb (py_eq (VStr ext)) l = false ->
  bind (require_extension ext function) k w
  = (Raise (WikipediaExtensionError (API_URL (globals w)) ext function), w).
Proof.
  intros Hi He. unfold require_extension. rewrite bind_bind, bind_get_globals, Hi, He.
  reflexivity.
Qed.

(** X6.  On a site older than the version a query function asks for, the
    function raises [WikipediaAPIVersionError] with the URL and the version
    of the site before it looks at its argument: nothing is sent and the
    state is as it was.  [prefexsearch] reports itself as
    ["prefixsearch"]. *)
Theorem old_site_is_refused_before_any_request :
  forall (f : query_fn) (argument : value) (w : World) (v : list Z),
    API_VERSION_MAJOR_MINOR (globals w) = Some v ->
    _cmp_major_minor v (minimum_version f) = true ->
    unseen f ([argument], []) w ->
    run_query f ([argument], []) w
    = (Raise (WikipediaAPIVersionError (API_URL (globals w)) (API_VERSION (globals w))
                (version_label f) (function_label f)), w).
Proof.
  intros f argument w v Hv Hc Hu.
  destruct f; cbn [run_query]; unfold unseen in Hu; cbn [cache_of] in Hu;
    cbn [minimum_version] in Hc;
    [ unfold search | unfold suggest | unfold prefexsearch | unfold categorymembers
    | unfold opensearch | unfold random ];
    rewrite ?(cached_miss _ _ _ _ Hu);
    cbn [bind_params bind_positional forallb existsb fst snd Dict.has Dict.get];
    rewrite bind_lift_inr; cbv beta;
    rewrite (bind_ensure_site_info _ _ _ Hv);
    rewrite (bind_require_version_old _ _ _ _ _ _ _ Hv Hc); reflexivity.
Qed.

(** X7.  A query function given a blank argument (a query that is [None],
    empty or made of white space; for [random] a number of pages that is
    [None] or below 1) raises [ValueError] on a site that passes its checks:
    nothing is sent and the state is as it was. *)
Theorem blank_query_is_refused_before_any_request :
  forall (f : query_fn) (argument : value) (w : World),
    supported f (globals w) ->
    rejected f argument ->
    unseen f ([argument], []) w ->
    run_query f ([argument], []) w = (Raise (ValueError (rejection f)), w).
Proof.
  intros f argument w [(v & Hv & Hc) He] Hb Hu.
  destruct f; cbn [run_query]; unfold unseen in Hu; cbn [cache_of] in Hu;
    cbn [minimum_version] in Hc; cbn [rejected] in Hb;
    [ unfold search | unfold suggest | unfold prefexsearch | unfold categorymembers
    | unfold opensearch | unfold random ];
    rewrite ?(cached_miss _ _ _ _ Hu);
    cbn [bind_params bind_positional forallb existsb fst snd Dict.has Dict.get];
    rewrite bind_lift_inr; cbv beta;
    rewrite (bind_ensure_site_info _ _ _ Hv);
    rewrite (bind_require_version_ok _ _ _ _ _ _ _ Hv Hc).
  1-4: cbn [nth]; rewrite Hb, bind_lift_inr; reflexivity.
  - destruct (He eq_refl) as (l & Hl & Hin).
    rewrite (bind_require_extension_ok _ _ _ _ _ Hl Hin).
    cbn [nth]. rewrite Hb, bind_lift_inr. reflexivity.
  - cbn [nth]. destruct Hb as [->|Hb].
    + rewrite bind_ret. reflexivity.
    + destruct argument; try discriminate Hb; rewrite Hb, bind_lift_inr; reflexivity.
Qed.

Lemma cached_miss_ok f k body w v w' :
  memo_lookup f k (memo w) = None ->
  body w = (Ok v, w') ->
  cached f k body w = (Ok v, with_memo ((f, k, v) :: memo w') w').
Proof. intros H Hb. rewrite (cached_miss _ _ _ _ H), Hb. reflexivity. Qed.

Lemma cached_miss_raise f k body w e w' :
  memo_lookup f k (memo w) = None ->
  body w = (Raise e, w') ->
  cached f k body w = (Raise e, w').
Proof. intros H Hb. rewrite (cached_miss _ _ _ _ H), Hb. reflexivity. Qed.

Lemma supported_version f g :
  supported f g ->
  exists v, API_VERSION_MAJOR_MINOR g = Some v
            /\ _cmp_major_minor v (minimum_version f) = false.
Proof. intros [H _]. exact H. Qed.

(** The head of a query function on a site that passes its version test and
    with an argument that passes its blank test. *)
Ltac enter_query Hs Hb :=
  let v := fresh "v" in
  let Hv := fresh "Hv" in
  let Hc := fresh "Hc" in
  destruct (supported_version _ _ Hs) as (v & Hv & Hc);
  cbn [minimum_version] in Hc;
  rewrite (bind_ensure_site_info _ _ _ Hv);
  rewrite (bind_require_version_ok _ _ _ _ _ _ _ Hv Hc);
  rewrite ?Hb, ?bind_lift_inr; cbv beta iota.

Lemma dict_set_new k v d : Dict.has k d = false -> Dict.set k v d = (d ++ [(k, v)])%list.
Proof.
  unfold Dict.has. induction d as [|[k' v'] d IH]; cbn; [reflexivity|].
  destruct (String.eqb k k'); [discriminate|]. intros H. rewrite (IH H). reflexivity.
Qed.

Lemma search_run :
  forall (call : call_key) (query results suggestion : value) (w : World)
         (rd q : dict) (rest : list reply) (listed : value)
         (found titles : list value) (s : value),
    bind_params [("query", None); ("results", Some (VInt 10));
                 ("suggestion", Some (VBool false))] call
    = inr [query; results; suggestion] ->
    supported QSearch (globals w) ->
    RATE_LIMIT (globals w) = false ->
    memo_lookup Fsearch call (memo w) = None ->
    blank query = inr false ->
    pending w = Reply (Some (VDict rd)) :: rest ->
    Dict.has "error" rd = false ->
    Dict.get "query" rd = Some (VDict q) ->
    Dict.get "search" q = Some listed ->
    Py.iter listed = inr found ->
    titles_of found = inr titles ->
    (truthy suggestion = true -> suggested q s) ->
    let v := if truthy suggestion then VTuple [VList titles; s] else VList titles in
    let w1 := answered (search_params query results suggestion) w in
    search call w = (Ok v, with_memo ((Fsearch, call, v) :: memo w1) w1).
Proof.
  intros call query results suggestion w rd q rest listed found titles s
         Hcall Hs Hr Hu Hb Hp He Hq Hl Hi Ht Hsug v w1.
  assert (Hparams : (if truthy suggestion
                     then Dict.set "srinfo" (VStr "suggestion")
                            [("list", VStr "search"); ("srprop", VStr EmptyString);
                             ("srlimit", results); ("srsearch", query)]
                     else [("list", VStr "search"); ("srprop", VStr EmptyString);
                           ("srlimit", results); ("srsearch", query)])
                    = search_params query results suggestion).
  { unfold search_params. destruct (truthy suggestion); reflexivity. }
  unfold search. eapply cached_miss_ok; [exact Hu|].
  rewrite Hcall, bind_lift_inr. cbv beta. cbn [nth].
  enter_query Hs Hb. rewrite Hparams.
  rewrite (bind_wiki_request _ _ w (VDict rd) rest Hr Hp).
  unfold check_error. cbn [path Py.item Py.contains Py.get and_then].
  rewrite He, Hq. cbn [and_then Py.item]. rewrite Hl. cbn [and_then].
  run. rewrite Hi. run. rewrite Ht. unfold v.
  destruct (truthy suggestion) eqn:Et.
  - run. cbn [Py.get]. run.
    specialize (Hsug eq_refl). unfold suggested in Hsug. cbv zeta in Hsug.
    destruct (truthy match Dict.get "searchinfo" q with
                     | Some x => x | None => VNone end) eqn:Esi.
    + run.
      destruct (Dict.get "searchinfo" q) as [si|] eqn:Eg; [|discriminate Esi].
      cbn [and_then]. rewrite Hsug. run. reflexivity.
    + run. rewrite Hsug. reflexivity.
  - run. reflexivity.
Qed.

(** X8.  [search] returns the titles of the entries of
    [raw_results['query']['search']], in the order of the response; when a
    suggestion is asked for it returns them in a pair with the suggestion of
    the response, or with [None] when the response has none.  One request is
    sent, with [srinfo] only when a suggestion is asked for. *)
Theorem search_returns_titles_in_order :
  forall (query results suggestion : value) (w : World) (rd q : dict)
         (rest : list reply) (listed : value) (found titles : list value)
         (s : value),
    supported QSearch (globals w) ->
    RATE_LIMIT (globals w) = false ->
    unseen QSearch ([query; results; suggestion], []) w ->
    blank query = inr false ->
    pending w = Reply (Some (VDict rd)) :: rest ->
    Dict.has "error" rd = false ->
    Dict.get "query" rd = Some (VDict q) ->
    Dict.get "search" q = Some listed ->
    Py.iter listed = inr found ->
    titles_of found = inr titles ->
    (truthy suggestion = true -> suggested q s) ->
    exists w',
      search ([query; results; suggestion], []) w
      = (Ok (if truthy suggestion then VTuple [VList titles; s] else VList titles), w')
      /\ sent w' = request_of (globals w) (search_params query results suggestion)
                   :: sent w
      /\ pending w' = rest.
Proof.
  intros query results suggestion w rd q rest listed found titles s
         Hs Hr Hu Hb Hp He Hq Hl Hi Ht Hsug.
  eexists. split; [|split].
  - apply (search_run ([query; results; suggestion], []) query results suggestion
             w rd q rest listed found titles s eq_refl Hs Hr Hu Hb Hp He Hq Hl Hi
             Ht Hsug).
  - cbn [sent with_memo]. rewrite answered_sent. reflexivity.
  - cbn [pending with_memo]. rewrite answered_pending, Hp. reflexivity.
Qed.

(** X9.  When the response of [search] carries an [error], the function
    raises [HTTPTimeoutError] for the query if the [info] of the error is one
    of the two timeout messages, and [WikipediaException] with that [info]
    otherwise. *)
Theorem search_error_response :
  forall (query results suggestion : value) (w : World) (rd : dict)
         (rest : list reply) (err info : value),
    supported QSearch (globals w) ->
    RATE_LIMIT (globals w) = false ->
    unseen QSearch ([query; results; suggestion], []) w ->
    blank query = inr false ->
    pending w = Reply (Some (VDict rd)) :: rest ->
    Dict.get "error" rd = Some err ->
    Py.item err "info" = inr info ->
    search ([query; results; suggestion], []) w
    = (Raise (if timed_out info then HTTPTimeoutError query
              else WikipediaException info),
       answered (search_params query results suggestion) w).
Proof.
  intros query results suggestion w rd rest err info Hs Hr Hu Hb Hp He Hi.
  unfold unseen in Hu. cbn [cache_of] in Hu.
  assert (Hparams : (if truthy suggestion
                     then Dict.set "srinfo" (VStr "suggestion")
                            [("list", VStr "search"); ("srprop", VStr EmptyString);
                             ("srlimit", results); ("srsearch", query)]
                     else [("list", VStr "search"); ("srprop", VStr EmptyString);
                           ("srlimit", results); ("srsearch", query)])
                    = search_params query results suggestion).
  { unfold search_params. destruct (truthy suggestion); reflexivity. }
  unfold search. eapply cached_miss_raise; [exact Hu|].
  cbn [bind_params bind_positional forallb existsb fst snd Dict.has Dict.get].
  rewrite bind_lift_inr. cbv beta. cbn [nth].
  enter_query Hs Hb.
  rewrite Hparams.
  rewrite (bind_wiki_request _ _ w (VDict rd) rest Hr Hp).
  unfold check_error. cbn [path Py.item Py.contains and_then]. unfold Dict.has.
  rewrite He. cbn [and_then]. rewrite Hi. cbn [and_then]. run. unfold timed_out.
  destruct (py_eq info (VStr "HTTP request timed out.")
            || py_eq info (VStr "Pool queue is full")); reflexivity.
Qed.

(** X10.  When the response of [categorymembers] carries an [error] whose
    [info] is one of the two timeout messages, the function raises
    [NameError]: the [HTTPTimeoutError] it builds names [query], which the
    function does not bind.  Any other [info] raises [WikipediaException]
    with it. *)
Theorem categorymembers_timeout_raises_name_error :
  forall (category : string) (results subcategories : value) (w : World)
         (rd : dict) (rest : list reply) (err info : value),
    supported QCategorymembers (globals w) ->
    RATE_LIMIT (globals w) = false ->
    unseen QCategorymembers ([VStr category; results; subcategories], []) w ->
    blank (VStr category) = inr false ->
    pending w = Reply (Some (VDict rd)) :: rest ->
    Dict.get "error" rd = Some err ->
    Py.item err "info" = inr info ->
    categorymembers ([VStr category; results; subcategories], []) w
    = (Raise (if timed_out info then NameError "query"
              else WikipediaException info),
       answered (members_params category results subcategories) w).
Proof.
  intros category results subcategories w rd rest err info Hs Hr Hu Hb Hp He Hi.
  unfold unseen in Hu. cbn [cache_of] in Hu.
  unfold categorymembers. eapply cached_miss_raise; [exact Hu|].
  cbn [bind_params bind_positional forallb existsb fst snd Dict.has Dict.get].
  rewrite bind_lift_inr. cbv beta. cbn [nth].
  enter_query Hs Hb.
  cbn [Py.str_method]. run.
  fold (members_params category results subcategories).
  rewrite (bind_wiki_request _ _ w (VDict rd) rest Hr Hp).
  unfold check_error. cbn [path Py.item Py.contains and_then]. unfold Dict.has.
  rewrite He. cbn [and_then]. rewrite Hi. cbn [and_then]. run. unfold timed_out.
  destruct (py_eq info (VStr "HTTP request timed out.")
            || py_eq info (VStr "Pool queue is full")); reflexivity.
Qed.

Lemma split_members_spec : forall (members : list value) (l : list (string * string))
                                  (pages subcats : list value),
  Forall2 member_entry members l ->
  split_members members pages subcats
  = inr ((pages ++ member_pages l)%list, (subcats ++ member_subcategories l)%list).
Proof.
  intros members l pages subcats H. revert pages subcats.
  induction H as [|d m members l [Hty Hti] _ IH]; intros pages subcats.
  - cbn. rewrite !app_nil_r. reflexivity.
  - cbn [split_members]. rewrite Hty. cbn [and_then py_eq as_number].
    unfold member_pages, member_subcategories. cbn [filter].
    destruct (String.eqb (fst m) "page") eqn:Ep.
    + rewrite Hti. cbn [and_then]. rewrite IH.
      assert (Es : String.eqb (fst m) "subcat" = false).
      { apply String.eqb_eq in Ep. rewrite Ep. reflexivity. }
      rewrite Es. cbn [map]. unfold member_pages, member_subcategories.
      rewrite <- app_assoc. reflexivity.
    + destruct (String.eqb (fst m) "subcat") eqn:Es.
      * rewrite Hti. cbn [and_then Py.str_method]. rewrite IH.
        cbn [map]. unfold member_pages, member_subcategories.
        rewrite <- app_assoc. reflexivity.
      * apply IH.
Qed.

(** X11.  [categorymembers] sorts the members of the response by their
    type: the titles of the pages, and the titles of the sub-categories
    without a leading ["Category:"], each in the order of the response;
    members of any other type are left out.  With [subcategories] false only
    pages are asked for and only the list of pages is returned. *)
Theorem categorymembers_sorts_members_by_type :
  forall (category : string) (results subcategories : value) (w : World)
         (rd q : dict) (rest : list reply) (listed : value)
         (members : list value) (l : list (string * string)),
    supported QCategorymembers (globals w) ->
    RATE_LIMIT (globals w) = false ->
    unseen QCategorymembers ([VStr category; results; subcategories], []) w ->
    blank (VStr category) = inr false ->
    pending w = Reply (Some (VDict rd)) :: rest ->
    Dict.has "error" rd = false ->
    Dict.get "query" rd = Some (VDict q) ->
    Dict.get "categorymembers" q = Some listed ->
    Py.iter listed = inr members ->
    Forall2 member_entry members l ->
    exists w',
      categorymembers ([VStr category; results; subcategories], []) w
      = (Ok (if truthy subcategories
             then VTuple [VList (member_pages l); VList (member_subcategories l)]
             else VList (member_pages l)), w')
      /\ sent w' = request_of (globals w)
                     (members_params category results subcategories) :: sent w
      /\ pending w' = rest.
Proof.
  intros category results subcategories w rd q rest listed members l
         Hs Hr Hu Hb Hp He Hq Hl Hi Hm.
  unfold unseen in Hu. cbn [cache_of] in Hu.
  eexists. split; [|split].
  - unfold categorymembers. eapply cached_miss_ok; [exact Hu|].
    cbn [bind_params bind_positional forallb existsb fst snd Dict.has Dict.get].
    rewrite bind_lift_inr. cbv beta. cbn [nth].
    enter_query Hs Hb.
    cbn [Py.str_method]. run.
    fold (members_params category results subcategories).
    rewrite (bind_wiki_request _ _ w (VDict rd) rest Hr Hp).
    unfold check_error. cbn [path Py.item Py.contains and_then].
    rewrite He, Hq. cbn [and_then Py.item]. rewrite Hl. cbn [and_then].
    run. rewrite Hi. run.
    rewrite (split_members_spec members l [] [] Hm). run. cbn [fst snd app].
    destruct (truthy subcategories); reflexivity.
  - cbn [sent with_memo]. rewrite answered_sent. reflexivity.
  - cbn [pending with_memo]. rewrite answered_pending, Hp. reflexivity.
Qed.

Lemma stateless_ret {A} (a : A) : stateless (ret a).
Proof. intros w. reflexivity. Qed.

Lemma stateless_raise {A} (e : exn) : stateless (@raise A e).
Proof. intros w. reflexivity. Qed.

Lemma stateless_lift {A} (r : exn + A) : stateless (lift r).
Proof. intros w. destruct r; reflexivity. Qed.

Lemma stateless_bind {A B} (m : M A) (k : A -> M B) :
  stateless m -> (forall a, stateless (k a)) -> stateless (bind m k).
Proof.
  intros Hm Hk w. unfold bind. specialize (Hm w).
  destruct (m w) as [[a|e|] w1]; cbn in Hm; subst w1; [apply Hk|reflexivity|reflexivity].
Qed.

Lemma stateless_attr self name : stateless (attr self name).
Proof.
  intros w. unfold attr. rewrite bind_attrs.
  destruct (Dict.get name (heap w self)); reflexivity.
Qed.

Lemma stateless_page_of self request : stateless (page_of self request).
Proof.
  unfold page_of. apply stateless_bind; [apply stateless_lift|intros].
  apply stateless_bind; [apply stateless_attr|intros]. apply stateless_lift.
Qed.

Ltac stateless_step :=
  first [ apply stateless_ret | apply stateless_raise | apply stateless_lift
        | apply stateless_attr | apply stateless_page_of
        | apply stateless_bind; [|intros]
        | match goal with
          | |- stateless (if ?b then _ else _) => destruct b
          | |- stateless (match ?x with _ => _ end) => destruct x
          end ].

Lemma request_then_stateless {B} params (k : value -> M B) w :
  RATE_LIMIT (globals w) = false ->
  (forall json, stateless (k json)) ->
  snd (bind (_wiki_request params) k w)
  = with_remote (tl (pending w)) (request_of (globals w) params :: sent w)
                (with_globals (open_session (globals w)) w).
Proof.
  intros Hr Hk. unfold bind. rewrite (wiki_request_unlimited params w Hr).
  destruct (remote_outcome (pending w)); [apply Hk|reflexivity|reflexivity].
Qed.

Lemma cached_miss_sent f k body w :
  memo_lookup f k (memo w) = None ->
  sent (snd (cached f k body w)) = sent (snd (body w)).
Proof.
  intros H. rewrite (cached_miss _ _ _ _ H).
  destruct (body w) as [[v|e|] w1]; reflexivity.
Qed.

Lemma greater_than_int n m : greater_than (VInt n) m = inr (m <? n).
Proof. reflexivity. Qed.

Lemma cap_100 n : (if 100 <? n then VInt 100 else VInt n) = VInt (Z.min n 100).
Proof. destruct (Z.ltb_spec 100 n); f_equal; lia. Qed.

(** X12.  [prefexsearch] and [opensearch] never ask for more than 100
    results: whatever number the caller gives, the request carries the
    smaller of that number and 100 as its limit. *)
Theorem result_limit_is_capped_at_100 :
  forall (f : query_fn) (query : value) (n : Z) (w : World),
    f = QPrefexsearch \/ f = QOpensearch ->
    supported f (globals w) ->
    RATE_LIMIT (globals w) = false ->
    unseen f ([query; VInt n], []) w ->
    blank query = inr false ->
    exists rq,
      sent (snd (run_query f ([query; VInt n], []) w)) = rq :: sent w
      /\ Dict.get (limit_key f) (rq_params rq) = Some (VInt (Z.min n 100)).
Proof.
  intros f query n w Hf Hs Hr Hu Hb. unfold unseen in Hu.
  destruct Hf as [-> | ->]; cbn [cache_of run_query limit_key] in *.
  - unfold prefexsearch. rewrite (cached_miss_sent _ _ _ _ Hu).
    cbn [bind_params bind_positional forallb existsb fst snd Dict.has Dict.get].
    rewrite bind_lift_inr. cbv beta. cbn [nth].
    enter_query Hs Hb. rewrite greater_than_int, bind_lift_inr. cbv beta.
    rewrite request_then_stateless; [|assumption|intros; repeat stateless_step].
    eexists. split; [reflexivity|].
    cbn [request_of rq_params]. rewrite request_params_other by discriminate.
    cbn. rewrite cap_100. reflexivity.
  - unfold opensearch. rewrite (cached_miss_sent _ _ _ _ Hu).
    cbn [bind_params bind_positional forallb existsb fst snd Dict.has Dict.get].
    rewrite bind_lift_inr. cbv beta. cbn [nth].
    destruct Hs as [Hs He]. destruct (He eq_refl) as (l & Hl & Hin).
    pose proof (conj Hs He : supported QOpensearch (globals w)) as Hs'.
    enter_query Hs' Hb.
    rewrite (bind_require_extension_ok _ _ _ _ _ Hl Hin).
    rewrite ?Hb, ?bind_lift_inr. cbv beta iota.
    rewrite greater_than_int, bind_lift_inr. cbv beta.
    rewrite request_then_stateless; [|assumption|intros; repeat stateless_step].
    eexists. split; [reflexivity|].
    cbn [request_of rq_params]. rewrite request_params_other by discriminate.
    cbn. rewrite cap_100. reflexivity.
Qed.

(** X13.  The request of [get_summary] names the page by its title and
    carries exactly one of three parameters: [exsentences], at most 10, when
    [sentences] is not 0; else [exchars], at least 1, when [chars] is not 0;
    else [exintro]. *)
Theorem get_summary_parameters :
  forall (self : addr) (sentences chars : Z) (w : World) (l : list value)
         (title : value),
    RATE_LIMIT (globals w) = false ->
    INSTALLED_EXTENSIONS (globals w) = Some l ->
    existsb (py_eq (VStr "TextExtracts")) l = true ->
    Dict.get "title" (heap w self) = Some title ->
    exists rq,
      sent (snd (get_summary self sentences chars w)) = rq :: sent w
      /\ Dict.get "prop" (rq_params rq) = Some (VStr "extracts")
      /\ Dict.get "titles" (rq_params rq) = Some title
      /\ Dict.get "exsentences" (rq_params rq)
         = (if sentences =? 0 then None else Some (VInt (Z.min sentences 10)))
      /\ Dict.get "exchars" (rq_params rq)
         = (if negb (sentences =? 0) || (chars =? 0) then None
            else Some (VInt (Z.max chars 1)))
      /\ Dict.get "exintro" (rq_params rq)
         = (if (sentences =? 0) && (chars =? 0) then Some (VStr EmptyString)
            else None).
Proof.
  intros self sentences chars w l title Hr Hl Hin Ht.
  unfold get_summary.
  rewrite (bind_require_extension_ok _ _ _ _ _ Hl Hin).
  unfold attr at 1. run. rewrite Ht. run.
  rewrite request_then_stateless; [|assumption|intros; repeat stateless_step].
  eexists. split; [reflexivity|].
  cbn [request_of rq_params]. rewrite !request_params_other by discriminate.
  destruct (sentences =? 0) eqn:Es; cbn [negb orb andb].
  - destruct (chars =? 0) eqn:Ec; cbn [negb].
    + repeat split; reflexivity.
    + repeat split; try reflexivity. cbn.
      destruct (Z.ltb_spec chars 1); do 2 f_equal; lia.
  - repeat split; try reflexivity. cbn.
    destruct (Z.ltb_spec 10 sentences); do 2 f_equal; lia.
Qed.

(** X14.  [random] returns a bare title exactly when the response holds one
    title, whatever number of pages was asked for, and the list of titles
    otherwise (the empty list when the response holds none). *)
Theorem random_returns_one_title_bare :
  forall (n : Z) (w : World) (rd q : dict) (rest : list reply) (listed : value)
         (found titles : list value),
    supported QRandom (globals w) ->
    RATE_LIMIT (globals w) = false ->
    1 <= n ->
    pending w = Reply (Some (VDict rd)) :: rest ->
    Dict.get "query" rd = Some (VDict q) ->
    Dict.get "random" q = Some listed ->
    Py.iter listed = inr found ->
    titles_of found = inr titles ->
    random ([VInt n], []) w
    = (Ok (match titles with [title] => title | _ => VList titles end),
       answered [("list", VStr "random"); ("rnnamespace", VInt 0);
                 ("rnlimit", VInt n)] w).
Proof.
  intros n w rd q rest listed found titles Hs Hr Hn Hp Hq Hl Hi Ht.
  unfold random.
  cbn [bind_params bind_positional forallb existsb fst snd Dict.has Dict.get].
  rewrite bind_lift_inr. cbv beta. cbn [nth].
  enter_query Hs Hs. cbn [less_than].
  replace (n <? 1) with false by (symmetry; apply Z.ltb_ge; lia).
  run.
  rewrite (bind_wiki_request _ _ w (VDict rd) rest Hr Hp).
  cbn [path Py.item and_then]. rewrite Hq. cbn [and_then Py.item]. rewrite Hl.
  cbn [and_then]. run. rewrite Hi. run. rewrite Ht. run.
  destruct titles as [|t [|t' ts]]; reflexivity.
Qed.

(** X15.  [opensearch] needs the OpenSearch extension also on a site at
    version 1.25 or later: without it the function raises
    [WikipediaExtensionError] whatever its argument, and nothing is sent. *)
Theorem opensearch_needs_the_extension :
  forall (argument : value) (w : World) (v : list Z) (l : list value),
    API_VERSION_MAJOR_MINOR (globals w) = Some v ->
    _cmp_major_minor v [1; 25] = false ->
    INSTALLED_EXTENSIONS (globals w) = Some l ->
    existsb (py_eq (VStr "OpenSearch")) l = false ->
    unseen QOpensearch ([argument], []) w ->
    opensearch ([argument], []) w
    = (Raise (WikipediaExtensionError (API_URL (globals w)) "OpenSearch"
                "opensearch"), w).
Proof.
  intros argument w v l Hv Hc Hl Hin Hu. unfold unseen in Hu. cbn [cache_of] in Hu.
  unfold opensearch. eapply cached_miss_raise; [exact Hu|].
  cbn [bind_params bind_positional forallb existsb fst snd Dict.has Dict.get].
  rewrite bind_lift_inr. cbv beta.
  rewrite (bind_ensure_site_info _ _ _ Hv).
  rewrite (bind_require_version_ok _ _ _ _ _ _ _ Hv Hc).
  rewrite (bind_require_extension_missing _ _ _ _ _ Hl Hin). reflexivity.
Qed.

Lemma skipn_nth_error {A} (l : list A) : forall a x,
  nth_error l a = Some x -> skipn a l = x :: skipn (S a) l.
Proof.
  induction l as [|y l IH]; intros [|a] x H; cbn in *; try discriminate.
  - injection H as ->. reflexivity.
  - apply IH. assumption.
Qed.

Lemma nth_error_in_range {A} (l : list A) a :
  (a < List.length l)%nat -> exists x, nth_error l a = Some x.
Proof.
  intros H. destruct (nth_error l a) eqn:E; [eauto|].
  apply nth_error_None in E. lia.
Qed.

Section Rows.
Variables (raw ts ds us : list value).
Hypothesis (H1 : nth_error raw 1 = Some (VList ts)).
Hypothesis (H2 : nth_error raw 2 = Some (VList ds)).
Hypothesis (H3 : nth_error raw 3 = Some (VList us)).

Lemma row_at i :
  opensearch_row (VList raw) i = match nth_error ts i, nth_error ds i, nth_error us i with
          | Some x, Some y, Some z => inr (VTuple [x; y; z])
          | _, _, _ => inl IndexError
          end.
Proof.
  unfold opensearch_row. cbn [Py.item_at]. rewrite H1, H2, H3. cbn [and_then Py.item_at].
  destruct (nth_error ts i); cbn [and_then]; [|reflexivity].
  destruct (nth_error ds i); cbn [and_then]; [|reflexivity].
  destruct (nth_error us i); reflexivity.
Qed.

Lemma rows_complete : forall k a,
  (a + k = List.length ts)%nat ->
  (List.length ts <= List.length ds)%nat ->
  (List.length ts <= List.length us)%nat ->
  map_e (opensearch_row (VList raw)) (seq a k)
  = inr (opensearch_rows (skipn a ts) (skipn a ds) (skipn a us)).
Proof.
  induction k as [|k IH]; intros a Ha Hd Hu.
  - cbn. rewrite (skipn_all2 ts) by lia. reflexivity.
  - cbn [seq map_e]. rewrite row_at.
    destruct (nth_error_in_range ts a ltac:(lia)) as [x Hx].
    destruct (nth_error_in_range ds a ltac:(lia)) as [y Hy].
    destruct (nth_error_in_range us a ltac:(lia)) as [z Hz].
    rewrite Hx, Hy, Hz. rewrite (IH (S a)) by lia.
    rewrite (skipn_nth_error ts a x Hx), (skipn_nth_error ds a y Hy),
      (skipn_nth_error us a z Hz).
    reflexivity.
Qed.

Lemma rows_short : forall k a,
  (a + k = List.length ts)%nat ->
  (List.length ds < List.length ts \/ List.length us < List.length ts)%nat ->
  (a <= List.length ds)%nat -> (a <= List.length us)%nat ->
  map_e (opensearch_row (VList raw)) (seq a k) = inl IndexError.
Proof.
  induction k as [|k IH]; intros a Ha Hs Hd Hu.
  - lia.
  - cbn [seq map_e]. rewrite row_at.
    destruct (nth_error_in_range ts a ltac:(lia)) as [x Hx]. rewrite Hx.
    destruct (nth_error ds a) as [y|] eqn:Hy; [|reflexivity].
    destruct (nth_error us a) as [z|] eqn:Hz; [|reflexivity].
    assert (a < List.length ds)%nat by (apply nth_error_Some; congruence).
    assert (a < List.length us)%nat by (apply nth_error_Some; congruence).
    rewrite (IH (S a)) by lia. reflexivity.
Qed.
End Rows.

(** X16.  [opensearch] returns one row [(title, description, url)] for each
    title of the response, in order, when the lists of descriptions and of
    URLs are at least as long as the list of titles, and raises [IndexError]
    when one of them is shorter.  When the response list itself holds the
    string ["error"], as it does when it echoes the query [error], the
    function raises [TypeError]. *)
Theorem opensearch_rows_of_the_response :
  forall (query results redirect : value) (w : World) (raw : list value)
         (rest : list reply) (ts ds us : list value) (over : bool),
    supported QOpensearch (globals w) ->
    RATE_LIMIT (globals w) = false ->
    unseen QOpensearch ([query; results; redirect], []) w ->
    blank query = inr false ->
    greater_than results 100 = inr over ->
    pending w = Reply (Some (VList raw)) :: rest ->
    nth_error raw 1 = Some (VList ts) ->
    nth_error raw 2 = Some (VList ds) ->
    nth_error raw 3 = Some (VList us) ->
    fst (opensearch ([query; results; redirect], []) w)
    = (if existsb (py_eq (VStr "error")) raw then Raise TypeError
       else if (List.length ts <=? List.length ds)%nat
               && (List.length ts <=? List.length us)%nat
            then Ok (VList (opensearch_rows ts ds us))
            else Raise IndexError).
Proof.
  intros query results redirect w raw rest ts ds us over
         Hs Hr Hu Hb Hg Hp H1 H2 H3.
  unfold unseen in Hu. cbn [cache_of] in Hu.
  unfold opensearch. rewrite (cached_miss _ _ _ _ Hu).
  cbn [bind_params bind_positional forallb existsb fst snd Dict.has Dict.get].
  rewrite bind_lift_inr. cbv beta. cbn [nth].
  destruct Hs as [Hs He]. destruct (He eq_refl) as (l & Hl & Hin).
  pose proof (conj Hs He : supported QOpensearch (globals w)) as Hs'.
  enter_query Hs' Hb.
  rewrite (bind_require_extension_ok _ _ _ _ _ Hl Hin).
  rewrite ?Hb, ?bind_lift_inr. cbv beta iota.
  rewrite Hg, bind_lift_inr. cbv beta.
  rewrite (bind_wiki_request _ _ w (VList raw) rest Hr Hp).
  cbn [Py.contains]. run.
  destruct (existsb (py_eq (VStr "error")) raw).
  - reflexivity.
  - assert (Hit : Py.item_at (VList raw) 1 = inr (VList ts))
      by (cbn [Py.item_at]; rewrite H1; reflexivity).
    rewrite Hit at 1. run. cbn [Py.len]. run.
    match goal with
    | |- context [map_e ?f (seq 0 (List.length ts))] =>
        change f with (opensearch_row (VList raw))
    end.
    destruct ((List.length ts <=? List.length ds)%nat
              && (List.length ts <=? List.length us)%nat) eqn:E.
    + apply andb_true_iff in E. destruct E as [E1 E2].
      apply Nat.leb_le in E1, E2.
      rewrite (rows_complete raw ts ds us H1 H2 H3 (List.length ts) 0 eq_refl E1 E2).
      reflexivity.
    + rewrite (rows_short raw ts ds us H1 H2 H3 (List.length ts) 0 eq_refl);
        [reflexivity| |lia|lia].
      apply andb_false_iff in E. destruct E as [E|E]; apply Nat.leb_gt in E; lia.
Qed.

(** ** Further properties: resolving a page *)

Lemma blank_false_truthy title : blank title = inr false -> truthy title = true.
Proof.
  destruct title; cbn; try discriminate. intros H. injection H as H.
  destruct s; [discriminate H|reflexivity].
Qed.

Section Resolve.
Context {X : Externals}.

Lemma page_search_run :
  forall (title : value) (w : World) (rd q : dict) (rest : list reply)
         (listed : value) (found titles : list value) (s : value),
    supported QSearch (globals w) ->
    RATE_LIMIT (globals w) = false ->
    memo_lookup Fsearch (suggest_call title) (memo w) = None ->
    blank title = inr false ->
    pending w = Reply (Some (VDict rd)) :: rest ->
    Dict.has "error" rd = false ->
    Dict.get "query" rd = Some (VDict q) ->
    Dict.get "search" q = Some listed ->
    Py.iter listed = inr found ->
    titles_of found = inr titles ->
    suggested q s ->
    let w0 := answered (search_params title (VInt 1) (VBool true)) w in
    search (suggest_call title) w
    = (Ok (VTuple [VList titles; s]),
       with_memo ((Fsearch, suggest_call title, VTuple [VList titles; s]) :: memo w0)
                 w0).
Proof.
  intros title w rd q rest listed found titles s Hs Hr Hu Hb Hp He Hq Hl Hi Ht Hsug.
  exact (search_run (suggest_call title) title (VInt 1) (VBool true) w rd q rest
           listed found titles s eq_refl Hs Hr Hu Hb Hp He Hq Hl Hi Ht
           (fun _ => Hsug)).
Qed.

(** X17.  [page(title)] with [auto_suggest] goes on with the suggestion of
    the search when there is one, else with the first title found, not with
    the title as given: the page-info request that follows the search asks
    for that title, and when it is answered by a plain page the object
    returned carries the pageid, the title and the URL of the response. *)
Theorem page_loads_the_suggested_title :
  forall (fuel : nat) (title pageid : value) (w : World) (rd q : dict)
         (response : value) (rest : list reply) (listed : value)
         (found titles : list value) (s chosen : value)
         (query : dict) (pid : string) (page_entry : dict)
         (page_title url : value),
    supported QSearch (globals w) ->
    RATE_LIMIT (globals w) = false ->
    memo_lookup Fsearch (suggest_call title) (memo w) = None ->
    blank title = inr false ->
    pending w = Reply (Some (VDict rd)) :: Reply (Some response) :: rest ->
    Dict.has "error" rd = false ->
    Dict.get "query" rd = Some (VDict q) ->
    Dict.get "search" q = Some listed ->
    Py.iter listed = inr found ->
    titles_of found = inr titles ->
    suggested q s ->
    chosen_title titles s = Some chosen ->
    chosen <> VNone ->
    page_info response query pid page_entry ->
    Dict.has "missing" page_entry = false ->
    Dict.has "redirects" query = false ->
    Dict.has "pageprops" page_entry = false ->
    Dict.get "title" page_entry = Some page_title ->
    Dict.get "fullurl" page_entry = Some url ->
    exists w',
      page (S fuel) title pageid true true false w = (Ok (next_addr w), w')
      /\ Dict.get "pageid" (heap w' (next_addr w)) = Some (VStr pid)
      /\ Dict.get "title" (heap w' (next_addr w)) = Some page_title
      /\ Dict.get "url" (heap w' (next_addr w)) = Some url
      /\ Dict.get "original_title" (heap w' (next_addr w)) = Some chosen
      /\ map rq_params (sent w')
         = request_params (load_query_params [("titles", chosen)])
           :: request_params (search_params title (VInt 1) (VBool true))
           :: map rq_params (sent w)
      /\ pending w' = rest.
Proof.
  intros fuel title pageid w rd q response rest listed found titles s chosen
         query pid page_entry page_title url
         Hs Hr Hu Hb Hp He Hq Hl Hi Ht Hsug Hch Hn Hinfo Hm Hre Hpp Hti Hu'.
  destruct (supported_version _ _ Hs) as (v & Hv & _).
  set (w0 := answered (search_params title (VInt 1) (VBool true)) w).
  set (w1 := with_memo ((Fsearch, suggest_call title, VTuple [VList titles; s])
                          :: memo w0) w0).
  set (self := next_addr w).
  set (w2 := with_heap (store (heap w1) self []) (S self) w1).
  assert (Hnew : new_object w1 = (Ok self, w2)) by reflexivity.
  assert (Hchoice :
            (if truthy s then ret s
             else try_except (lift (Py.item_v (VList titles) (VInt 0)))
                    (fun e => if is_IndexError e
                              then raise (PageError_new [title] [])
                              else raise e)) w1
            = (Ok chosen, w1)).
  { unfold chosen_title in Hch. destruct (truthy s).
    - injection Hch as ->. reflexivity.
    - destruct titles as [|t ts]; [discriminate|]. injection Hch as ->.
      reflexivity. }
  assert (Hinit : init (S fuel) self chosen VNone true false (VStr EmptyString) w2
                  = (Ok tt, assign self "url" url
                              (assign self "title" page_title
                                 (assign self "pageid" (VStr pid)
                                    (asked self chosen VNone (VStr EmptyString) w2))))).
  { apply (init_plain_page fuel self chosen VNone (VStr EmptyString) w2 v response
             rest query pid page_entry page_title url).
    - unfold w2, w1, w0. cbn [globals with_heap with_memo].
      rewrite answered_version. assumption.
    - unfold w2, w1, w0. cbn [globals with_heap with_memo].
      rewrite answered_rate. assumption.
    - apply identified_title. assumption.
    - unfold w2, w1, w0. cbn [pending with_heap with_memo].
      rewrite answered_pending, Hp. reflexivity.
    - assumption.
    - assumption.
    - assumption.
    - assumption.
    - assumption.
    - assumption. }
  eexists. split; [|split; [|split; [|split; [|split; [|split]]]]].
  - unfold page. rewrite Hb, bind_lift_inr. cbv beta. cbn [negb].
    fold (suggest_call title).
    rewrite bind_bind.
    rewrite (bind_ok _ _ _ _ _
               (page_search_run title w rd q _ listed found titles s
                  Hs Hr Hu Hb Hp He Hq Hl Hi Ht Hsug)).
    cbv beta iota. fold w0. fold w1.
    rewrite (bind_ok _ _ _ _ _ Hchoice).
    unfold new. rewrite (bind_ok _ _ _ _ _ Hnew).
    rewrite (bind_ok _ _ _ _ _ Hinit). reflexivity.
  - rewrite !assign_heap_self. rewrite !dict_get_set_other by discriminate.
    apply dict_get_set_same.
  - rewrite !assign_heap_self. rewrite dict_get_set_other by discriminate.
    apply dict_get_set_same.
  - rewrite !assign_heap_self. apply dict_get_set_same.
  - rewrite !assign_heap_self. rewrite !dict_get_set_other by discriminate.
    unfold asked. rewrite answered_heap. unfold entered.
    destruct chosen; try congruence;
      (rewrite !assign_heap_self; apply dict_get_set_same).
  - rewrite !assign_sent, asked_sent.
    destruct chosen; try congruence; reflexivity.
  - rewrite !assign_pending, asked_pending.
    unfold w2, w1, w0. cbn [pending with_heap with_memo].
    rewrite answered_pending, Hp. reflexivity.
Qed.

(** X18.  [page(title)] with [auto_suggest] raises [PageError] when the
    search has neither a suggestion nor a title: the search request is the
    only one sent, and no object is made. *)
Theorem page_without_search_result_raises_page_error :
  forall (fuel : nat) (title pageid : value) (redirect preload : bool)
         (w : World) (rd q : dict) (rest : list reply) (listed : value)
         (s : value),
    supported QSearch (globals w) ->
    RATE_LIMIT (globals w) = false ->
    memo_lookup Fsearch (suggest_call title) (memo w) = None ->
    blank title = inr false ->
    pending w = Reply (Some (VDict rd)) :: rest ->
    Dict.has "error" rd = false ->
    Dict.get "query" rd = Some (VDict q) ->
    Dict.get "search" q = Some listed ->
    Py.iter listed = inr [] ->
    suggested q s ->
    truthy s = false ->
    exists w',
      page fuel title pageid true redirect preload w
      = (Raise (PageError (Some title) None), w')
      /\ sent w' = request_of (globals w) (search_params title (VInt 1) (VBool true))
                   :: sent w
      /\ next_addr w' = next_addr w.
Proof.
  intros fuel title pageid redirect preload w rd q rest listed s
         Hs Hr Hu Hb Hp He Hq Hl Hi Hsug Hf.
  eexists. split; [|split].
  - unfold page. rewrite Hb, bind_lift_inr. cbv beta. cbn [negb].
    fold (suggest_call title).
    rewrite bind_bind.
    rewrite (bind_ok _ _ _ _ _
               (page_search_run title w rd q rest listed [] [] s
                  Hs Hr Hu Hb Hp He Hq Hl Hi eq_refl Hsug)).
    cbv beta iota. rewrite Hf.
    unfold PageError_new, PageError_init. rewrite (blank_false_truthy _ Hb).
    reflexivity.
  - reflexivity.
  - reflexivity.
Qed.

(** X19.  Resolving a page entry marked missing under an identifier that is
    false (the pageid 0, the empty title) raises [IndexError], not
    [PageError]: [PageError] is built without a true pageid and without
    another argument, and fails on [args[0]]. *)
Theorem missing_page_under_false_identifier :
  forall (fuel : nat) (self : addr) (title pageid original_title : value)
         (redirect preload : bool) (w : World) (v : list Z) (response : value)
         (rest : list reply) (query : dict) (pid : string) (page_entry : dict),
    API_VERSION_MAJOR_MINOR (globals w) = Some v ->
    RATE_LIMIT (globals w) = false ->
    identified self title pageid w ->
    truthy (match title with VNone => pageid | _ => title end) = false ->
    pending w = Reply (Some response) :: rest ->
    page_info response query pid page_entry ->
    Dict.has "missing" page_entry = true ->
    init (S fuel) self title pageid redirect preload original_title w
    = (Raise IndexError, asked self title pageid original_title w).
Proof.
  intros fuel self title pageid ot redirect preload w v response rest query pid
         page_entry Hv Hr Hid Hf Hp Hinfo Hm.
  rewrite (init_enters _ _ _ _ _ _ _ _ v Hv Hid).
  unfold bind at 1.
  rewrite (load_dispatch _ self redirect (entered self title pageid ot w)
             (identifier_param title pageid) response rest query pid page_entry);
    [ | destruct title; assumption | apply entered_param; assumption
      | destruct title; assumption | assumption ].
  cbv zeta. rewrite Hm. fold (asked self title pageid ot w).
  pose proof (asked_named self title pageid ot w Hid) as Hn.
  unfold load_missing, hasattr, attr. run. unfold Dict.has.
  destruct title; cbn [named] in Hn;
    try (rewrite Hn; run; rewrite Hn; run;
         unfold PageError_new, PageError_init; cbn [Dict.has Dict.get];
         rewrite Hf; reflexivity).
  destruct Hn as [Hn Hpid]. rewrite Hn. run.
  assert (Hg : Dict.get "pageid" (heap (asked self VNone pageid ot w) self)
               = Some pageid).
  { unfold asked. rewrite answered_heap. unfold entered.
    rewrite assign_heap_self. apply dict_get_set_same. }
  rewrite Hg. run.
  unfold PageError_new, PageError_init. cbn. rewrite Hf. reflexivity.
Qed.

(** X20.  From the list items of a disambiguation page, those of the table
    of contents left out: when every item has a first link with a [title]
    attribute, the options are the texts of the first links, the details
    pair the link's title with the text of the item, both in order and one
    for each item; when an item has no link and the items with links have
    titles, building the lists raises [IndexError]. *)
Theorem disambiguation_needs_a_link_in_every_item :
  forall (lis : list li_tag),
    (forall (links : list (string * string)),
        Forall2 (fun li l => first_link li (fst l) (snd l)) (kept_items lis) links ->
        disambiguation_lists lis
        = inr (map (fun l => VStr (fst l)) links,
               map (fun p => VDict [("title", VStr (snd (snd p)));
                                    ("description", VStr (li_text (fst p)))])
                   (combine (kept_items lis) links)))
    /\ ((forall li, In li (kept_items lis) ->
                    li_anchors li = [] \/ exists text title, first_link li text title) ->
        (exists li, In li (kept_items lis) /\ li_anchors li = []) ->
        disambiguation_lists lis = inl IndexError).
Proof.
  intros lis. unfold disambiguation_lists. fold (kept_items lis).
  cbv zeta. split.
  - intros links H.
    rewrite (map_e_Forall2 _ (kept_items lis)
               (map (fun p => VDict [("title", VStr (snd (snd p)));
                                     ("description", VStr (li_text (fst p)))])
                    (combine (kept_items lis) links))).
    + cbn [and_then]. f_equal. f_equal.
      induction H as [|li l items links (a & rest & Ha & Hte & Hti) _ IH]; cbn.
      * reflexivity.
      * rewrite Ha. cbn. rewrite Hte, IH. reflexivity.
    + induction H as [|li l items links (a & rest & Ha & Hte & Hti) _ IH]; cbn.
      * constructor.
      * constructor; [|exact IH]. rewrite Ha, Hti. reflexivity.
  - intros Hall Hex.
    rewrite (map_e_first_error _ IndexError (kept_items lis)); [reflexivity| |].
    + intros li Hin. destruct (Hall li Hin) as [Ha|(text & title & a & rest & Ha & _ & Hti)].
      * left. rewrite Ha. reflexivity.
      * right. rewrite Ha, Hti. eauto.
    + destruct Hex as (li & Hin & Ha). exists li. split; [assumption|].
      rewrite Ha. reflexivity.
Qed.
End Resolve.

(** ** Further properties: the lazy fields *)

Section Fields.
Context {X : Externals}.

Ltac runs := repeat first [ pure_step | rewrite bind_setattr; cbv beta ].

Lemma access_reloads fuel f self w :
  truthy (seen f self w) = false ->
  access fuel f self w
  = bind (fetch fuel f self) (fun _ => attr self (field_attr f)) w.
Proof.
  intros H. rewrite access_is_lazy. apply lazy_attr_reloads. exact H.
Qed.

(** X21.  A field that the site does not support is left [None]: when the
    site is older than the version the field asks for, or lacks the
    extension the field looks for, a read that has to fetch the field raises
    [WikipediaAPIVersionError] or [WikipediaExtensionError], sends nothing,
    and leaves [None] in the field's attribute. *)
Theorem unsupported_field_is_left_none :
  forall (fuel : nat) (f : lazy_field) (self : addr) (w : World),
    truthy (seen f self w) = false ->
    (forall required label name v,
        version_gate f = Some (required, label, name) ->
        API_VERSION_MAJOR_MINOR (globals w) = Some v ->
        _cmp_major_minor v required = true ->
        exists w',
          access fuel f self w
          = (Raise (WikipediaAPIVersionError (API_URL (globals w))
                      (API_VERSION (globals w)) label name), w')
          /\ Dict.get (field_attr f) (heap w' self) = Some VNone
          /\ sent w' = sent w)
    /\ (forall ext name l,
           extension_gate f = Some (ext, name) ->
           recent_enough f (globals w) ->
           INSTALLED_EXTENSIONS (globals w) = Some l ->
           existsb (py_eq (VStr ext)) l = false ->
           exists w',
             access fuel f self w
             = (Raise (WikipediaExtensionError (API_URL (globals w)) ext name), w')
             /\ Dict.get (field_attr f) (heap w' self) = Some VNone
             /\ sent w' = sent w).
Proof.
  intros fuel f self w Hseen. split.
  - intros required label name v Hg Hv Hc.
    rewrite (access_reloads fuel f self w Hseen).
    destruct f; cbn [version_gate] in Hg; try discriminate Hg;
      injection Hg as <- <- <-; cbn [fetch field_attr];
      [ unfold fetch_content | unfold fetch_links | unfold fetch_categories
      | unfold fetch_redirects | unfold fetch_backlinks | unfold fetch_references ];
      runs;
      (erewrite bind_require_version_old;
       [ eexists; split; [reflexivity|]; split;
         [ rewrite ?assign_heap_self, ?dict_get_set_other by discriminate;
           apply dict_get_set_same
         | reflexivity ]
       | exact Hv | exact Hc ]).
  - intros ext name l Hg Hrec Hl Hin.
    rewrite (access_reloads fuel f self w Hseen).
    unfold recent_enough in Hrec.
    destruct f; cbn [extension_gate] in Hg; try discriminate Hg;
      injection Hg as <- <-; cbn [fetch field_attr version_gate] in *.
    + destruct Hrec as (v & Hv & Hc). unfold fetch_content.
      runs.
      erewrite bind_require_version_ok; [|exact Hv|exact Hc]. cbv beta. runs.
      erewrite bind_require_extension_missing; [|exact Hl|exact Hin].
      eexists. split; [reflexivity|]. split; [|reflexivity].
      rewrite ?assign_heap_self, ?dict_get_set_other by discriminate.
      apply dict_get_set_same.
    + unfold fetch_coordinates. runs.
      erewrite bind_require_extension_missing; [|exact Hl|exact Hin].
      eexists. split; [reflexivity|]. split; [|reflexivity].
      rewrite assign_heap_self. apply dict_get_set_same.
    + unfold fetch_summary, get_summary. runs.
      erewrite bind_require_extension_missing; [|exact Hl|exact Hin].
      eexists. split; [reflexivity|]. split; [|reflexivity].
      rewrite assign_heap_self. apply dict_get_set_same.
Qed.

Lemma preload_step_kind (prop : M value) (rest : M unit) w e :
  (forall w' e', fst (rest w') = Raise e' ->
                 is_WikipediaAPIVersionError e' = false
                 /\ is_WikipediaExtensionError e' = false) ->
  fst ((try_except (prop ;; ret tt)
          (fun e => if is_WikipediaAPIVersionError e || is_WikipediaExtensionError e
                    then ret tt else raise e) ;;
        rest) w) = Raise e ->
  is_WikipediaAPIVersionError e = false /\ is_WikipediaExtensionError e = false.
Proof.
  intros Hrest. unfold bind, try_except.
  destruct (prop w) as [[v|e0|] w1]; cbn.
  - apply Hrest.
  - destruct (is_WikipediaAPIVersionError e0 || is_WikipediaExtensionError e0) eqn:E;
      cbn.
    + apply Hrest.
    + intros H. injection H as <-. apply orb_false_iff in E. exact E.
  - discriminate.
Qed.

(** X22.  The preload of [__init__] never fails for a property the site
    does not support: whatever the state, it raises neither
    [WikipediaAPIVersionError] nor [WikipediaExtensionError]. *)
Theorem preload_never_fails_for_unsupported_property :
  forall (fuel : nat) (self : addr) (w : World) (e : exn),
    fst (preload_properties fuel self w) = Raise e ->
    is_WikipediaAPIVersionError e = false /\ is_WikipediaExtensionError e = false.
Proof.
  intros fuel self. unfold preload_properties.
  generalize [content self; summary self; images fuel self; references fuel self;
              links fuel self; sections self; redirects fuel self; coordinates self;
              backlinks fuel self; categories fuel self].
  intros props. induction props as [|prop props IH]; intros w e.
  - cbn. discriminate.
  - cbn [fold_right]. apply preload_step_kind. exact IH.
Qed.

(** X23.  The request that fetches [content] also fetches the two revision
    ids: after a read of [content] that had to fetch it and returned a true
    value, [revision_id] and [parent_id] return the ids stored by that
    fetch, and leave the state, the log of requests included, as it is. *)
Theorem content_fetch_loads_revision_ids :
  forall (self : addr) (w w1 : World) (v : value),
    truthy (seen Content self w) = false ->
    content self w = (Ok v, w1) ->
    truthy v = true ->
    exists revid parentid,
      Dict.get "_revision_id" (heap w1 self) = Some revid
      /\ Dict.get "_parent_id" (heap w1 self) = Some parentid
      /\ revision_id self w1 = (Ok revid, w1)
      /\ parent_id self w1 = (Ok parentid, w1).
Proof.
  intros self w w1 v Hseen H Hv.
  pose proof (lazy_attr_returns _ _ _ _ _ _ H) as Hc.
  unfold content in H. rewrite lazy_attr_reloads in H by exact Hseen.
  apply bind_inv in H. destruct H as ([] & w2 & H & Ha).
  assert (w2 = w1).
  { unfold attr in Ha. rewrite bind_attrs in Ha.
    destruct (Dict.get "_content" (heap w2 self)); [|discriminate].
    injection Ha as _ <-. reflexivity. }
  subst w2. clear Ha.
  unfold fetch_content in H.
  do 14 (apply bind_inv in H; destruct H as (? & ? & _ & H)).
  rewrite bind_setattr in H.
  assert (Hids : exists revid parentid w0,
             w1 = assign self "_parent_id" parentid w0
             /\ Dict.get "_revision_id" (heap w0 self) = Some revid).
  { match type of H with
    | _ (assign self "_revision_id" ?r ?wx) = _ =>
        exists r; set (w0 := assign self "_revision_id" r wx) in *
    end.
    apply bind_inv in H. destruct H as (pg & w3 & H3 & H).
    match type of H3 with
    | page_of self ?rq w0 = _ => pose proof (stateless_page_of self rq w0) as E3
    end.
    rewrite H3 in E3.
    cbn [snd] in E3. subst w3.
    apply bind_inv in H. destruct H as (rs & w3 & H3' & H).
    apply lift_inv in H3'. destruct H3' as [_ ->].
    apply bind_inv in H. destruct H as (rv & w3 & H3' & H).
    apply lift_inv in H3'. destruct H3' as [_ ->].
    apply bind_inv in H. destruct H as (parentid & w3 & H3' & H).
    apply lift_inv in H3'. destruct H3' as [_ ->].
    injection H as <-.
    exists parentid, w0. split; [reflexivity|].
    unfold w0. rewrite assign_heap_self. apply dict_get_set_same. }
  destruct Hids as (revid & parentid & w0 & -> & Hr).
  exists revid, parentid.
  assert (Hrev : Dict.get "_revision_id"
                   (heap (assign self "_parent_id" parentid w0) self) = Some revid).
  { rewrite assign_heap_self, dict_get_set_other by discriminate. exact Hr. }
  assert (Hpar : Dict.get "_parent_id"
                   (heap (assign self "_parent_id" parentid w0) self) = Some parentid).
  { rewrite assign_heap_self. apply dict_get_set_same. }
  assert (Hcached : content self (assign self "_parent_id" parentid w0)
                    = (Ok v, assign self "_parent_id" parentid w0)).
  { apply lazy_attr_cached; assumption. }
  split; [exact Hrev|]. split; [exact Hpar|]. split.
  - unfold revision_id. rewrite bind_getattr.
    destruct (negb (truthy match Dict.get "_revid" _ with
                           | Some v0 => v0 | None => VBool false end)).
    + rewrite !bind_bind. rewrite (bind_ok _ _ _ _ _ Hcached). run.
      unfold attr. run. rewrite Hrev. reflexivity.
    + run. unfold attr. run. rewrite Hrev. reflexivity.
  - unfold parent_id. rewrite bind_getattr.
    destruct (negb (truthy match Dict.get "_parentid" _ with
                           | Some v0 => v0 | None => VBool false end)).
    + rewrite !bind_bind. rewrite (bind_ok _ _ _ _ _ Hcached). run.
      unfold attr. run. rewrite Hpar. reflexivity.
    + run. unfold attr. run. rewrite Hpar. reflexivity.
Qed.
End Fields.

(** ** What a request leaves alone *)

Lemma wiki_request_frame params w :
  let w' := snd (_wiki_request params w) in
  heap w' = heap w /\ next_addr w' = next_addr w /\ memo w' = memo w
  /\ same_site (globals w) (globals w')
  /\ RATE_LIMIT (globals w') = RATE_LIMIT (globals w)
  /\ (sent w' = sent w
      \/ exists rq, sent w' = rq :: sent w /\ rq_url rq = API_URL (globals w)).
Proof.
  destruct w as [g m p s c r sl h n].
  destruct g as [url ver mm ext pre rl mw lc ua ses tmo].
  unfold _wiki_request, same_site, bind, get_globals, now, rate_limit_wait, sleep,
    reset_session, set_globals, session_get, bind, get_globals.
  cbn.
  destruct rl; [destruct lc as [lc|]; [destruct mw as [mw|]|]|]; cbn.
  - destruct (lc + mw >? c r); cbn.
    + destruct (Z.quot (lc + mw - c (S r)) 1000000 <? 0); cbn;
        repeat split; auto.
    + destruct ses; destruct p as [|[[j|]|e] p]; cbn; repeat split; eauto.
  - repeat split; auto.
  - destruct ses; destruct p as [|[[j|]|e] p]; cbn; repeat split; eauto.
  - destruct ses; destruct p as [|[[j|]|e] p]; cbn; repeat split; eauto.
Qed.

Lemma keeps_heap_stateless {A} (m : M A) : stateless m -> keeps_heap m.
Proof. intros H w. rewrite H. reflexivity. Qed.

Lemma keeps_heap_bind {A B} (m : M A) (k : A -> M B) :
  keeps_heap m -> (forall a, keeps_heap (k a)) -> keeps_heap (bind m k).
Proof.
  intros Hm Hk w. unfold bind. specialize (Hm w).
  destruct (m w) as [[a|e|] w1]; cbn [snd] in *;
    [rewrite Hk; assumption|assumption|assumption].
Qed.

Lemma keeps_heap_wiki_request params : keeps_heap (_wiki_request params).
Proof. intros w. apply (wiki_request_frame params w). Qed.

Lemma stateless_attrs self : stateless (attrs self).
Proof. intros w. reflexivity. Qed.

Lemma stateless_title_query_param self : stateless (title_query_param self).
Proof.
  unfold title_query_param. apply stateless_bind; [apply stateless_attrs|intros].
  apply stateless_lift.
Qed.

Lemma gen_round_keeps_heap self g resume :
  (forall g', keeps_heap (resume g')) -> keeps_heap (gen_round self g resume).
Proof.
  intros Hres. unfold gen_round.
  apply keeps_heap_bind; [apply keeps_heap_stateless, stateless_lift|intros].
  apply keeps_heap_bind; [apply keeps_heap_wiki_request|intros].
  apply keeps_heap_bind; [apply keeps_heap_stateless, stateless_lift|intros].
  destruct (negb a1); [apply keeps_heap_stateless, stateless_ret|].
  apply keeps_heap_bind; [apply keeps_heap_stateless, stateless_attrs|intros].
  apply keeps_heap_bind; [apply keeps_heap_stateless, stateless_lift|intros].
  apply Hres.
Qed.

Lemma gen_next_keeps_heap : forall fuel self g, keeps_heap (gen_next fuel self g).
Proof.
  induction fuel as [|fuel IH]; intros self g.
  - intros w. reflexivity.
  - cbn [gen_next]. destruct (gen_pc_of g) as [|[|datum rest] request|].
    + apply keeps_heap_bind;
        [apply keeps_heap_stateless, stateless_title_query_param|intros].
      apply gen_round_keeps_heap. intros g'. apply IH.
    + apply keeps_heap_bind; [apply keeps_heap_stateless, stateless_lift|intros].
      destruct (negb a); [apply keeps_heap_stateless, stateless_ret|].
      apply keeps_heap_bind; [apply keeps_heap_stateless, stateless_lift|intros].
      apply gen_round_keeps_heap. intros g'. apply IH.
    + apply keeps_heap_stateless, stateless_ret.
    + apply keeps_heap_stateless, stateless_ret.
Qed.

(** A property of the attributes of [self] that every run of the loop body
    keeps is kept by the whole [for] loop over the generator. *)
Lemma for_gen_invariant (I : dict -> Prop) self body :
  (forall datum w, I (heap w self) -> I (heap (snd (body datum w)) self)) ->
  forall fuel g w,
    I (heap w self) -> I (heap (snd (for_gen fuel self g body w)) self).
Proof.
  intros Hbody. induction fuel as [|fuel IH]; intros g w Hw.
  - exact Hw.
  - cbn [for_gen]. unfold bind at 1.
    pose proof (gen_next_keeps_heap (S fuel) self g w) as Hh.
    destruct (gen_next (S fuel) self g w) as [[[[datum|] g']|e|] w1];
      cbn [snd] in *; rewrite <- Hh in Hw; try exact Hw.
    unfold bind. pose proof (Hbody datum w1 Hw) as Hb.
    destruct (body datum w1) as [[[]|e|] w2]; cbn [snd] in *; try exact Hb.
    apply IH. exact Hb.
Qed.

Section References.
Context {X : Externals}.

Lemma references_body_keeps self link w :
  (fun o => exists v, Dict.get "_references" o = Some v /\ absolute_urls v)
    (heap w self) ->
  (fun o => exists v, Dict.get "_references" o = Some v /\ absolute_urls v)
    (heap (snd ((star <- lift (Py.item link "*") ;;
                 star <- lift (Py.str_method "startswith" star) ;;
                 let url := if Str.startswith "http" star then star
                            else "http:" ++ star in
                 append_attr self "_references" (VStr url)) w)) self).
Proof.
  intros (v & Hg & l & -> & Hl).
  assert (Hkeep : exists v, Dict.get "_references" (heap w self) = Some v
                            /\ absolute_urls v).
  { exists (VList l). split; [exact Hg|]. exists l. split; [reflexivity|exact Hl]. }
  destruct (Py.item link "*") as [e|star]; [rewrite bind_lift_inl; exact Hkeep|].
  rewrite bind_lift_inr. cbv beta.
  destruct (Py.str_method "startswith" star) as [e|s];
    [rewrite bind_lift_inl; exact Hkeep|].
  rewrite bind_lift_inr. cbv beta zeta.
  unfold append_attr, attr. run. rewrite Hg. run. unfold setattr.
  cbn [snd]. rewrite assign_heap_self, dict_get_set_same.
  eexists. split; [reflexivity|]. eexists. split; [reflexivity|].
  apply Forall_app. split; [assumption|]. constructor; [|constructor].
  eexists. split; [reflexivity|].
  destruct (Str.startswith "http" s) eqn:E; [exact E|reflexivity].
Qed.

(** A read of [references] that had to fetch the field returns a list of
    strings that all start with ["http"]. *)
Lemma references_keep_absolute :
  forall (fuel : nat) (self : addr) (w w1 : World) (v : value),
    truthy (seen References self w) = false ->
    references fuel self w = (Ok v, w1) ->
    absolute_urls v.
Proof.
  intros fuel self w w1 v Hseen H.
  pose proof (lazy_attr_returns _ _ _ _ _ _ H) as Hv.
  unfold references in H. rewrite lazy_attr_reloads in H by exact Hseen.
  apply bind_inv in H. destruct H as ([] & w2 & H & Ha).
  assert (w2 = w1).
  { unfold attr in Ha. rewrite bind_attrs in Ha.
    destruct (Dict.get "_references" (heap w2 self)); [|discriminate].
    injection Ha as _ <-. reflexivity. }
  subst w2. clear Ha.
  unfold fetch_references in H.
  rewrite bind_setattr in H.
  apply bind_inv in H. destruct H as ([] & w3 & _ & H).
  rewrite bind_setattr in H.
  match type of H with
  | for_gen _ _ ?g ?body ?w0 = _ =>
      pose proof (for_gen_invariant
                    (fun o => exists v, Dict.get "_references" o = Some v
                                        /\ absolute_urls v)
                    self body (references_body_keeps self) fuel g w0) as Hinv
  end.
  rewrite H in Hinv. cbn [snd] in Hinv.
  destruct Hinv as (v' & Hg & Habs).
  - rewrite assign_heap_self, dict_get_set_same.
    eexists. split; [reflexivity|]. exists []. split; [reflexivity|constructor].
  - rewrite Hv in Hg. injection Hg as <-. exact Habs.
Qed.
End References.

(** X25.  Two page objects are equal exactly when each of [pageid], [title]
    and [url] is an attribute of both and has equal values in both; the
    comparison never raises, an object that lacks one of the attributes
    compared differs from every object, itself included, and the state is
    left as it is. *)
Theorem page_equality_compares_three_attributes :
  forall (self other : addr) (w : World),
    let same := fun name =>
                  match Dict.get name (heap w self), Dict.get name (heap w other) with
                  | Some a, Some b => py_eq a b
                  | _, _ => false
                  end in
    __eq__ self other w = (Ok (VBool (same "pageid" && same "title" && same "url")), w).
Proof.
  intros self other w same. unfold same, __eq__, try_except, attr, bind, attrs.
  destruct (Dict.get "pageid" (heap w self)) as [a|]; cbn; [|reflexivity].
  destruct (Dict.get "pageid" (heap w other)) as [b|]; cbn; [|reflexivity].
  destruct (py_eq a b); cbn; [|reflexivity].
  destruct (Dict.get "title" (heap w self)) as [a'|]; cbn; [|reflexivity].
  destruct (Dict.get "title" (heap w other)) as [b'|]; cbn; [|reflexivity].
  destruct (py_eq a' b'); cbn; [|reflexivity].
  destruct (Dict.get "url" (heap w self)) as [a''|]; cbn; [|reflexivity].
  destruct (Dict.get "url" (heap w other)) as [b''|]; reflexivity.
Qed.

(** ** Further properties: changing the site *)

Lemma prefix_drop : forall p s,
  String.prefix p s = true -> p ++ Str.drop (String.length p) s = s.
Proof.
  induction p as [|a p IH]; intros s H.
  - reflexivity.
  - destruct s as [|b s]; [discriminate H|]. cbn in H.
    destruct (Ascii.ascii_dec a b) as [->|Hne]; [|discriminate H].
    cbn. rewrite (IH s H). reflexivity.
Qed.

Lemma replace_fuel_same old : forall fuel s, Str.replace_fuel fuel old old s = s.
Proof.
  induction fuel as [|fuel IH]; intros s; [reflexivity|].
  cbn [Str.replace_fuel]. destruct s as [|c s]; [reflexivity|].
  destruct (String.prefix old (String c s)) eqn:E.
  - rewrite IH. apply prefix_drop. exact E.
  - rewrite IH. reflexivity.
Qed.

Lemma replace_same old s : Str.replace old old s = s.
Proof. unfold Str.replace. destruct old; [reflexivity|]. apply replace_fuel_same. Qed.

Lemma replace_fuel_absent old new : forall fuel s,
  Str.find old s = None -> Str.replace_fuel fuel old new s = s.
Proof.
  induction fuel as [|fuel IH]; intros s H; [reflexivity|].
  cbn [Str.replace_fuel]. destruct s as [|c s]; [reflexivity|].
  cbn [Str.find] in H.
  destruct (String.prefix old (String c s)); [discriminate H|].
  destruct (Str.find old s) eqn:F; [discriminate H|].
  rewrite (IH s F). reflexivity.
Qed.

Lemma replace_absent old new s :
  Str.contains old s = false -> Str.replace old new s = s.
Proof.
  unfold Str.contains, Str.replace. intros H.
  destruct (Str.find old s) eqn:F; [discriminate H|].
  destruct old; [reflexivity|]. apply replace_fuel_absent. exact F.
Qed.

(** X26.  [set_lang] raises [WikipediaAPILanguageError], sends nothing and
    changes nothing, whenever the change would leave the API URL as it is:
    when the URL does not contain ["/<current prefix>."], and when the new
    prefix, in lower case, is the current one. *)
Theorem set_lang_refuses_an_unchanged_url :
  forall (prefix : string) (w : World),
    Str.contains ("/" ++ LANGUAGE_PREFIX (globals w) ++ ".") (API_URL (globals w))
    = false
    \/ Str.lower prefix = LANGUAGE_PREFIX (globals w) ->
    set_lang prefix w
    = (Raise (WikipediaAPILanguageError (API_URL (globals w))
                (LANGUAGE_PREFIX (globals w)) (Str.lower prefix)), w).
Proof.
  intros prefix w H. unfold set_lang. rewrite bind_get_globals. cbv beta zeta.
  assert (E : Str.replace ("/" ++ LANGUAGE_PREFIX (globals w) ++ ".")
                          ("/" ++ Str.lower prefix ++ ".") (API_URL (globals w))
              = API_URL (globals w)).
  { destruct H as [H|H].
    - apply replace_absent. exact H.
    - rewrite H. apply replace_same. }
  rewrite E, String.eqb_refl. reflexivity.
Qed.

Lemma stateless_after {A B} (m : M A) (k : A -> M B) w :
  (forall a, stateless (k a)) -> snd (bind m k w) = snd (m w).
Proof.
  intros Hk. unfold bind. destruct (m w) as [[a|e|] w1]; [apply Hk|reflexivity|reflexivity].
Qed.

Lemma languages_frame call w :
  same_site (globals w) (globals (snd (languages call w))).
Proof.
  unfold languages, cached.
  destruct (memo_lookup Flanguages call (memo w)).
  - cbn [snd]. unfold same_site. repeat split; reflexivity.
  - match goal with
    | |- context [match ?body w with _ => _ end] =>
        assert (Hb : same_site (globals w) (globals (snd (body w))))
    end.
    { destruct (bind_params [] call) as [e|args].
      - rewrite bind_lift_inl. cbn [snd]. unfold same_site.
        repeat split; reflexivity.
      - rewrite bind_lift_inr. cbv beta.
        rewrite stateless_after by (intros; repeat stateless_step).
        apply (wiki_request_frame _ w). }
    match goal with
    | |- context [match ?body w with _ => _ end] =>
        destruct (body w) as [[v|e|] w1]; exact Hb
    end.
Qed.

Lemma memo_lookup_filter_other f f' k m :
  cached_fn_eqb f f' = false ->
  memo_lookup f k (filter (fun e => negb (cached_fn_eqb (fst (fst e)) f')) m)
  = memo_lookup f k m.
Proof.
  intros Hne. unfold memo_lookup. induction m as [|[[g k'] v] m IH]; [reflexivity|].
  cbn [filter find fst snd].
  destruct (cached_fn_eqb g f') eqn:E; cbn [negb].
  - assert (Hg : cached_fn_eqb g f = false)
      by (destruct g, f, f'; cbn in *; congruence).
    rewrite Hg. cbn [andb]. exact IH.
  - cbn [find fst snd]. destruct (cached_fn_eqb g f && call_key_eqb k' k);
      [reflexivity|exact IH].
Qed.

Lemma clear_cache_run w :
  exists m, clear_cache w = (Ok tt, with_memo m w)
            /\ forall k, memo_lookup Flanguages k m = memo_lookup Flanguages k (memo w).
Proof.
  eexists. split; [reflexivity|]. intros k. cbn [memo with_memo].
  rewrite !memo_lookup_filter_other by reflexivity. reflexivity.
Qed.

Lemma languages_unanswered w e :
  RATE_LIMIT (globals w) = false ->
  memo_lookup Flanguages ([], []) (memo w) = None ->
  remote_outcome (pending w) = Raise e ->
  languages ([], []) w
  = (Raise e,
     with_remote (tl (pending w))
       (request_of (globals w) [("meta", VStr "siteinfo"); ("siprop", VStr "languages")]
        :: sent w)
       (with_globals (open_session (globals w)) w)).
Proof.
  intros Hr Hm Ho. unfold languages. eapply cached_miss_raise; [exact Hm|].
  cbn [bind_params forallb snd fst bind_positional].
  rewrite bind_lift_inr. cbv beta.
  unfold bind. rewrite (wiki_request_unlimited _ w Hr), Ho. reflexivity.
Qed.

Lemma check_of_languages_raises url w e w1 :
  languages ([], []) w = (Raise e, w1) ->
  try_except (languages ([], []) ;; ret tt)
             (fun _ => raise (WikipediaAPIURLError url)) w
  = (Raise (WikipediaAPIURLError url), w1).
Proof. intros H. unfold try_except, bind. rewrite H. reflexivity. Qed.

Lemma check_of_languages_returns url w v w1 :
  languages ([], []) w = (Ok v, w1) ->
  try_except (languages ([], []) ;; ret tt)
             (fun _ => raise (WikipediaAPIURLError url)) w
  = (Ok tt, w1).
Proof. intros H. unfold try_except, bind. rewrite H. reflexivity. Qed.

(** X27.  When the remote does not answer the check of the languages,
    [set_lang] and [set_api_url] both raise [WikipediaAPIURLError], but they
    leave different sites behind: [set_lang] has not yet changed the
    configuration, which still names the old site, while [set_api_url] has
    already stored the URL and the prefix it was given, and leaves them in
    place. *)
Theorem failed_check_of_a_new_site :
  forall (api_url prefix : string) (w : World) (e : exn),
    RATE_LIMIT (globals w) = false ->
    memo_lookup Flanguages ([], []) (memo w) = None ->
    remote_outcome (pending w) = Raise e ->
    (API_URL (globals w) <> language_url prefix (globals w) ->
     exists w',
       set_lang prefix w
       = (Raise (WikipediaAPIURLError (language_url prefix (globals w))), w')
       /\ API_URL (globals w') = API_URL (globals w)
       /\ LANGUAGE_PREFIX (globals w') = LANGUAGE_PREFIX (globals w))
    /\ exists w',
         set_api_url api_url prefix w = (Raise (WikipediaAPIURLError api_url), w')
         /\ API_URL (globals w') = api_url
         /\ LANGUAGE_PREFIX (globals w') = prefix.
Proof.
  intros api_url prefix w e Hr Hm Ho. split.
  - intros Hne. unfold set_lang. rewrite bind_get_globals. cbv beta zeta.
    fold (language_url prefix (globals w)).
    apply String.eqb_neq in Hne. rewrite Hne.
    eexists. split.
    + apply bind_raise. apply (check_of_languages_raises _ _ e).
      apply (languages_unanswered w e Hr Hm Ho).
    + cbn [globals with_remote with_globals]. unfold open_session.
      destruct (SESSION (globals w)); split; reflexivity.
  - unfold set_api_url. rewrite bind_get_globals. cbv beta.
    set (w0 := with_globals (set_site api_url prefix (globals w)) w).
    assert (H0 : set_globals (set_site api_url prefix (globals w)) w = (Ok tt, w0))
      by reflexivity.
    rewrite (bind_ok _ _ _ _ _ H0).
    destruct (clear_cache_run w0) as (m & Hcc & Hlook).
    rewrite (bind_ok _ _ _ _ _ Hcc).
    set (w1 := with_memo m w0).
    eexists. split.
    + apply bind_raise. apply (check_of_languages_raises _ _ e).
      apply (languages_unanswered w1 e); [exact Hr| |exact Ho].
      unfold w1. cbn [memo with_memo]. rewrite Hlook. exact Hm.
    + unfold w1, w0, open_session. cbn.
      destruct (SESSION (globals w)); split; reflexivity.
Qed.

(** X28.  [set_lang] takes the new prefix as it is given: once the check
    of the languages returns, whatever it returns, the configuration names
    the new URL and the new prefix in lower case, and the version and the
    extensions on record are still those of the site that was configured
    before. *)
Theorem set_lang_keeps_the_site_information :
  forall (prefix : string) (w w1 : World) (v : value),
    API_URL (globals w) <> language_url prefix (globals w) ->
    languages ([], []) w = (Ok v, w1) ->
    exists w',
      set_lang prefix w = (Ok tt, w')
      /\ API_URL (globals w') = language_url prefix (globals w)
      /\ LANGUAGE_PREFIX (globals w') = Str.lower prefix
      /\ API_VERSION (globals w') = API_VERSION (globals w)
      /\ API_VERSION_MAJOR_MINOR (globals w') = API_VERSION_MAJOR_MINOR (globals w)
      /\ INSTALLED_EXTENSIONS (globals w') = INSTALLED_EXTENSIONS (globals w).
Proof.
  intros prefix w w1 v Hne Hl.
  pose proof (languages_frame ([], []) w) as Hf. rewrite Hl in Hf. cbn [snd] in Hf.
  destruct Hf as (_ & _ & Hv & Hmm & Hx).
  unfold set_lang. rewrite bind_get_globals. cbv beta zeta.
  fold (language_url prefix (globals w)).
  apply String.eqb_neq in Hne. rewrite Hne.
  set (w2 := with_globals (set_site (language_url prefix (globals w))
                             (Str.lower prefix) (globals w1)) w1).
  destruct (clear_cache_run w2) as (m & Hcc & _).
  exists (with_memo m w2). split.
  - rewrite (bind_ok _ _ _ _ _ (check_of_languages_returns _ w v w1 Hl)).
    rewrite bind_get_globals. cbv beta.
    assert (H2 : set_globals (set_site (language_url prefix (globals w))
                                (Str.lower prefix) (globals w1)) w1 = (Ok tt, w2))
      by reflexivity.
    rewrite (bind_ok _ _ _ _ _ H2). exact Hcc.
  - cbn [globals with_memo with_globals]. repeat split; assumption.
Qed.

(** ** Further properties: [suggest] *)

(** X29.  [suggest] does not look for an [error] in the response.  It sends
    one request and returns the suggestion of the response, or [None] when
    the response has no [searchinfo]; a response without [query], as an
    error response is, makes it raise [KeyError], where [search] raises
    [HTTPTimeoutError] or [WikipediaException]. *)
Theorem suggest_skips_the_error_check :
  forall (query : value) (w : World) (rd : dict) (rest : list reply),
    supported QSuggest (globals w) ->
    RATE_LIMIT (globals w) = false ->
    unseen QSuggest ([query], []) w ->
    blank query = inr false ->
    pending w = Reply (Some (VDict rd)) :: rest ->
    (forall q s,
        Dict.get "query" rd = Some (VDict q) ->
        suggested q s ->
        fst (suggest ([query], []) w) = Ok s
        /\ sent (snd (suggest ([query], []) w))
           = request_of (globals w) (suggest_params query) :: sent w)
    /\ (Dict.get "query" rd = None ->
        suggest ([query], []) w
        = (Raise (KeyError (VStr "query")), answered (suggest_params query) w)).
Proof.
  intros query w rd rest Hs Hr Hu Hb Hp.
  unfold unseen in Hu. cbn [cache_of] in Hu.
  assert (Hcall : bind_params [("query", None)] ([query], []) = inr [query])
    by reflexivity.
  split.
  - intros q s Hq Hsug.
    assert (E : suggest ([query], []) w
                = (Ok s, with_memo ((Fsuggest, ([query], []), s)
                                    :: memo (answered (suggest_params query) w))
                                   (answered (suggest_params query) w))).
    { unfold suggest. eapply cached_miss_ok; [exact Hu|].
      rewrite Hcall, bind_lift_inr. cbv beta. cbn [nth].
      enter_query Hs Hb.
      change [("list", VStr "search"); ("srinfo", VStr "suggestion");
              ("srprop", VStr EmptyString); ("srsearch", query)]
        with (suggest_params query).
      rewrite (bind_wiki_request _ _ w (VDict rd) rest Hr Hp).
      cbn [path Py.item Py.get and_then]. rewrite Hq. cbn [and_then Py.item Py.get].
      run. cbn [Py.get]. run. unfold suggested in Hsug. cbv zeta in Hsug.
      destruct (truthy match Dict.get "searchinfo" q with
                       | Some x => x | None => VNone end) eqn:Esi.
      - destruct (Dict.get "searchinfo" q) as [si|] eqn:Eg; [|discriminate Esi].
        cbn [and_then]. rewrite Hsug. reflexivity.
      - rewrite Hsug. reflexivity. }
    rewrite E. cbn [fst snd sent with_memo]. rewrite answered_sent.
    split; reflexivity.
  - intros Hq.
    unfold suggest. eapply cached_miss_raise; [exact Hu|].
    rewrite Hcall, bind_lift_inr. cbv beta. cbn [nth].
    enter_query Hs Hb.
    change [("list", VStr "search"); ("srinfo", VStr "suggestion");
            ("srprop", VStr EmptyString); ("srsearch", query)]
      with (suggest_params query).
    rewrite (bind_wiki_request _ _ w (VDict rd) rest Hr Hp).
    cbn [Py.item]. rewrite Hq. rewrite bind_lift_inl. reflexivity.
Qed.


(** ** Loops over the continuation cursor *)

Section Collect.
Variables (self : addr) (name : string) (pick : value -> exn + option value).
Variables (qp : dict) (prop : value) (pageid : option value).
Hypothesis name_not_pageid : name <> "pageid".

Lemma appends_collects d w pend acc asked :
  collecting self name pageid pend acc asked w ->
  forall o, pick d = inr o ->
  exists w',
    appends self name pick d w = (Ok tt, w')
    /\ collecting self name pageid pend
         (acc ++ match o with Some x => [x] | None => [] end) asked w'.
Proof.
  intros (Hr & Hp & Hi & Hn & Hs) o Ho. unfold appends. rewrite Ho. pure_step.
  destruct o as [x|].
  - exists (assign self name (VList (acc ++ [x])) w). split.
    + unfold append_attr, attr. run. rewrite Hn. pure_step. reflexivity.
    + repeat split; try assumption.
      * rewrite assign_heap_self. rewrite dict_get_set_other; [exact Hi|].
        intros E. apply name_not_pageid. symmetry. exact E.
      * rewrite assign_heap_self. apply dict_get_set_same.
  - exists w. split; [reflexivity|]. rewrite app_nil_r.
    repeat split; assumption.
Qed.

Lemma loop_rounds pc lc pend frags ps rest :
  continued qp prop pageid pc lc pend frags ps rest ->
  forall (F g : nat) (w : World) (acc xs : list value) (asked : list dict),
    collecting self name pageid pend acc asked w ->
    picked pick frags = inr xs ->
    (List.length frags + List.length ps <= F)%nat ->
    (match pc with GStart => List.length ps | _ => S (List.length ps) end <= g)%nat ->
    exists w',
      bind (match pc with
            | GStart => gen_round self (mkGen GStart qp lc prop) (gen_next g self)
            | _ => gen_next g self (mkGen pc qp lc prop)
            end)
           (fun r => match r with
                     | (None, _) => ret tt
                     | (Some d, g') =>
                         appends self name pick d ;;
                         for_gen F self g' (appends self name pick)
                     end) w
      = (Ok tt, w')
      /\ collecting self name pageid rest (acc ++ xs)
           (rev (map request_params ps) ++ asked) w'.
Proof.
  induction 1 as [lc pend
                 |d data r lc pend frags ps rest _ IH
                 |r lc pend Hc
                 |r lc c pend frags ps rest Hc Hi _ IH
                 |lc params r pend Hu Hq
                 |lc params r pend data frags ps rest Hu Hq Hd _ IH];
    intros F g w acc xs asked Hinv Hpick HF Hg.
  - destruct g as [|g]; [cbn in Hg; lia|].
    cbn in Hpick. injection Hpick as <-.
    exists w. split; [reflexivity|]. rewrite app_nil_r. exact Hinv.
  - destruct g as [|g]; [cbn in Hg; lia|].
    cbn [picked] in Hpick.
    destruct (pick d) as [e|o] eqn:Ho; [discriminate|]. cbn [and_then] in Hpick.
    destruct (picked pick frags) as [e|xs'] eqn:Hx; [discriminate|].
    cbn [and_then] in Hpick. injection Hpick as <-.
    destruct (appends_collects d w pend acc asked Hinv o Ho) as (w1 & Hb & Hinv1).
    cbn [gen_next gen_pc_of gen_query_params gen_last_continue gen_prop].
    rewrite bind_ret.
    rewrite (bind_ok _ _ _ _ _ Hb).
    cbn [List.length] in HF.
    destruct F as [|F]; [lia|].
    destruct (IH F (S F) w1 (acc ++ match o with Some x => [x] | None => [] end)%list
                 xs' asked Hinv1 eq_refl ltac:(lia) ltac:(lia)) as (w' & Hrun & Hpost).
    exists w'. split.
    + cbn [for_gen]. exact Hrun.
    + replace (acc ++ match o with Some x => x :: xs' | None => xs' end)%list
        with ((acc ++ match o with Some x => [x] | None => [] end) ++ xs')%list;
        [exact Hpost|].
      destruct o; rewrite <- app_assoc; reflexivity.
  - destruct g as [|g]; [cbn in Hg; lia|].
    cbn in Hpick. injection Hpick as <-.
    exists w. split.
    + cbn [gen_next gen_pc_of gen_query_params gen_last_continue gen_prop].
      rewrite Hc. run. cbn [negb]. rewrite bind_ret. reflexivity.
    + rewrite app_nil_r. exact Hinv.
  - destruct g as [|g]; [cbn in Hg; lia|].
    destruct (IH F g w acc xs asked Hinv Hpick HF ltac:(cbn in Hg |- *; lia))
      as (w' & Hrun & Hpost).
    exists w'. split; [|exact Hpost].
    cbn [gen_next gen_pc_of gen_query_params gen_last_continue gen_prop].
    rewrite Hc. run. cbn [negb]. rewrite Hi. run. exact Hrun.
  - cbn in Hpick. injection Hpick as <-.
    destruct Hinv as (Hr & Hp & Hid & Hn & Hs).
    exists (answered params w). split.
    + unfold bind.
      rewrite (gen_round_stops self (mkGen GStart qp lc prop) (gen_next g self) w
                 params r pend Hr Hp Hu Hq).
      reflexivity.
    + repeat split.
      * rewrite answered_rate. exact Hr.
      * rewrite answered_pending, Hp. reflexivity.
      * rewrite answered_heap. exact Hid.
      * rewrite answered_heap, app_nil_r. exact Hn.
      * rewrite answered_sent_params, Hs. reflexivity.
  - destruct Hinv as (Hr & Hp & Hid & Hn & Hs).
    assert (Hinv1 : collecting self name pageid pend acc (request_params params :: asked)
                               (answered params w)).
    { repeat split.
      - rewrite answered_rate. exact Hr.
      - rewrite answered_pending, Hp. reflexivity.
      - rewrite answered_heap. exact Hid.
      - rewrite answered_heap. exact Hn.
      - rewrite answered_sent_params, Hs. reflexivity. }
    cbn [List.length] in HF, Hg.
    destruct (IH F g (answered params w) acc xs (request_params params :: asked) Hinv1
                 Hpick ltac:(lia)
                 ltac:(destruct data; lia))
      as (w' & Hrun & Hpost).
    exists w'. split.
    + unfold bind at 1.
      rewrite (gen_round_yields self (mkGen GStart qp lc prop) (gen_next g self) w
                 params r pend data Hr Hp Hu Hq);
        [|cbn [gen_query_params gen_prop]; rewrite Hid; exact Hd].
      cbn [gen_query_params gen_last_continue gen_prop].
      unfold bind in Hrun.
      destruct data; exact Hrun.
    + cbn [map rev]. rewrite <- app_assoc. exact Hpost.
Qed.

End Collect.

(** ** Reading the lazy fields *)

Lemma for_gen_ext self body body' :
  (forall d w, body d w = body' d w) ->
  forall fuel g w, for_gen fuel self g body w = for_gen fuel self g body' w.
Proof.
  intros H. induction fuel as [|fuel IH]; intros g w; [reflexivity|].
  cbn [for_gen]. unfold bind.
  destruct (gen_next (S fuel) self g w) as [[[[d|] g']|e|] w1]; try reflexivity.
  rewrite H. destruct (body' d w1) as [[[]|e|] w2]; try reflexivity.
  apply IH.
Qed.

Lemma title_param_titles o title :
  Dict.get "title" o = Some title ->
  title <> VNone ->
  title_param_of o = inr [("titles", title)].
Proof.
  intros H Hn. unfold title_param_of. rewrite H.
  destruct title; try reflexivity. contradiction Hn. reflexivity.
Qed.

Lemma for_gen_collects self name pick query_params title pageid w pend frags ps rest
      xs asked fuel :
  name <> "pageid" ->
  Dict.get "title" (heap w self) = Some title ->
  title <> VNone ->
  let qp := Dict.update query_params [("titles", title)] in
  let prop := match Dict.get "prop" qp with Some p => p | None => VNone end in
  continued qp prop pageid GStart (VDict []) pend frags ps rest ->
  collecting self name pageid pend [] asked w ->
  picked pick frags = inr xs ->
  (List.length frags + List.length ps < fuel)%nat ->
  exists w',
    for_gen fuel self (continued_query query_params) (appends self name pick) w
    = (Ok tt, w')
    /\ collecting self name pageid rest xs (rev (map request_params ps) ++ asked) w'.
Proof.
  intros Hname Ht Hnn qp prop Hc Hinv Hx Hfuel.
  destruct fuel as [|fuel]; [lia|].
  destruct (loop_rounds self name pick qp prop pageid Hname GStart (VDict []) pend
              frags ps rest Hc fuel fuel w [] xs asked Hinv Hx ltac:(lia)
              ltac:(cbn; lia)) as (w' & Hrun & Hpost).
  exists w'. split; [|exact Hpost].
  cbn [for_gen gen_next continued_query gen_pc_of gen_query_params gen_last_continue
       gen_prop].
  unfold title_query_param. rewrite !bind_bind, bind_attrs.
  rewrite (title_param_titles _ _ Ht Hnn). rewrite bind_lift_inr. cbv beta.
  rewrite app_nil_l in Hpost. exact Hrun.
Qed.

Ltac heap_get :=
  repeat first [ rewrite assign_heap_self | rewrite answered_heap
               | rewrite dict_get_set_same
               | rewrite dict_get_set_other by discriminate ].

Section Reads.
Context {X : Externals}.

Lemma recent_enough_version f g required label name :
  version_gate f = Some (required, label, name) ->
  recent_enough f g ->
  exists v, API_VERSION_MAJOR_MINOR g = Some v /\ _cmp_major_minor v required = false.
Proof. unfold recent_enough. intros ->. trivial. Qed.

Lemma loop_body_appends f self :
  field_loops f = true ->
  forall fuel g w,
    for_gen fuel self g
      (match f with
       | Images => fun page =>
           has_info <- lift (Py.contains "imageinfo" page) ;;
           if has_info then
             info <- lift (Py.item page "imageinfo") ;;
             first <- lift (Py.item_at info 0) ;;
             url <- lift (Py.item first "url") ;;
             append_attr self "_images" url
           else ret tt
       | References => fun link =>
           star <- lift (Py.item link "*") ;;
           star <- lift (Py.str_method "startswith" star) ;;
           let url := if Str.startswith "http" star then star
                      else "http:" ++ star in
           append_attr self "_references" (VStr url)
       | Categories => fun link =>
           title <- lift (Py.item link "title") ;;
           title <- lift (Py.str_method "startswith" title) ;;
           if Str.startswith "Category:" title
           then append_attr self "_categories" (VStr (Str.drop 9 title))
           else append_attr self "_categories" (VStr title)
       | _ => fun link =>
           title <- lift (Py.item link "title") ;;
           append_attr self (field_attr f) title
       end) w
    = for_gen fuel self g (appends self (field_attr f) (field_pick f)) w.
Proof.
  intros Hf. apply for_gen_ext. intros d w.
  destruct f; try discriminate Hf; unfold appends, field_pick, field_attr.
  - destruct (Py.contains "imageinfo" d) as [e|[|]]; try reflexivity.
    cbn [and_then]. run.
    destruct (Py.item d "imageinfo") as [e|info]; [reflexivity|]. cbn [and_then]. run.
    destruct (Py.item_at info 0) as [e|first]; [reflexivity|]. cbn [and_then]. run.
    destruct (Py.item first "url") as [e|url]; reflexivity.
  - destruct (Py.item d "title") as [e|t]; reflexivity.
  - destruct (Py.item d "title") as [e|t]; [reflexivity|]. cbn [and_then]. run.
    destruct (Py.str_method "startswith" t) as [e|s]; [reflexivity|].
    cbn [and_then]. run. destruct (Str.startswith "Category:" s); reflexivity.
  - destruct (Py.item d "title") as [e|t]; reflexivity.
  - destruct (Py.item d "*") as [e|t]; [reflexivity|]. cbn [and_then]. run.
    destruct (Py.str_method "startswith" t) as [e|s]; reflexivity.
Qed.

Lemma fetch_loop fuel f self w title pageid frags ps rest xs :
  field_loops f = true ->
  RATE_LIMIT (globals w) = false ->
  recent_enough f (globals w) ->
  Dict.get "title" (heap w self) = Some title ->
  title <> VNone ->
  Dict.get "pageid" (heap w self) = Some pageid ->
  continued (field_query f title)
            (match Dict.get "prop" (field_query f title) with
             | Some p => p | None => VNone end)
            (Some pageid) GStart (VDict []) (pending w) frags ps rest ->
  picked (field_pick f) frags = inr xs ->
  (List.length frags + List.length ps < fuel)%nat ->
  exists w',
    fetch fuel f self w = (Ok tt, w')
    /\ collecting self (field_attr f) (Some pageid) rest xs
         (rev (map request_params ps) ++ map rq_params (sent w)) w'.
Proof.
  intros Hf Hr Hv Ht Hnn Hp Hc Hx Hfuel.
  destruct f; try discriminate Hf; unfold fetch.
  - (* images *)
    unfold fetch_images. rewrite bind_setattr.
    rewrite (loop_body_appends Images self eq_refl).
    apply (for_gen_collects self "_images" (field_pick Images) _ title (Some pageid)
             _ (pending w) frags ps rest xs _ fuel); try assumption.
    + discriminate.
    + heap_get. exact Ht.
    + repeat split; try assumption; heap_get; try reflexivity. exact Hp.
  - (* links *)
    destruct (recent_enough_version Links _ _ _ _ eq_refl Hv) as (v & Hv1 & Hv2).
    unfold fetch_links. rewrite bind_setattr.
    erewrite bind_require_version_ok; [|exact Hv1|exact Hv2]. cbv beta.
    rewrite bind_setattr.
    rewrite (loop_body_appends Links self eq_refl).
    apply (for_gen_collects self "_links" (field_pick Links) _ title (Some pageid)
             _ (pending w) frags ps rest xs _ fuel); try assumption.
    + discriminate.
    + heap_get. exact Ht.
    + repeat split; try assumption; heap_get; try reflexivity. exact Hp.
  - (* categories *)
    destruct (recent_enough_version Categories _ _ _ _ eq_refl Hv) as (v & Hv1 & Hv2).
    unfold fetch_categories. rewrite bind_setattr.
    erewrite bind_require_version_ok; [|exact Hv1|exact Hv2]. cbv beta.
    rewrite bind_setattr.
    rewrite (loop_body_appends Categories self eq_refl).
    apply (for_gen_collects self "_categories" (field_pick Categories) _ title
             (Some pageid) _ (pending w) frags ps rest xs _ fuel); try assumption.
    + discriminate.
    + heap_get. exact Ht.
    + repeat split; try assumption; heap_get; try reflexivity. exact Hp.
  - (* redirects *)
    destruct (recent_enough_version Redirects _ _ _ _ eq_refl Hv) as (v & Hv1 & Hv2).
    unfold fetch_redirects. rewrite bind_setattr.
    erewrite bind_require_version_ok; [|exact Hv1|exact Hv2]. cbv beta.
    rewrite bind_setattr.
    rewrite (loop_body_appends Redirects self eq_refl).
    apply (for_gen_collects self "_redirects" (field_pick Redirects) _ title
             (Some pageid) _ (pending w) frags ps rest xs _ fuel); try assumption.
    + discriminate.
    + heap_get. exact Ht.
    + repeat split; try assumption; heap_get; try reflexivity. exact Hp.
  - (* references *)
    destruct (recent_enough_version References _ _ _ _ eq_refl Hv) as (v & Hv1 & Hv2).
    unfold fetch_references. rewrite bind_setattr.
    erewrite bind_require_version_ok; [|exact Hv1|exact Hv2]. cbv beta.
    rewrite bind_setattr.
    rewrite (loop_body_appends References self eq_refl).
    apply (for_gen_collects self "_references" (field_pick References) _ title
             (Some pageid) _ (pending w) frags ps rest xs _ fuel); try assumption.
    + discriminate.
    + heap_get. exact Ht.
    + repeat split; try assumption; heap_get; try reflexivity. exact Hp.
Qed.

Lemma bind_page_of {B} self request pageid page (k : value -> M B) w :
  Dict.get "pageid" (heap w self) = Some pageid ->
  page_entry request pageid = inr page ->
  bind (page_of self request) k w = k page w.
Proof.
  intros Hp He. unfold page_of, page_entry in *.
  destruct (path request ["query"; "pages"]) as [e|pages]; [discriminate|].
  cbn [and_then] in He. unfold attr. run. rewrite Hp. run. rewrite He. run.
  reflexivity.
Qed.

Lemma equipped_extension f g ext name :
  extension_gate f = Some (ext, name) ->
  equipped f g ->
  exists l, INSTALLED_EXTENSIONS g = Some l /\ existsb (py_eq (VStr ext)) l = true.
Proof. unfold equipped. intros ->. trivial. Qed.

Lemma fetch_content_reads self w title pageid r rest page extract revisions revision
      revid parentid :
  RATE_LIMIT (globals w) = false ->
  recent_enough Content (globals w) ->
  equipped Content (globals w) ->
  Dict.get "title" (heap w self) = Some title ->
  title <> VNone ->
  Dict.get "pageid" (heap w self) = Some pageid ->
  pending w = Reply (Some r) :: rest ->
  page_entry r pageid = inr page ->
  Py.item page "extract" = inr extract ->
  Py.item page "revisions" = inr revisions ->
  Py.item_at revisions 0 = inr revision ->
  Py.item revision "revid" = inr revid ->
  Py.item revision "parentid" = inr parentid ->
  exists w',
    fetch_content self w = (Ok tt, w')
    /\ Dict.get "_content" (heap w' self) = Some extract
    /\ map rq_params (sent w')
       = request_params (field_query Content title) :: map rq_params (sent w)
    /\ pending w' = rest.
Proof.
  intros Hr Hv He Ht Hnn Hp Hpend Hpage Hex Hrevs Hrev Hrid Hpid.
  destruct (recent_enough_version Content _ _ _ _ eq_refl Hv) as (v & Hv1 & Hv2).
  destruct (equipped_extension Content _ _ _ eq_refl He) as (l & Hl1 & Hl2).
  unfold fetch_content. rewrite !bind_setattr.
  erewrite bind_require_version_ok; [|exact Hv1|exact Hv2]. cbv beta.
  erewrite bind_require_extension_ok; [|exact Hl1|exact Hl2]. cbv beta.
  unfold title_query_param. rewrite bind_bind, bind_attrs.
  erewrite title_param_titles; [|heap_get; exact Ht|exact Hnn].
  rewrite bind_lift_inr. cbv beta.
  erewrite bind_wiki_request; [|exact Hr|exact Hpend].
  erewrite bind_page_of; [|heap_get; exact Hp|exact Hpage].
  rewrite Hex. pure_step. rewrite bind_setattr.
  erewrite bind_page_of; [|heap_get; exact Hp|exact Hpage].
  rewrite Hrevs. pure_step. rewrite Hrev. pure_step. rewrite Hrid. pure_step.
  rewrite bind_setattr.
  erewrite bind_page_of; [|heap_get; exact Hp|exact Hpage].
  rewrite Hrevs. pure_step. rewrite Hrev. pure_step. rewrite Hpid. pure_step.
  eexists. split; [reflexivity|]. split; [|split].
  - heap_get. reflexivity.
  - reflexivity.
  - cbn. rewrite Hpend. reflexivity.
Qed.

Lemma fetch_summary_reads self w title pageid r rest page extract :
  RATE_LIMIT (globals w) = false ->
  equipped Summary (globals w) ->
  Dict.get "title" (heap w self) = Some title ->
  Dict.get "pageid" (heap w self) = Some pageid ->
  pending w = Reply (Some r) :: rest ->
  page_entry r pageid = inr page ->
  Py.item page "extract" = inr extract ->
  exists w',
    fetch_summary self w = (Ok tt, w')
    /\ Dict.get "_summary" (heap w' self) = Some extract
    /\ map rq_params (sent w')
       = request_params (field_query Summary title) :: map rq_params (sent w)
    /\ pending w' = rest.
Proof.
  intros Hr He Ht Hp Hpend Hpage Hex.
  destruct (equipped_extension Summary _ _ _ eq_refl He) as (l & Hl1 & Hl2).
  unfold fetch_summary. rewrite bind_setattr. unfold get_summary.
  rewrite !bind_bind.
  erewrite bind_require_extension_ok; [|exact Hl1|exact Hl2]. cbv beta.
  unfold attr at 1. run.
  replace (Dict.get "title" (heap (assign self "_summary" VNone w) self))
    with (Some title) by (heap_get; symmetry; exact Ht).
  run. cbn [Z.eqb negb].
  erewrite bind_wiki_request; [|exact Hr|exact Hpend].
  rewrite bind_bind.
  erewrite bind_page_of; [|heap_get; exact Hp|exact Hpage].
  rewrite Hex. pure_step.
  eexists. split; [reflexivity|]. split; [|split].
  - heap_get. reflexivity.
  - reflexivity.
  - cbn. rewrite Hpend. reflexivity.
Qed.

Lemma fetch_coordinates_none self w title pageid r rest :
  RATE_LIMIT (globals w) = false ->
  equipped Coordinates (globals w) ->
  Dict.get "title" (heap w self) = Some title ->
  Dict.get "pageid" (heap w self) = Some pageid ->
  pending w = Reply (Some r) :: rest ->
  Py.contains "query" r = inr false
  \/ (Py.contains "query" r = inr true
      /\ exists page, page_entry r pageid = inr page
                      /\ Py.contains "coordinates" page = inr false) ->
  exists w',
    fetch_coordinates self w = (Ok tt, w')
    /\ Dict.get "_coordinates" (heap w' self) = Some VNone
    /\ map rq_params (sent w')
       = request_params (field_query Coordinates title) :: map rq_params (sent w)
    /\ pending w' = rest.
Proof.
  intros Hr He Ht Hp Hpend Hq.
  destruct (equipped_extension Coordinates _ _ _ eq_refl He) as (l & Hl1 & Hl2).
  unfold fetch_coordinates. rewrite bind_setattr.
  erewrite bind_require_extension_ok; [|exact Hl1|exact Hl2]. cbv beta.
  unfold attr at 1. run.
  replace (Dict.get "title" (heap (assign self "_coordinates" VNone w) self))
    with (Some title) by (heap_get; symmetry; exact Ht).
  run.
  erewrite bind_wiki_request; [|exact Hr|exact Hpend].
  destruct Hq as [Hq|(Hq & page & Hpage & Hc)]; rewrite Hq; run.
  - eexists. split; [reflexivity|]. split; [|split].
    + heap_get. reflexivity.
    + reflexivity.
    + cbn. rewrite Hpend. reflexivity.
  - erewrite bind_page_of; [|heap_get; exact Hp|exact Hpage].
    rewrite Hc. run.
    eexists. split; [reflexivity|]. split; [|split].
    + heap_get. reflexivity.
    + reflexivity.
    + cbn. rewrite Hpend. reflexivity.
Qed.

Lemma fetch_coordinates_reads self w title pageid r rest page coordinates first lat lon
      dlat dlon :
  RATE_LIMIT (globals w) = false ->
  equipped Coordinates (globals w) ->
  Dict.get "title" (heap w self) = Some title ->
  Dict.get "pageid" (heap w self) = Some pageid ->
  pending w = Reply (Some r) :: rest ->
  Py.contains "query" r = inr true ->
  page_entry r pageid = inr page ->
  Py.contains "coordinates" page = inr true ->
  Py.item page "coordinates" = inr coordinates ->
  Py.item_at coordinates 0 = inr first ->
  Py.item first "lat" = inr lat ->
  Decimal lat = inr dlat ->
  Py.item first "lon" = inr lon ->
  Decimal lon = inr dlon ->
  exists w',
    fetch_coordinates self w = (Ok tt, w')
    /\ Dict.get "_coordinates" (heap w' self) = Some (VTuple [dlat; dlon])
    /\ map rq_params (sent w')
       = request_params (field_query Coordinates title) :: map rq_params (sent w)
    /\ pending w' = rest.
Proof.
  intros Hr He Ht Hp Hpend Hq Hpage Hc Hcs Hf Hlat Hdlat Hlon Hdlon.
  destruct (equipped_extension Coordinates _ _ _ eq_refl He) as (l & Hl1 & Hl2).
  unfold fetch_coordinates. rewrite bind_setattr.
  erewrite bind_require_extension_ok; [|exact Hl1|exact Hl2]. cbv beta.
  unfold attr at 1. run.
  replace (Dict.get "title" (heap (assign self "_coordinates" VNone w) self))
    with (Some title) by (heap_get; symmetry; exact Ht).
  run.
  erewrite bind_wiki_request; [|exact Hr|exact Hpend].
  rewrite Hq. run.
  erewrite bind_page_of; [|heap_get; exact Hp|exact Hpage].
  rewrite Hc. run.
  erewrite bind_page_of; [|heap_get; exact Hp|exact Hpage].
  rewrite Hcs. run. rewrite Hf. run. rewrite Hlat. run. rewrite Hdlat. run.
  rewrite Hlon. run. rewrite Hdlon. run.
  eexists. split; [reflexivity|]. split; [|split].
  - heap_get. reflexivity.
  - reflexivity.
  - cbn. rewrite Hpend. reflexivity.
Qed.

Lemma fetch_sections_reads self w title r rest found l lines :
  RATE_LIMIT (globals w) = false ->
  Dict.get "title" (heap w self) = Some title ->
  truthy title = true ->
  pending w = Reply (Some r) :: rest ->
  path r ["parse"; "sections"] = inr found ->
  Py.iter found = inr l ->
  map_e (fun section => Py.item section "line") l = inr lines ->
  exists w',
    fetch_sections self w = (Ok tt, w')
    /\ Dict.get "_sections" (heap w' self) = Some (VList lines)
    /\ map rq_params (sent w')
       = request_params (field_query Sections title) :: map rq_params (sent w)
    /\ pending w' = rest.
Proof.
  intros Hr Ht Htt Hpend Hs Hi Hm.
  unfold fetch_sections. rewrite bind_getattr, Ht, Htt. cbn [negb].
  unfold attr at 1. run. rewrite Ht. run.
  erewrite bind_wiki_request; [|exact Hr|exact Hpend].
  rewrite Hs. run. rewrite Hi. run. rewrite Hm. run.
  eexists. split; [reflexivity|]. split; [|split].
  - heap_get. reflexivity.
  - reflexivity.
  - cbn. rewrite Hpend. reflexivity.
Qed.

Lemma backlinks_each self : forall l titles w acc,
  map_e (fun link => Py.item link "title") l = inr titles ->
  Dict.get "_backlinks" (heap w self) = Some (VList acc) ->
  exists w',
    (fix each (l : list value) : M unit :=
       match l with
       | [] => ret tt
       | link :: l' =>
           title <- lift (Py.item link "title") ;;
           append_attr self "_backlinks" title ;;
           each l'
       end) l w = (Ok tt, w')
    /\ Dict.get "_backlinks" (heap w' self) = Some (VList (acc ++ titles))
    /\ globals w' = globals w /\ pending w' = pending w /\ sent w' = sent w.
Proof.
  induction l as [|link l IH]; intros titles w acc Hm Hg.
  - cbn in Hm. injection Hm as <-. exists w. rewrite app_nil_r. auto.
  - cbn [map_e] in Hm.
    destruct (Py.item link "title") as [e|t] eqn:Et; [discriminate|].
    destruct (map_e (fun link => Py.item link "title") l) as [e|ts] eqn:Ets;
      [discriminate|].
    injection Hm as <-.
    destruct (IH ts (assign self "_backlinks" (VList (acc ++ [t])%list) w)
                 (acc ++ [t])%list eq_refl ltac:(heap_get; reflexivity))
      as (w' & Hrun & Hacc & Hgl & Hpe & Hse).
    exists w'. split; [|split; [|auto]].
    + cbv beta iota. pure_step. unfold append_attr, attr. run.
      rewrite Hg. run. rewrite bind_setattr. exact Hrun.
    + rewrite Hacc, <- app_assoc. reflexivity.
Qed.

Lemma backlinks_rounds self qp pend titles ps rest :
  backlinked qp pend titles ps rest ->
  forall fuel w acc,
    RATE_LIMIT (globals w) = false ->
    pending w = pend ->
    Dict.get "_backlinks" (heap w self) = Some (VList acc) ->
    (List.length ps <= fuel)%nat ->
    exists w',
      backlinks_loop fuel self qp w = (Ok tt, w')
      /\ Dict.get "_backlinks" (heap w' self) = Some (VList (acc ++ titles))
      /\ map rq_params (sent w')
         = (rev (map request_params ps) ++ map rq_params (sent w))%list
      /\ pending w' = rest.
Proof.
  induction 1 as [qp r rest found l titles Hf Hi Hm Hc
                 |qp r pend found l titles more c titles' ps rest Hf Hi Hm Hc Hne Hb _ IH];
    intros fuel w acc Hr Hp Hg Hfuel.
  - destruct fuel as [|fuel]; [cbn in Hfuel; lia|].
    cbn [backlinks_loop].
    erewrite bind_wiki_request; [|exact Hr|exact Hp].
    rewrite Hf. pure_step. rewrite Hi. pure_step.
    destruct (backlinks_each self l titles (answered qp w) acc Hm Hg)
      as (w1 & Hrun & Hacc & Hgl & Hpe & Hse).
    rewrite (bind_ok _ _ _ _ _ Hrun). rewrite Hc. pure_step.
    exists w1. split; [reflexivity|]. split; [exact Hacc|]. split.
    + rewrite Hse. reflexivity.
    + rewrite Hpe. cbn. rewrite Hp. reflexivity.
  - destruct fuel as [|fuel]; [cbn in Hfuel; lia|].
    cbn [backlinks_loop].
    erewrite bind_wiki_request; [|exact Hr|exact Hp].
    rewrite Hf. pure_step. rewrite Hi. pure_step.
    destruct (backlinks_each self l titles (answered qp w) acc Hm Hg)
      as (w1 & Hrun & Hacc & Hgl & Hpe & Hse).
    rewrite (bind_ok _ _ _ _ _ Hrun). rewrite Hc. pure_step.
    destruct (IH fuel w1 (acc ++ titles)%list) as (w' & Hrun' & Hacc' & Hse' & Hpe').
    + rewrite Hgl. rewrite answered_rate. exact Hr.
    + rewrite Hpe. cbn. rewrite Hp. reflexivity.
    + exact Hacc.
    + cbn [List.length] in Hfuel. lia.
    + exists w'. split; [|split; [|split]].
      * destruct more as [| [|] | | | | | | |]; try (contradiction Hne; reflexivity);
          rewrite Hb; pure_step; exact Hrun'.
      * rewrite Hacc', <- app_assoc. reflexivity.
      * rewrite Hse', Hse. cbn [map rev]. rewrite <- app_assoc. reflexivity.
      * exact Hpe'.
Qed.

Lemma fetch_backlinks_reads fuel self w title titles ps rest :
  RATE_LIMIT (globals w) = false ->
  recent_enough Backlinks (globals w) ->
  Dict.get "title" (heap w self) = Some title ->
  backlinked (field_query Backlinks title) (pending w) titles ps rest ->
  (List.length ps <= fuel)%nat ->
  exists w',
    fetch_backlinks fuel self w = (Ok tt, w')
    /\ Dict.get "_backlinks" (heap w' self) = Some (VList titles)
    /\ map rq_params (sent w')
       = (rev (map request_params ps) ++ map rq_params (sent w))%list
    /\ pending w' = rest.
Proof.
  intros Hr Hv Ht Hb Hfuel.
  destruct (recent_enough_version Backlinks _ _ _ _ eq_refl Hv) as (v & Hv1 & Hv2).
  unfold fetch_backlinks. rewrite bind_setattr.
  erewrite bind_require_version_ok; [|exact Hv1|exact Hv2]. cbv beta.
  unfold attr at 1. run.
  replace (Dict.get "title" (heap (assign self "_backlinks" VNone w) self))
    with (Some title) by (heap_get; symmetry; exact Ht).
  run. rewrite bind_setattr.
  destruct (backlinks_rounds self _ (pending w) titles ps rest Hb fuel
              (assign self "_backlinks" (VList []) (assign self "_backlinks" VNone w))
              [] Hr eq_refl ltac:(heap_get; reflexivity) Hfuel)
    as (w' & Hrun & Hacc & Hse & Hpe).
  exists w'. split; [exact Hrun|]. split; [exact Hacc|]. split; [exact Hse|exact Hpe].
Qed.

Lemma continued_first qp prop pageid pend frags ps rest :
  continued qp prop pageid GStart (VDict []) pend frags ps rest ->
  hd_error ps = Some qp.
Proof.
  inversion 1 as [| | | |lc params r pend' Hu|lc params r pend' data frags' ps' rest' Hu];
    subst; cbn in Hu; injection Hu as <-; reflexivity.
Qed.

Lemma backlinked_first qp pend titles ps rest :
  backlinked qp pend titles ps rest -> hd_error ps = Some qp.
Proof. inversion 1; reflexivity. Qed.

(** Claim C5, amended.  For each of the ten lazy fields of a resolved page,
    on a site that passes the checks of the field and with rate limiting
    off: a read that finds the attribute of the field unset or holding a
    false value makes the requests of the field, the first with the
    parameters of the field for the title of the page, goes on while the
    answers ask it to, and returns the value the answers give for the field;
    that value is left in the attribute.  Whatever a read returns is what it
    leaves in the attribute, and when that value is a true one every later
    read returns it and leaves the whole state, the log of requests
    included, as it is. *)
Theorem lazy_field_read_then_cached :
  forall (fuel : nat) (f : lazy_field) (self : addr) (w : World),
    (forall (title pageid v : value) (ps : list dict) (n : nat) (rest : list reply),
        RATE_LIMIT (globals w) = false ->
        recent_enough f (globals w) ->
        equipped f (globals w) ->
        Dict.get "title" (heap w self) = Some title ->
        truthy title = true ->
        Dict.get "pageid" (heap w self) = Some pageid ->
        truthy (seen f self w) = false ->
        reads_as title pageid f (pending w) v ps n rest ->
        (n + List.length ps < fuel)%nat ->
        exists w',
          access fuel f self w = (Ok v, w')
          /\ hd_error ps = Some (field_query f title)
          /\ map rq_params (sent w')
             = (rev (map request_params ps) ++ map rq_params (sent w))%list
          /\ pending w' = rest
          /\ Dict.get (field_attr f) (heap w' self) = Some v)
    /\ (forall (v : value) (w1 : World),
          access fuel f self w = (Ok v, w1) ->
          Dict.get (field_attr f) (heap w1 self) = Some v
          /\ (truthy v = true ->
              forall fuel', access fuel' f self w1 = (Ok v, w1))).
Proof.
  intros fuel f self w. split.
  - intros title pageid v ps n rest Hr Hv He Ht Htt Hp Hseen Hreads Hfuel.
    pose proof (truthy_not_None _ Htt) as Hnn.
    rewrite (access_reloads fuel f self w Hseen).
    assert (Hfin : forall w',
               fetch fuel f self w = (Ok tt, w') ->
               Dict.get (field_attr f) (heap w' self) = Some v ->
               bind (fetch fuel f self) (fun _ => attr self (field_attr f)) w
               = (Ok v, w')).
    { intros w' Hrun Hg. rewrite (bind_ok _ _ _ _ _ Hrun).
      unfold attr. run. rewrite Hg. reflexivity. }
    remember (pending w) as pend0 eqn:Hpend.
    destruct Hreads as [f pend frags ps rest xs Hf Hc Hx
                       |r rest page extract revisions revision revid parentid
                          Hpage Hex Hrevs Hrev Hrid Hpid
                       |r rest page extract Hpage Hex
                       |r rest Hq
                       |r rest page coordinates first lat lon dlat dlon
                          Hq Hpage Hco Hcs Hfi Hlat Hdlat Hlon Hdlon
                       |r rest found l lines Hs Hi Hm
                       |pend titles ps rest Hb].
    +       destruct (fetch_loop fuel f self w title pageid frags ps rest xs Hf Hr Hv Ht Hnn Hp
                  ltac:(rewrite <- Hpend; exact Hc) Hx Hfuel)
        as (w' & Hrun & _ & Hpe & _ & Hacc & Hse).
      exists w'. split; [exact (Hfin w' Hrun Hacc)|]. split; [|auto].
      exact (continued_first _ _ _ _ _ _ _ Hc).
    +       destruct (fetch_content_reads self w title pageid r rest page extract revisions
                  revision revid parentid Hr Hv He Ht Hnn Hp (eq_sym Hpend) Hpage Hex Hrevs
                  Hrev Hrid Hpid) as (w' & Hrun & Hacc & Hse & Hpe).
      exists w'. split; [exact (Hfin w' Hrun Hacc)|]. auto.
    +       destruct (fetch_summary_reads self w title pageid r rest page extract Hr He Ht Hp
                  (eq_sym Hpend) Hpage Hex) as (w' & Hrun & Hacc & Hse & Hpe).
      exists w'. split; [exact (Hfin w' Hrun Hacc)|]. auto.
    +       destruct (fetch_coordinates_none self w title pageid r rest Hr He Ht Hp
                  (eq_sym Hpend) Hq) as (w' & Hrun & Hacc & Hse & Hpe).
      exists w'. split; [exact (Hfin w' Hrun Hacc)|]. auto.
    +       destruct (fetch_coordinates_reads self w title pageid r rest page coordinates
                  first lat lon dlat dlon Hr He Ht Hp (eq_sym Hpend) Hq Hpage Hco Hcs Hfi
                  Hlat Hdlat Hlon Hdlon) as (w' & Hrun & Hacc & Hse & Hpe).
      exists w'. split; [exact (Hfin w' Hrun Hacc)|]. auto.
    +       destruct (fetch_sections_reads self w title r rest found l lines Hr Ht Htt
                  (eq_sym Hpend) Hs Hi Hm) as (w' & Hrun & Hacc & Hse & Hpe).
      exists w'. split; [exact (Hfin w' Hrun Hacc)|]. auto.
    +       destruct (fetch_backlinks_reads fuel self w title titles ps rest Hr Hv Ht
                  ltac:(rewrite <- Hpend; exact Hb) ltac:(lia))
        as (w' & Hrun & Hacc & Hse & Hpe).
      exists w'. split; [exact (Hfin w' Hrun Hacc)|]. split; [|auto].
      exact (backlinked_first _ _ _ _ _ Hb).
  - intros v w1 H. rewrite access_is_lazy in H.
    apply lazy_attr_returns in H. split; [assumption|].
    intros Ht fuel'. rewrite access_is_lazy. apply lazy_attr_cached; assumption.
Qed.

End Reads.

Section ReferenceList.
Context {X : Externals}.

Lemma picked_references frags : forall links,
  map_e external_link frags = inr links ->
  picked (field_pick References) frags
  = inr (map (fun link => VStr (absolute_url link)) links).
Proof.
  induction frags as [|d frags IH]; intros links H; cbn in H.
  - injection H as <-. reflexivity.
  - destruct (external_link d) as [e|s] eqn:Es; [discriminate|].
    destruct (map_e external_link frags) as [e|ls] eqn:El; [discriminate|].
    injection H as <-. cbn [picked field_pick].
    unfold external_link in Es.
    destruct (Py.item d "*") as [e|star]; [discriminate|]. cbn [and_then] in Es |- *.
    rewrite Es. cbn [and_then]. rewrite (IH ls eq_refl). reflexivity.
Qed.

(** X24.  Every reference of a page is an absolute URL.  A read of
    [references] that has to fetch the field returns a list of strings that
    all start with ["http"].  For a resolved page, with rate limiting off and
    on a site that has the function, the list holds one URL for each
    external link of the answers, over all the rounds of the continuation
    and in their order: the link itself when it starts with ["http"], else
    the link behind ["http:"]. *)
Theorem references_are_absolute_urls :
  forall (fuel : nat) (self : addr) (w : World),
    truthy (seen References self w) = false ->
    (forall (v : value) (w1 : World),
        references fuel self w = (Ok v, w1) -> absolute_urls v)
    /\ (forall (title pageid : value) (frags : list value) (links : list string)
               (ps : list dict) (rest : list reply),
           RATE_LIMIT (globals w) = false ->
           recent_enough References (globals w) ->
           Dict.get "title" (heap w self) = Some title ->
           truthy title = true ->
           Dict.get "pageid" (heap w self) = Some pageid ->
           continued (field_query References title) (VStr "extlinks") (Some pageid)
                     GStart (VDict []) (pending w) frags ps rest ->
           map_e external_link frags = inr links ->
           (List.length frags + List.length ps < fuel)%nat ->
           exists w',
             references fuel self w
             = (Ok (VList (map (fun link => VStr (absolute_url link)) links)), w')
             /\ map rq_params (sent w')
                = (rev (map request_params ps) ++ map rq_params (sent w))%list
             /\ pending w' = rest).
Proof.
  intros fuel self w Hseen. split.
  - intros v w1 H. exact (references_keep_absolute fuel self w w1 v Hseen H).
  - intros title pageid frags links ps rest Hr Hv Ht Htt Hp Hc Hl Hfuel.
    destruct (fetch_loop fuel References self w title pageid frags ps rest _
                eq_refl Hr Hv Ht (truthy_not_None _ Htt) Hp Hc
                (picked_references frags links Hl) Hfuel)
      as (w' & Hrun & _ & Hpe & _ & Hacc & Hse).
    exists w'. split; [|split; assumption].
    change (references fuel self) with (access fuel References self).
    rewrite (access_reloads fuel References self w Hseen).
    rewrite (bind_ok _ _ _ _ _ Hrun). unfold attr. run.
    cbn [field_attr] in Hacc |- *. rewrite Hacc. reflexivity.
Qed.

End ReferenceList.

(** ** The loop that fetches a category *)

Section Retry.
Context {X : Externals}.

Lemma fetch_category_attempt fuel cat categories links :
  fetch_category (S fuel) cat categories links
  = try_except (category_attempt fuel cat categories links)
      (fun e => if is_PageError e then raise (PageError_new [VStr cat] [])
                else sleep 1 ;; fetch_category fuel cat categories links).
Proof. reflexivity. Qed.

Lemma fetch_category_raises fuel cat categories links :
  forall w e,
    fst (fetch_category fuel cat categories links w) = Raise e ->
    e = PageError_new [VStr cat] [].
Proof.
  induction fuel as [|fuel IH]; intros w e H.
  - discriminate H.
  - rewrite fetch_category_attempt in H. unfold try_except in H.
    destruct (category_attempt fuel cat categories links w) as [[x|e'|] w1].
    + discriminate H.
    + destruct (is_PageError e').
      * cbn in H. injection H as H. symmetry. exact H.
      * unfold bind at 1 in H. unfold sleep in H. cbn in H.
        apply (IH _ _ H).
    + discriminate H.
Qed.

Lemma fetch_category_retried n fuel cat categories links :
  forall w w',
    retried n fuel cat categories links w w' ->
    fetch_category (S (n + fuel)) cat categories links w
    = fetch_category (S fuel) cat categories links w'.
Proof.
  induction n as [|n IH]; intros w w' H.
  - cbn in H. subst w'. reflexivity.
  - destruct H as (e & w1 & Ha & He & Hn).
    rewrite fetch_category_attempt. unfold try_except.
    change (S n + fuel)%nat with (S (n + fuel)) in Ha |- *. rewrite Ha, He.
    unfold bind at 1. unfold sleep. cbn [Z.ltb Z.compare fst snd].
    apply IH. exact Hn.
Qed.

(** X30.  The loop of [__cat_tree_rec] that fetches a category goes on
    until an attempt returns or raises [PageError].  After any number of
    attempts that raise another exception (a failed request, an error
    response, a site without the function), each followed by a sleep of one
    second, an attempt that returns gives the result of the loop, and an
    attempt that raises [PageError] makes the loop raise what
    [PageError(cat)] builds.  Nothing else gets out of the loop: whenever it
    raises, it raises that exception, which is the [PageError] for the
    category unless the name of the category is empty. *)
Theorem category_fetch_retries_all_but_page_error :
  forall (fuel : nat) (cat : string) (categories : page_memo) (links : dict)
         (w : World),
    (forall e,
        fst (fetch_category fuel cat categories links w) = Raise e ->
        e = PageError_new [VStr cat] []
        /\ (cat <> EmptyString -> e = PageError (Some (VStr cat)) None))
    /\ (forall n k w',
           fuel = S (n + k) ->
           retried n k cat categories links w w' ->
           (forall r w2,
               category_attempt k cat categories links w' = (Ok r, w2) ->
               fetch_category fuel cat categories links w = (Ok r, w2))
           /\ (forall e w2,
                  category_attempt k cat categories links w' = (Raise e, w2) ->
                  is_PageError e = true ->
                  fetch_category fuel cat categories links w
                  = (Raise (PageError_new [VStr cat] []), w2))).
Proof.
  intros fuel cat categories links w. split.
  - intros e H. apply fetch_category_raises in H. split; [exact H|].
    intros Hc. subst e. unfold PageError_new, PageError_init.
    destruct cat; [contradiction Hc; reflexivity|reflexivity].
  - intros n k w' -> Hn.
    rewrite (fetch_category_retried n k cat categories links w w' Hn).
    rewrite fetch_category_attempt. unfold try_except. split.
    + intros r w2 Ha. rewrite Ha. reflexivity.
    + intros e w2 Ha He. rewrite Ha, He. reflexivity.
Qed.

End Retry.

(* ===================================================================== *)
(** ** The further properties on the fixtures *)
(* ===================================================================== *)

Ltac on_fixture :=
  solve [ vm_compute; reflexivity
        | reflexivity
        | discriminate
        | lia
        | let H := fresh in intros H; vm_compute in H; discriminate H
        | split; [eexists; split; vm_compute; reflexivity
                 |first [discriminate
                        |intros _; eexists; split; vm_compute; reflexivity]] ].

Lemma wiki_request_wire_format_witness :
  let w := Fixture.world [Fixture.json (VDict [])] in
  fst (_wiki_request [("list", VStr "random")] w) = Ok (VDict [])
  /\ pending (snd (_wiki_request [("list", VStr "random")] w)) = [].
Proof.
  intros w.
  destruct (wiki_request_wire_format [("list", VStr "random")] w eq_refl)
    as (E & P & _).
  split; [exact E|exact P].
Defined.

Lemma wiki_request_records_call_time_witness :
  let w := Fixture.state Fixture.fresh_limited_site [] [Fixture.json (VDict [])] in
  fst (_wiki_request [] w) = Ok (VDict [])
  /\ slept (snd (_wiki_request [] w)) = [].
Proof.
  intros w.
  destruct (wiki_request_records_call_time [] w (VDict []) [] eq_refl eq_refl
              (or_introl eq_refl)) as (E & S & _).
  split; [exact E|exact S].
Defined.

Lemma configuration_reaches_next_request_witness :
  let w := Fixture.world [Fixture.json (VDict [])] in
  exists rq,
    sent (snd ((set_user_agent "rocq-bot/1.0" ;; set_timeout (Some 5) ;;
                _wiki_request []) w)) = rq :: sent w
    /\ rq_user_agent rq = "rocq-bot/1.0"
    /\ rq_timeout rq = Some 5.
Proof.
  intros w.
  destruct (configuration_reaches_next_request "rocq-bot/1.0" (Some 5) [] w eq_refl)
    as (_ & H).
  exact H.
Defined.

Lemma site_info_holds_every_extension_witness :
  let w := Fixture.state initial_globals [] [Fixture.json Fixture.siteinfo_response] in
  let w' := snd (_get_site_info w) in
  API_VERSION_MAJOR_MINOR (globals w') = Some [1; 28; 0]
  /\ ensure_site_info w' = (Ok tt, w').
Proof.
  intros w w'.
  assert (E : fst (_get_site_info w) = Ok tt) by (vm_compute; reflexivity).
  destruct (site_info_holds_every_extension w w' Fixture.siteinfo_response [] _ _
              eq_refl eq_refl eq_refl eq_refl (run_pair _ _ E)) as (_ & H & _).
  split; [vm_compute; reflexivity|exact H].
Defined.

Lemma old_site_is_refused_before_any_request_witness :
  let w := Fixture.state Fixture.old_site [] [] in
  run_query QPrefexsearch ([VStr "ro"], []) w
  = (Raise (WikipediaAPIVersionError "http://en.wikipedia.org/w/api.php"
              (Some "1.15.0") "1.23" "prefixsearch"), w).
Proof.
  intros w.
  exact (old_site_is_refused_before_any_request QPrefexsearch (VStr "ro") w [1; 15; 0]
           eq_refl eq_refl eq_refl).
Defined.

Lemma blank_query_is_refused_before_any_request_witness :
  let w := Fixture.world [] in
  run_query QSearch ([VStr "  "], []) w
  = (Raise (ValueError "Query must be specified"), w).
Proof.
  intros w.
  refine (blank_query_is_refused_before_any_request QSearch (VStr "  ") w
            (conj (ex_intro _ [1; 28; 0] (conj eq_refl eq_refl)) _) eq_refl eq_refl).
  discriminate.
Defined.

Lemma search_returns_titles_in_order_witness :
  let w := Fixture.world [Fixture.json (Fixture.search_results ["Rocq"; "Coq"])] in
  exists w',
    search ([VStr "rocq"; VInt 10; VBool false], []) w
    = (Ok (VList [VStr "Rocq"; VStr "Coq"]), w')
    /\ pending w' = [].
Proof.
  intros w.
  edestruct (search_returns_titles_in_order (VStr "rocq") (VInt 10) (VBool false) w)
    with (s := VNone) as (w' & E & _ & P); try on_fixture.
  exists w'. split; [exact E|exact P].
Defined.

Lemma search_error_response_witness :
  let w := Fixture.world [Fixture.json
                            (Fixture.error_response "HTTP request timed out.")] in
  fst (search ([VStr "rocq"; VInt 10; VBool false], []) w)
  = Raise (HTTPTimeoutError (VStr "rocq")).
Proof.
  intros w.
  erewrite (search_error_response (VStr "rocq") (VInt 10) (VBool false) w);
    [|on_fixture..].
  reflexivity.
Defined.

Lemma categorymembers_timeout_raises_name_error_witness :
  let w := Fixture.world [Fixture.json
                            (Fixture.error_response "Pool queue is full")] in
  fst (categorymembers ([VStr "Logic"; VInt 10; VBool true], []) w)
  = Raise (NameError "query").
Proof.
  intros w.
  erewrite (categorymembers_timeout_raises_name_error "Logic" (VInt 10) (VBool true) w);
    [|on_fixture..].
  reflexivity.
Defined.

Lemma categorymembers_sorts_members_by_type_witness :
  let w := Fixture.world
             [Fixture.json
                (Fixture.members_response
                   [Fixture.member "page" "Modus ponens";
                    Fixture.member "file" "File:Proof.png";
                    Fixture.member "subcat" "Category:Proof"])] in
  fst (categorymembers ([VStr "Logic"; VInt 10; VBool true], []) w)
  = Ok (VTuple [VList [VStr "Modus ponens"]; VList [VStr "Proof"]]).
Proof.
  intros w.
  edestruct (categorymembers_sorts_members_by_type "Logic" (VInt 10) (VBool true) w)
    with (l := [("page", "Modus ponens"); ("file", "File:Proof.png");
                ("subcat", "Category:Proof")])
    as (w' & E & _); [on_fixture.. | repeat constructor |].
  rewrite E. reflexivity.
Defined.

Lemma result_limit_is_capped_at_100_witness :
  let w := Fixture.world [Fixture.json (Fixture.prefix_results ["Rocq"])] in
  exists rq,
    sent (snd (prefexsearch ([VStr "ro"; VInt 500], []) w)) = [rq]
    /\ Dict.get "pslimit" (rq_params rq) = Some (VInt 100).
Proof.
  intros w.
  apply (result_limit_is_capped_at_100 QPrefexsearch (VStr "ro") 500 w);
    first [left; reflexivity | on_fixture].
Defined.

Lemma get_summary_parameters_witness :
  let w := Fixture.page_world [Fixture.json Fixture.content_response] in
  exists rq,
    sent (snd (get_summary 0%nat 25 300 w)) = [rq]
    /\ Dict.get "exsentences" (rq_params rq) = Some (VInt 10)
    /\ Dict.get "exchars" (rq_params rq) = None.
Proof.
  intros w.
  edestruct (get_summary_parameters 0%nat 25 300 w)
    as (rq & S & _ & _ & H1 & H2 & _); try on_fixture.
  exists rq. split; [exact S|]. split; [exact H1|exact H2].
Defined.

Lemma random_returns_one_title_bare_witness :
  let w := Fixture.world [Fixture.json (Fixture.random_response ["Rocq"])] in
  fst (random ([VInt 5], []) w) = Ok (VStr "Rocq").
Proof.
  intros w.
  erewrite (random_returns_one_title_bare 5 w); [|on_fixture..].
  reflexivity.
Defined.

Lemma opensearch_needs_the_extension_witness :
  let w := Fixture.world [] in
  opensearch ([VStr "ro"], []) w
  = (Raise (WikipediaExtensionError "http://en.wikipedia.org/w/api.php"
              "OpenSearch" "opensearch"), w).
Proof.
  intros w.
  exact (opensearch_needs_the_extension (VStr "ro") w [1; 28; 0]
           [VStr "TextExtracts"; VStr "GeoData"] eq_refl eq_refl eq_refl eq_refl
           eq_refl).
Defined.

Lemma opensearch_rows_of_the_response_witness :
  let w := Fixture.state Fixture.opensearch_site []
             [Fixture.json Fixture.opensearch_response] in
  fst (opensearch ([VStr "ro"; VInt 10; VBool false], []) w)
  = Ok (VList [VTuple [VStr "Rocq"; VStr "A proof assistant";
                       VStr "http://en.wikipedia.org/wiki/Rocq"];
               VTuple [VStr "Rome"; VStr "A city";
                       VStr "http://en.wikipedia.org/wiki/Rome"]]).
Proof.
  intros w.
  rewrite (opensearch_rows_of_the_response (VStr "ro") (VInt 10) (VBool false) w
             _ [] _ _ _ false
             (conj (ex_intro _ [1; 28; 0] (conj eq_refl eq_refl))
                   (fun _ => ex_intro _ [VStr "OpenSearch"] (conj eq_refl eq_refl)))
             eq_refl eq_refl eq_refl eq_refl eq_refl eq_refl eq_refl eq_refl).
  reflexivity.
Defined.

Lemma page_loads_the_suggested_title_witness :
  let w := Fixture.world [Fixture.json (Fixture.search_results ["Rocq"]);
                          Fixture.json (Fixture.plain_page "42" "Rocq")] in
  exists w',
    page (X := Fixture.externals) 1 (VStr "rocq") VNone true true false w
    = (Ok 1%nat, w')
    /\ Dict.get "title" (heap w' 1%nat) = Some (VStr "Rocq")
    /\ pending w' = [].
Proof.
  intros w.
  edestruct (page_loads_the_suggested_title (X := Fixture.externals) 0 (VStr "rocq")
               VNone w)
    with (s := VNone) (pid := "42")
    as (w' & E & _ & T & _ & _ & _ & P);
    try on_fixture.
  1: do 2 eexists; repeat split; reflexivity.
  all: try on_fixture.
  exists w'. split; [exact E|]. split; [exact T|exact P].
Defined.

Lemma page_without_search_result_raises_page_error_witness :
  let w := Fixture.world [Fixture.json (Fixture.search_results [])] in
  fst (page (X := Fixture.externals) 1 (VStr "qwertz") VNone true true false w)
  = Raise (PageError (Some (VStr "qwertz")) None).
Proof.
  intros w.
  edestruct (page_without_search_result_raises_page_error (X := Fixture.externals) 1
               (VStr "qwertz") VNone true false w)
    with (s := VNone) as (w' & E & _); [on_fixture.. |].
  rewrite E. reflexivity.
Defined.

Lemma missing_page_under_false_identifier_witness :
  let w := Fixture.world [Fixture.json Fixture.missing_response] in
  fst (init (X := Fixture.externals) 1 0%nat VNone (VInt 0) true false
            (VStr EmptyString) w)
  = Raise IndexError.
Proof.
  intros w.
  rewrite (missing_page_under_false_identifier (X := Fixture.externals) 0 0%nat
             VNone (VInt 0) (VStr EmptyString) true false w [1; 28; 0]
             Fixture.missing_response [] _ "-1" _ eq_refl eq_refl eq_refl eq_refl
             eq_refl
             (ex_intro _ _ (ex_intro _ [] (conj eq_refl (conj eq_refl eq_refl))))
             eq_refl).
  reflexivity.
Defined.

Lemma disambiguation_needs_a_link_in_every_item_witness :
  disambiguation_lists Fixture.disambiguation_items
  = inr ([VStr "Rocq (software)"],
         [VDict [("title", VStr "Rocq (software)");
                 ("description", VStr "Rocq (software), a proof assistant")]]).
Proof.
  destruct (disambiguation_needs_a_link_in_every_item Fixture.disambiguation_items)
    as [H _].
  apply (H [("Rocq (software)", "Rocq (software)")]).
  constructor; [|constructor].
  eexists. exists []. repeat split.
Defined.

Lemma unsupported_field_is_left_none_witness :
  let w := Fixture.state Fixture.old_site Fixture.loaded_page [] in
  exists w',
    access (X := Fixture.externals) 0 Redirects 0%nat w
    = (Raise (WikipediaAPIVersionError "http://en.wikipedia.org/w/api.php"
                (Some "1.15.0") "1.24" "redirects"), w')
    /\ Dict.get "_redirects" (heap w' 0%nat) = Some VNone
    /\ sent w' = [].
Proof.
  intros w.
  destruct (unsupported_field_is_left_none (X := Fixture.externals) 0 Redirects
              0%nat w eq_refl) as [H _].
  exact (H [1; 24] "1.24" "redirects" [1; 15; 0] eq_refl eq_refl eq_refl).
Defined.

Lemma preload_never_fails_for_unsupported_property_witness :
  let w := Fixture.page_world [] in
  fst (preload_properties (X := Fixture.externals) 1 0%nat w)
  = Raise (RequestException "ConnectionError")
  /\ is_WikipediaAPIVersionError (RequestException "ConnectionError") = false.
Proof.
  intros w.
  assert (E : fst (preload_properties (X := Fixture.externals) 1 0%nat w)
              = Raise (RequestException "ConnectionError"))
    by (vm_compute; reflexivity).
  split; [exact E|].
  exact (proj1 (preload_never_fails_for_unsupported_property
                  (X := Fixture.externals) 1 0%nat w _ E)).
Defined.

Lemma content_fetch_loads_revision_ids_witness :
  let w := Fixture.page_world [Fixture.json Fixture.content_response] in
  let w1 := snd (content 0%nat w) in
  exists revid parentid,
    revision_id 0%nat w1 = (Ok revid, w1)
    /\ parent_id 0%nat w1 = (Ok parentid, w1).
Proof.
  intros w w1.
  assert (E : fst (content 0%nat w) = Ok (VStr "Rocq is a proof assistant."))
    by (vm_compute; reflexivity).
  destruct (content_fetch_loads_revision_ids 0%nat w w1 _ eq_refl (run_pair _ _ E)
              eq_refl)
    as (revid & parentid & _ & _ & H1 & H2).
  exists revid, parentid. split; [exact H1|exact H2].
Defined.

Lemma set_lang_refuses_an_unchanged_url_witness :
  let w := Fixture.world [] in
  set_lang "EN" w
  = (Raise (WikipediaAPILanguageError "http://en.wikipedia.org/w/api.php" "en" "en"),
     w).
Proof.
  intros w.
  exact (set_lang_refuses_an_unchanged_url "EN" w (or_intror eq_refl)).
Defined.

Lemma failed_check_of_a_new_site_witness :
  let w := Fixture.world [] in
  (exists w',
      set_lang "fr" w
      = (Raise (WikipediaAPIURLError "http://fr.wikipedia.org/w/api.php"), w')
      /\ API_URL (globals w') = "http://en.wikipedia.org/w/api.php")
  /\ exists w',
       set_api_url "http://wiki.example.org/w/api.php" "xx" w
       = (Raise (WikipediaAPIURLError "http://wiki.example.org/w/api.php"), w')
       /\ API_URL (globals w') = "http://wiki.example.org/w/api.php".
Proof.
  intros w.
  destruct (failed_check_of_a_new_site "http://wiki.example.org/w/api.php" "xx" w
              (RequestException "ConnectionError") eq_refl eq_refl eq_refl)
    as [_ (w2 & E2 & U2 & _)].
  destruct (failed_check_of_a_new_site "http://wiki.example.org/w/api.php" "fr" w
              (RequestException "ConnectionError") eq_refl eq_refl eq_refl)
    as [H1 _].
  destruct (H1 ltac:(intros H; vm_compute in H; discriminate H))
    as (w1 & E1 & U1 & _).
  split.
  - exists w1. split; [exact E1|exact U1].
  - exists w2. split; [exact E2|exact U2].
Defined.

Lemma set_lang_keeps_the_site_information_witness :
  let w := Fixture.world [Fixture.json Fixture.languages_response] in
  exists w',
    set_lang "FR" w = (Ok tt, w')
    /\ API_URL (globals w') = "http://fr.wikipedia.org/w/api.php"
    /\ LANGUAGE_PREFIX (globals w') = "fr"
    /\ API_VERSION (globals w') = Some "1.28.0".
Proof.
  intros w.
  assert (E : exists v, fst (languages ([], []) w) = Ok v)
    by (eexists; vm_compute; reflexivity).
  destruct E as (v & E).
  destruct (set_lang_keeps_the_site_information "FR" w _ v
              ltac:(intros H; vm_compute in H; discriminate H) (run_pair _ _ E))
    as (w' & R & U & P & V & _).
  exists w'. split; [exact R|]. split; [exact U|]. split; [exact P|exact V].
Defined.

Lemma suggest_skips_the_error_check_witness :
  let w1 := Fixture.world [Fixture.json (Fixture.suggestion_response "rocq prover")] in
  let w2 := Fixture.world [Fixture.json
                             (Fixture.error_response "HTTP request timed out.")] in
  fst (suggest ([VStr "roqc prover"], []) w1) = Ok (VStr "rocq prover")
  /\ fst (suggest ([VStr "roqc prover"], []) w2) = Raise (KeyError (VStr "query")).
Proof.
  intros w1 w2. split.
  - edestruct (suggest_skips_the_error_check (VStr "roqc prover") w1) as [H _];
      [on_fixture..|].
    edestruct H as [E _]; [reflexivity|reflexivity|exact E].
  - edestruct (suggest_skips_the_error_check (VStr "roqc prover") w2) as [_ H];
      [on_fixture..|].
    rewrite H; reflexivity.
Defined.

(** The rounds of the continuation over answers that are at hand. *)
Ltac on_rounds :=
  repeat first
    [ eapply continued_datum
    | solve [eapply continued_last; vm_compute; reflexivity]
    | eapply continued_more; [vm_compute; reflexivity|vm_compute; reflexivity|]
    | solve [eapply continued_stop; vm_compute; reflexivity]
    | eapply continued_round;
      [vm_compute; reflexivity|vm_compute; reflexivity|vm_compute; reflexivity|] ].

(** The checks of a field on a site that is at hand. *)
Ltac on_site :=
  first [ on_fixture
        | exact I
        | solve [vm_compute; eexists; split; reflexivity] ].

Lemma lazy_field_read_then_cached_witness :
  let w := Fixture.page_world [Fixture.json Fixture.content_response] in
  let u := Fixture.page_world
             (map Fixture.json [Fixture.round_1; Fixture.round_2; Fixture.round_3]) in
  (exists w',
      access (X := Fixture.externals) 2 Content 0%nat w
      = (Ok (VStr "Rocq is a proof assistant."), w')
      /\ List.length (sent w') = 1%nat
      /\ access (X := Fixture.externals) 0 Content 0%nat w'
         = (Ok (VStr "Rocq is a proof assistant."), w'))
  /\ (exists u',
         access (X := Fixture.externals) 9 Links 0%nat u
         = (Ok (VList [VStr "A"; VStr "B"; VStr "C"; VStr "D"; VStr "E"]), u')
         /\ List.length (sent u') = 3%nat
         /\ pending u' = []
         /\ access (X := Fixture.externals) 0 Links 0%nat u'
            = (Ok (VList [VStr "A"; VStr "B"; VStr "C"; VStr "D"; VStr "E"]), u')).
Proof.
  intros w u. split.
  - destruct (lazy_field_read_then_cached (X := Fixture.externals) 2 Content 0%nat w)
      as [H1 H2].
    edestruct (H1 (VStr "Rocq") (VStr "42")) as (w' & E & _ & S & _ & _);
      [on_site..| | |].
    + eapply reads_content; vm_compute; reflexivity.
    + vm_compute. lia.
    + exists w'. split; [exact E|]. split.
      * rewrite <- (length_map rq_params), S. reflexivity.
      * destruct (H2 _ _ E) as [_ H3]. exact (H3 eq_refl 0%nat).
  - destruct (lazy_field_read_then_cached (X := Fixture.externals) 9 Links 0%nat u)
      as [H1 H2].
    edestruct (H1 (VStr "Rocq") (VStr "42")) as (u' & E & _ & S & P & _);
      [on_site..| | |].
    + eapply (reads_loop (VStr "Rocq") (VStr "42") Links); [reflexivity|on_rounds|].
      vm_compute. reflexivity.
    + vm_compute. lia.
    + exists u'. split; [exact E|]. split; [|split].
      * rewrite <- (length_map rq_params), S. reflexivity.
      * exact P.
      * destruct (H2 _ _ E) as [_ H3]. exact (H3 eq_refl 0%nat).
Defined.

Lemma references_are_absolute_urls_witness :
  let w := Fixture.page_world
             (map Fixture.json
                  [Fixture.extlinks_round (Some [("elcontinue", VStr "42|1");
                                                  ("continue", VStr "||")])
                                           ["//example.org/a"];
                   Fixture.extlinks_round None ["http://rocq-prover.org"]]) in
  exists w',
    references 5 0%nat w
    = (Ok (VList [VStr "http://example.org/a"; VStr "http://rocq-prover.org"]), w')
    /\ List.length (sent w') = 2%nat
    /\ absolute_urls (VList [VStr "http://example.org/a"; VStr "http://rocq-prover.org"]).
Proof.
  intros w.
  destruct (references_are_absolute_urls (X := Fixture.externals) 5 0%nat w eq_refl)
    as [H1 H2].
  edestruct (H2 (VStr "Rocq") (VStr "42")) as (w' & E & S & _);
    [on_site..| | | |].
  - on_rounds.
  - vm_compute. reflexivity.
  - vm_compute. lia.
  - exists w'. split; [exact E|]. split.
    + rewrite <- (length_map rq_params), S. reflexivity.
    + exact (H1 _ _ E).
Defined.

Lemma category_fetch_retries_all_but_page_error_witness :
  let w := Fixture.world (NoReply (RequestException "ConnectionError")
                          :: firstn 4 Fixture.tree_replies) in
  let r := fetch_category (X := Fixture.externals) 7 "Logic" [] [] w in
  let v := Fixture.world [Fixture.json (Fixture.search_results ["Category:Nope"]);
                          Fixture.json Fixture.missing_response] in
  let q := fetch_category (X := Fixture.externals) 3 "Nope" [] [] v in
  (exists p members,
      fst r = Ok ([("Logic", p)], [("Logic", members)])
      /\ slept (snd r) = [1]
      /\ List.length (sent (snd r)) = 5%nat)
  /\ fst q = Raise (PageError (Some (VStr "Nope")) None).
Proof.
  intros w r v q. split.
  - destruct (category_fetch_retries_all_but_page_error (X := Fixture.externals)
                7 "Logic" [] [] w) as [_ H].
    assert (E1 : fst (category_attempt (X := Fixture.externals) 6 "Logic" [] [] w)
                 = Raise (RequestException "ConnectionError"))
      by (vm_compute; reflexivity).
    pose (w1 := snd (category_attempt (X := Fixture.externals) 6 "Logic" [] [] w)).
    pose (w' := with_slept (1 :: slept w1) w1).
    assert (E2 : exists p members,
               fst (category_attempt (X := Fixture.externals) 5 "Logic" [] [] w')
               = Ok ([("Logic", p)], [("Logic", members)]))
      by (do 2 eexists; vm_compute; reflexivity).
    destruct E2 as (p & members & E2).
    destruct (H 1%nat 5%nat w' eq_refl) as [Hok _].
    + exists (RequestException "ConnectionError"), w1.
      split; [exact (run_pair _ _ E1)|]. split; reflexivity.
    + exists p, members. unfold r.
      rewrite (Hok _ _ (run_pair _ _ E2)).
      split; [reflexivity|]. split; vm_compute; reflexivity.
  - destruct (category_fetch_retries_all_but_page_error (X := Fixture.externals)
                3 "Nope" [] [] v) as [H _].
    assert (E : exists e, fst q = Raise e) by (eexists; vm_compute; reflexivity).
    destruct E as (e & E). rewrite E.
    destruct (H e E) as [_ He]. rewrite (He ltac:(discriminate)). reflexivity.
Defined.
